(* ===== verification/_CoqProject ===== *)
-Q . S2P
Prelude.v
PyStr.v
PyDict.v
PyFormat.v
Utf8.v
Parser.v
ParserSpec.v
ParserSteps.v
Template.v
Extractor.v
Renderer.v
Outside.v
Requester.v
Source.v
Pipeline.v
Traces.v
Doubles.v
Safety.v
Runs.v
Console.v
