(* ===== verification/Prelude.v ===== *)
(** * Assistente de Estudo: a verification development for [src/main.py]

    The program is a single-run pipeline of five stages:

      escolher_pdf -> extrair_texto_pdf -> gerar_topicos_ollama
                   -> parse_topicos -> criar_mapa_mental

    driven by [main].  A PDF is picked, its text is extracted page by page,
    a language model is asked for a two-level outline, the free-text reply
    is parsed into a dict from topic name to list of subtopic names, and
    the dict is rendered as a tree diagram.  The stages interact through
    values only (a path, a text, a reply, a dict); what they share with
    the outside is the console and five libraries, and a run is modelled
    as the sequence of its calls to them, each of which may raise.

    ** Files, in dependency order

    - [Prelude] (this file): what every component shares.  Python
      exceptions as the inductive [exn], a computation that may raise as
      [res A] (a monad, with stdpp's [x ← m; k] notation), the [for] loop
      with early exit as [res_foldl], the loop whose body asks something
      that may raise as [res_foldl_ans], with the elements it gets to
      ([until_raise]), what leaving a [with] block makes of the outcome
      of its body ([leaving]), [enumerate], Python truthiness as
      the class [Truthy], [drop_while]/[take_while]/[drop_while_end] on
      lists with their lemmas, the lemmas on loops that append, the
      tactics of the development and the hint database [py], for
      resolution and for rewriting, that the later files fill.
    - [PyStr]: Python's [str] as a list of Unicode code points ([N]) and
      the builtin methods the source calls: [splitlines], [strip],
      [startswith], [in], [split(sep, 1)], indexing and slicing.  The
      white-space and line-boundary sets are CPython's.
    - [PyDict]: the insertion-ordered [dict] as an association list with
      unique keys; [d[k] = v] keeps the position of an existing key and
      puts a new key last.  Its abstract view is the ordered map: a
      [gmap] ([to_gmap]) with the order of the keys ([dict_keys]); [≡]
      is Python's [==] on dicts.
    - [PyFormat]: [f"{i}"] for a non-negative int.
    - [Utf8]: [str.encode("utf-8")] and [bytes.decode("utf-8")], strict,
      over code points and bytes as numbers (lines 65 and 68).
    - [Parser]: [parse_topicos] (lines 80-102).  State: the record
      [pstate] with the dict [topicos] and the variable [current_topico].
      One definition per branch of the loop body ([topic_branch],
      [subtopic_branch]), the body [parse_line], the loop [parse_lines]
      as [res_foldl] over [splitlines], and the step relation
      [reachable] on states.
    - [ParserSpec]: the parser's contract as the spec words it (sections
      4.1, 8 and 9): a stateless classifier of lines ([classify]), a
      reducer ([reduce]), the grouping of classified lines into topic
      blocks ([blocks]) and the outline of a reply ([outline_of]).
    - [ParserSteps]: the loop of [parse_topicos] (lines 90-102) as a
      small-step semantics on the configurations [Loop st linhas],
      [Returned o] and [Raised e].  The relation [step] has one rule
      for each way through the loop body, with the conditions of the
      code as premises: a blank line (lines 92-93), a topic line with a
      colon (96-97) and without ([IndexError] at 96), a subtopic line
      whose topic is a key of the dict (100-101) and is not ([KeyError]
      at 101), any other line, and the [return] of line 102.  [next] is
      the same iteration computed by [parse_line], [step_fun] the
      function of the relation, [exec] its iteration with fuel,
      [config_wf] the invariant of the configurations and [passed] the
      lines before the first topic line without a colon.
    - [Template]: the printer of the bullet format that the prompt
      shows the model (lines 51-57), and the round trip through the
      parser.
    - [Extractor]: [extrair_texto_pdf] (lines 33-40): the opening of
      the file, the [with] block, the request for the pages, the loop
      that asks each page for its text ([read_pages], [add_page]) and
      the closing of the file when the block is left, each of which
      may raise; [pages_read] is the pages the loop gets to.
    - [Renderer]: [criar_mapa_mental] (lines 107-127): the statements
      appended to the Digraph by the two nested loops ([add_topico],
      [add_subtopico], [build_graph]), their closed form, the positions
      of the nodes ([node_id]), the edges as a relation on keys
      ([edge_rel]), and the function itself, [criar_mapa_mental], over
      what the outside answers (whether dot is found, what rendering
      does, what [print] does with a line): a [print] that raises
      leaves the function ([report]), except the print of the saved
      message, which is inside the [try] and whose exception the
      handler reports like a failure of the rendering.  Its result is
      a [render_outcome]: the lines handed to [print], the graph it
      says it saved, the exception that leaves it.
    - [Outside]: the calls of a run to the outside.  An [event] is a
      call with its arguments ([tk.Tk()], [root.withdraw()],
      [filedialog.askopenfilename], [pdfplumber.open], [pdf.pages],
      [pagina.extract_text()], the closing of the file,
      [subprocess.run], [shutil.which], [dot.render], [print]); the
      record [world] is what the imported libraries (lines 9-15) and
      the console answer to each, an exception included; [io A] is the
      trace of the calls made, in order, with the value computed or
      the exception raised.  [io] is a monad: [print], [outside] (a
      library call) and [call] (an expression that may raise) are its
      operations, [catch] is [try]/[except], [with_exit] the [with]
      block and [io_foldl] the [for] loop.  [rank] is the place of a
      call in the program text.
    - [Requester]: [gerar_topicos_ollama] (lines 45-75): the prompt
      around [texto[:4000]], the body of the [try] ([request]), the two
      handlers, the three diagnostics, the paths through the [try]
      and its handlers as the relation [reply_of] (lines 62-75), and
      [answered], the answer of the model when it gave one.
    - [Source]: the interface between the requester and the stages
      after it, as the spec asks for it (section 9): the class
      [OutlineSource] of a function from texts to replies with its two
      laws (the reply parses like the answer of the model; a
      diagnostic holds no topic).  [ollama_source] implements it with
      [gerar_topicos_ollama]; [canned_source] and [silent_source] are
      the fakes of the tests; the lemmas of its section [client] hold
      of any source.
    - [Pipeline]: every function of the source as a computation in
      [io], written as the source writes it: [escolher_pdf] (lines
      21-28), [extrair_texto_pdf_io], [gerar_topicos_ollama_io] and
      [criar_mapa_mental_io] (the stages with their library calls and
      handlers, each proved to compute what the pure model of its file
      computes from the answers of the world), and [main] (lines
      132-151).  [run_main] is a run and [run_result] what it leaves:
      the trace, the diagram it says it saved, the exception nobody
      caught.  [run_cases] is the same run in direct style, built
      from [say] (a print and what follows, unless the console
      raises), [after] (calls and what follows), [stop] and [finish],
      one case per way through [main]; [run_main w = run_cases w] for
      every world.
    - [Traces]: [rendering], the call of [criar_mapa_mental] in the
      world of a run, and [render_fine], the same call when [print]
      returns; the rendering stage of a run is the calls of the stage
      followed by the lines of [rendering] ([render_cases_spec]).
      [run_fine] is the run when no print raises, by cases on the
      answers of the outside and in terms of the events of the
      successive stages ([dialog], [opening], [progress],
      [render_events]); [console_fine w] says that the console of [w]
      takes every line the run of [main] prints, and then
      [run_main w = run_fine w].
    - [Doubles]: the worlds of the witnesses and of the examples, and
      the consoles in UTF-8 and in Latin-1.
    - [Safety]: what holds of every run, whatever the outside and the
      console answer: the guards of the calls ([guarded]), the
      protocol of the file ([handle], [handle_step]), the order of the
      calls ([within]), the closing messages, and text that stays
      text.  Each is proved along the structure of [run_cases] from
      one lemma for [after], one for [say] and one per stage.  The
      predicates and the automaton of this file are specifications on
      traces, not translations of code.
    - [Runs]: the runs on a console that takes their lines.
    - [Console]: the runs on a console that refuses a line.

    ** What the theorems show

    - [PyStr]: [strip] removes white space at both ends and nothing
      else; [splitlines] inverts joining with a line feed; how one more
      character changes the lines; the stripped lines of a str do not
      change when the str is stripped.
    - [PyDict]: every operation preserves uniqueness of keys; lookup
      after update; iteration order; refinement of the ordered map
      ([dict_refines_gmap]: an assignment is an insert that leaves the
      order of the known keys alone and puts a new key last, and the
      map and the order together determine the dict); equality of
      dicts as permutation.
    - [Utf8]: decoding inverts encoding and encoding inverts decoding;
      encoding raises exactly on surrogates; the encoding is made of
      bytes, one to four per character.
    - [Parser]: the invariant [state_wf] holds of every reachable
      state; the parser never raises [KeyError]; it raises [IndexError]
      exactly when some topic line has no colon (the spec says it never
      raises); replies without topic lines give the empty outline;
      orphan subtopics are dropped; white space around the reply is
      immaterial; the parser invents nothing (a property of the lines
      that [strip], the text after the first colon and the removal of
      a leading character keep is a property of every name of the
      outline; so every name is a run of consecutive characters of one
      line of the reply, [parse_topicos_pieces], and is made of
      characters of the reply).
    - [ParserSpec]: [parse_topicos] computes exactly [outline_of] the
      reply (functional refinement); order of the topics, value of a
      repeated topic, set of the topic names.
    - [ParserSteps]: the rules and [parse_line] agree (every rule is a
      case of [next], and [next] is always by a rule), so the system is
      deterministic and never stuck; [config_wf] is kept by every
      step, hence the rule that raises [KeyError] is never taken from
      the start; every sequence of steps is finite ([sn]); the loop
      takes exactly one step per line of [passed] and one more, and is
      then in the outcome of [parse_topicos]; [exec] reaches a final
      configuration exactly when the fuel exceeds the length of
      [passed] ([parse_topicos_terminates]).
    - [Template]: [parse_topicos (print_outline o) = Ok o] for exactly
      the well-formed outlines, hence for every outline the parser
      produces.
    - [Extractor]: pages without text contribute nothing; the loop is a
      homomorphism for the concatenation of page lists; the lines of the
      text are the page texts; the function returns exactly when the
      file opens, every page answers and the file closes
      ([extrair_texto_pdf_returns]), and which exception it raises
      otherwise ([extrair_texto_pdf_raises]: that of closing the file
      hides that of the block).
    - [Renderer]: the loops equal the closed form; node keys never
      collide; the edges are those of the tree of the outline; the
      graph is a tree rooted at the title, of depth at most two
      ([build_graph_tree]); the nodes, with their keys and labels in
      order, and their number ([build_graph_nodes]); the keys are
      ASCII and every str of the graph ([strings]) is made of the
      characters of the title, of the outline and of the keys; when a
      call says it saved a graph, and what it prints when [print]
      returns.
    - [Requester]: the prompt depends on the first 4000 characters
      only, and its encoding is at most 16309 bytes
      ([request_input_bounds]); the function returns exactly the reply its contract
      determines; the outline of what it returns is that of the model's
      answer; a diagnostic holds no topic when the text of the exception
      is a single line.
    - [Outside]: the monad laws of [io] and the equations that run a
      computation call by call.
    - [Source]: the outline a text leads to through any source is the
      outline of the answer of the model, or empty; [IndexError] is
      the only exception, and it is the parser's.
    - [Pipeline]: each stage in [io] computes what the model of the
      stage computes, and the monadic run equals the run in direct
      style ([run_main_cases]).
    - [Safety], of every run: the file is closed at the end, and the
      calls of pdfplumber follow the protocol of the [with] block
      ([run_main_closes]); the outside is called in the order of the
      program text, the pages in their order, each call at most once
      ([run_main_call_order]), and under the guards of the program
      text ([run_main_guarded]: nothing is rendered unless dot is
      found and the outline has a topic; the model gets the encoded
      prompt of the text read); the user is answered
      ([run_main_responds]: a run that raises nothing ends with a
      closing message, and a rendering requested is followed by the
      message that says how it went); text stays text
      ([run_main_encodable]: the lines printed and every str of the
      diagram, keys and labels, are made of scalar values).
    - [Runs], of a run on a console that takes its lines: when it ends
      with an exception ([run_main_uncaught]), when it renders a
      diagram and which ([run_main_diagram]), what it prints on each
      path ([run_main_stdout]), the whole trace of the run where
      everything works ([run_main_end_to_end]) and of the run where
      the model gives no answer ([run_main_no_answer], proved through
      the laws of [OutlineSource]).
    - [Console]: a line the console refuses ends the run with the
      exception of the console, except the message that the diagram
      is saved, whose exception the [except] of [criar_mapa_mental]
      takes for a failure of the rendering ([run_main_refused]); on a
      console in UTF-8 no line of a run is refused when the path and
      the texts of the exceptions are text ([run_main_utf8]).

    ** Modelling choices

    - A character is a code point of type [N], a byte a number below
      256.  Nothing is assumed about the range of a code point except
      where encoding needs it ([is_code_point], [encodable]).  String
      constants with characters outside ASCII are written [ulit "..."],
      the decoding of the UTF-8 bytes of the literal.
    - Exceptions are values: [Raise e].  Every loop of the source
      iterates over a finite list, and the model's recursion is
      structural, so every function is total and evaluates by
      [vm_compute].  The only fuel is that of [ParserSteps.exec], which
      iterates the step function of the parser's loop: the fuel is
      enough exactly when it exceeds the number of lines before the
      first topic line without a colon ([parse_topicos_terminates]),
      so one more than the number of lines of the reply always is,
      since every step but the last consumes a line.
    - A run is finite and its calls to the outside do not depend on
      one another except through the values the program passes, so a
      run is a list of events and a result rather than an interaction
      tree: the answers of the outside are functions of the arguments
      of the call, the fields of [world].  A world answers the same
      call the same way; no stage makes the same call twice.
      [shutil.which] is taken to answer and not to raise.
    - The operating system, tkinter, pdfplumber, the ollama process and
      Graphviz are not modelled.  Where a stage depends on their answer
      the answer is an argument of the pure model of the stage (the
      page texts, the bytes the process writes or the exception it
      raises, the text [str(e)] of an exception, whether dot is found,
      what rendering does), and a field of [world] for the stage in
      [io].  Test doubles ([canned], [no_ollama], and in [Doubles]
      [working], [cancelled], [unreadable], [torn], [without_dot],
      [disk_full], [headless], [terse], [offline], [narrow],
      [hung_up]) instantiate them in the witnesses and
      examples.
    - Interfaces are classes and records with instances, not module
      signatures: the record [world] is the interface of the imported
      libraries (every theorem on runs holds of every world), the
      class [OutlineSource] that of the requester.
    - [print] raises what the console raises: the console is the
      field [console] of [world], a function of the line.  The
      theorems of [Safety] and [Console] hold of every console; those
      of [Runs] are stated for a run none of whose prints raises
      ([console_fine], decidable, and implied by a console in UTF-8
      when the path and the texts of the exceptions are text).
      On a console in Latin-1 the first message, which starts with an
      emoji, is refused.
    - The pages of a file are numbered from 0 and [pdf.pages] answers
      their number; a page is asked for its text by its number, so the
      same page answers the same way.  The file object is not a
      value of the model: the protocol of its use is stated on the
      trace, by the automaton [handle_step] of [Safety], which is a
      monitor of the events and not a translation of code.  Leaving
      the [with] block closes the file whatever the block did, and
      what closing answers does not depend on how the block ended;
      [__exit__] never suppresses the exception of the block.
    - Only exceptions of class [Exception] are modelled, so [catch]
      and the handlers take every exception of the model: an interrupt
      from the keyboard during the call of the model is outside the
      model.  The message of a [UnicodeError] is not modelled beyond
      being the text [exn_str] gives.
    - [encode_char] gives four bytes to any number from 65536 on; a
      number above 1114111 is no character of a Python str, and every
      theorem on the codec assumes [is_code_point] or [is_scalar] of
      the characters it encodes.
    - The closed forms ([graph_stmts], [run_fine], [render_events],
      [opening], [progress]) and the predicates on traces and worlds
      ([guarded], [console_fine], [reads_as]) are what the theorems
      compare the code with; the definitions that translate code are
      those the theorems are about.

    ** Not modelled

    Every function of [src/main.py] is modelled; the lines the
    development does not map are the module docstring, the comments,
    the blank lines and the two imports nothing uses ([os], [re]).
    What lies behind the calls is not modelled, because it is not code
    of this repository: the window the dialog shows, the contents of
    PDF files and how pdfplumber reads them, the language model, the
    layout Graphviz computes and the file it writes.  Time is not
    modelled either: the run blocks while the model and Graphviz work,
    and the theorems on termination assume that each call to the
    outside returns or raises.  The traceback the interpreter prints
    for an exception nobody catches, and its exit status, are not
    modelled beyond the field [uncaught] of the result of a run. *)

From Stdlib Require Export NArith Lia ZifyBool.
From stdpp Require Export base tactics option numbers list.

(** * Exceptions and fallible computations *)

(** The exceptions the source can meet.  [OtherError] carries the
    message of any other exception, as code points. *)
Inductive exn : Type :=
| IndexError
| KeyError
| FileNotFoundError
| UnicodeError
| OtherError (msg : list N).

#[export] Instance exn_eq_dec : EqDecision exn.
Proof. solve_decision. Defined.

(** A computation that returns a value or raises. *)
Inductive res (A : Type) : Type :=
| Ok (a : A)
| Raise (e : exn).
Arguments Ok {A} a.
Arguments Raise {A} e.

#[export] Instance res_eq_dec `{EqDecision A} : EqDecision (res A).
Proof. solve_decision. Defined.

#[export] Instance res_ret : MRet res := @Ok.
#[export] Instance res_bind : MBind res := λ A B f m,
  match m with Ok a => f a | Raise e => Raise e end.
#[export] Instance res_fmap : FMap res := λ A B f m,
  match m with Ok a => Ok (f a) | Raise e => Raise e end.

(** [o] when it is [Some], else raise [e]: indexing and dict lookup. *)
Definition or_raise {A} (e : exn) (o : option A) : res A :=
  match o with Some a => Ok a | None => Raise e end.

(** [for b in l: a = f(a, b)], leaving the loop at the first exception. *)
Fixpoint res_foldl {A B} (f : A → B → res A) (a : A) (l : list B) : res A :=
  match l with
  | [] => Ok a
  | b :: l => a' ← f a b; res_foldl f a' l
  end.

(** [with ...: body]: what leaving the block makes of the outcome of
    the body.  The block is left whatever the body did; an exception
    raised on the way out replaces the value or the exception of the
    body. *)
Definition leaving {A} (closed : res unit) (body : res A) : res A :=
  match closed with Ok _ => body | Raise e => Raise e end.

(** [for b in l: c = ans(b); a = g(a, c)]: a loop whose body asks for
    an answer, which may be an exception, and cannot raise otherwise. *)
Definition res_foldl_ans {A B C} (ans : B → res C) (g : A → C → A) : A → list B → res A :=
  res_foldl (λ a b, c ← ans b; Ok (g a c)).

(** The elements such a loop asks about: those up to the first whose
    answer is an exception, and that one. *)
Fixpoint until_raise {B C} (ans : B → res C) (l : list B) : list B :=
  match l with
  | [] => []
  | b :: l => b :: match ans b with Ok _ => until_raise ans l | Raise _ => [] end
  end.

Definition is_ok {A} (r : res A) : bool :=
  match r with Ok _ => true | Raise _ => false end.

(** [enumerate(l)]: the elements with their positions, from 0. *)
Definition enumerate {A} (l : list A) : list (nat * A) := zip (seq 0 (length l)) l.

(** * Truthiness *)

(** Python's [bool(x)], as used by [if x:] and [x and y]. *)
Class Truthy (A : Type) := truthy : A → bool.
#[global] Hint Mode Truthy ! : typeclass_instances.

(** Sequences (str, list, the items of a dict) are true when not empty. *)
#[export] Instance list_truthy {A} : Truthy (list A) := λ l,
  match l with [] => false | _ => true end.

(** [None] is false; any other object answers for itself. *)
#[export] Instance option_truthy `{Truthy A} : Truthy (option A) := λ o,
  match o with None => false | Some a => truthy a end.

(** * Scanning lists *)

Section scan.
Context {A : Type} (p : A → bool).

Fixpoint drop_while (l : list A) : list A :=
  match l with
  | [] => []
  | x :: l' => if p x then drop_while l' else l
  end.

Fixpoint take_while (l : list A) : list A :=
  match l with
  | [] => []
  | x :: l' => if p x then x :: take_while l' else []
  end.

(** Drop the longest suffix whose elements satisfy [p]. *)
Fixpoint drop_while_end (l : list A) : list A :=
  match l with
  | [] => []
  | x :: l' =>
      match drop_while_end l' with
      | [] => if p x then [] else [x]
      | r => x :: r
      end
  end.

Lemma take_drop_while l : take_while l ++ drop_while l = l.
Proof. induction l as [|x l IH]; simpl; [done|]. destruct (p x); simpl; congruence. Qed.

Lemma drop_while_head l x l' : drop_while l = x :: l' → p x = false.
Proof.
  induction l as [|y l IH]; simpl; [done|].
  destruct (p y) eqn:E; [done|]. by intros [= -> _].
Qed.

Lemma drop_while_id l : head (p <$> l) ≠ Some true → drop_while l = l.
Proof. destruct l as [|x l]; simpl; [done|]. by destruct (p x). Qed.

Lemma drop_while_idemp l : drop_while (drop_while l) = drop_while l.
Proof.
  destruct (drop_while l) as [|x l'] eqn:E; [done|].
  apply drop_while_head in E. simpl. by rewrite E.
Qed.

Lemma drop_while_all l : Forall (λ x, p x = true) l → drop_while l = [].
Proof. induction 1 as [|x l Hx _ IH]; simpl; [done|]. by rewrite Hx. Qed.

Lemma drop_while_app_stop l x k :
  p x = false → drop_while (l ++ x :: k) = drop_while l ++ x :: k
  ∨ (drop_while l = [] ∧ drop_while (l ++ x :: k) = x :: k).
Proof.
  intros Hx. induction l as [|y l IH]; simpl.
  - rewrite Hx. by right.
  - destruct (p y); [done|]. by left.
Qed.

Lemma drop_while_suffix l : drop_while l `suffix_of` l.
Proof. exists (take_while l). by rewrite take_drop_while. Qed.

Lemma Forall_drop_while (P : A → Prop) l : Forall P l → Forall P (drop_while l).
Proof.
  intros H. rewrite <-(take_drop_while l) in H. by apply Forall_app in H as [_ ?].
Qed.

Lemma drop_while_app_all l k :
  Forall (λ x, p x = true) l → drop_while (l ++ k) = drop_while k.
Proof. induction 1 as [|x l Hx _ IH]; simpl; [done|]. by rewrite Hx. Qed.

Lemma drop_while_stop l x k :
  Forall (λ y, p y = true) l → p x = false → drop_while (l ++ x :: k) = x :: k.
Proof. intros Hl Hx. rewrite drop_while_app_all by done. simpl. by rewrite Hx. Qed.

Lemma take_while_stop l x k :
  Forall (λ y, p y = true) l → p x = false → take_while (l ++ x :: k) = l.
Proof.
  intros Hl Hx. induction Hl as [|y l Hy _ IH]; simpl; [by rewrite Hx|].
  by rewrite Hy, IH.
Qed.

Lemma drop_while_nil_inv l : drop_while l = [] → Forall (λ x, p x = true) l.
Proof.
  induction l as [|x l IH]; simpl; [done|].
  destruct (p x) eqn:E; [|done]. auto.
Qed.

Lemma drop_while_end_keep x l : p x = false → drop_while_end (x :: l) = x :: drop_while_end l.
Proof. intros Hx. simpl. destruct (drop_while_end l); by rewrite ?Hx. Qed.

Lemma drop_while_end_all l : Forall (λ x, p x = true) l → drop_while_end l = [].
Proof. induction 1 as [|x l Hx _ IH]; simpl; [done|]. by rewrite IH, Hx. Qed.

Lemma drop_while_end_nil_inv l : drop_while_end l = [] → Forall (λ x, p x = true) l.
Proof.
  induction l as [|x l IH]; simpl; [done|].
  destruct (drop_while_end l); [|done]. destruct (p x) eqn:E; [|done]. auto.
Qed.

Lemma drop_while_end_app_all l k :
  Forall (λ x, p x = true) k → drop_while_end (l ++ k) = drop_while_end l.
Proof.
  intros Hk. induction l as [|x l IH]; simpl; [by apply drop_while_end_all|].
  by rewrite IH.
Qed.

Lemma drop_while_end_snoc l x : p x = false → drop_while_end (l ++ [x]) = l ++ [x].
Proof.
  intros Hx. induction l as [|y l IH]; simpl; [by rewrite Hx|].
  rewrite IH. by destruct l.
Qed.

Lemma drop_while_end_last l x : last (drop_while_end l) = Some x → p x = false.
Proof.
  induction l as [|y l IH]; simpl; [done|].
  destruct (drop_while_end l) as [|z r].
  - destruct (p y) eqn:E; [done|]. by intros [= <-].
  - done.
Qed.

Lemma drop_while_end_prefix l : drop_while_end l `prefix_of` l.
Proof.
  induction l as [|x l IH]; simpl; [done|].
  destruct (drop_while_end l) as [|z r].
  - destruct (p x); [apply prefix_nil|]. apply prefix_cons, prefix_nil.
  - by apply prefix_cons.
Qed.

Lemma drop_while_end_id l :
  last l = None ∨ (∃ x, last l = Some x ∧ p x = false) → drop_while_end l = l.
Proof.
  destruct l as [|y l _] using rev_ind; [done|].
  rewrite last_snoc. intros [|(x & [= <-] & Hx)]; [done|]. by apply drop_while_end_snoc.
Qed.

Lemma drop_while_end_idemp l : drop_while_end (drop_while_end l) = drop_while_end l.
Proof.
  apply drop_while_end_id. destruct (last (drop_while_end l)) as [x|] eqn:E; [|by left].
  right. eauto using drop_while_end_last.
Qed.

(** Trimming at the front and trimming at the back commute. *)
Lemma drop_while_drop_while_end l :
  drop_while (drop_while_end l) = drop_while_end (drop_while l).
Proof.
  induction l as [|x l IH]; [done|].
  destruct (p x) eqn:Hx.
  - simpl. rewrite Hx. destruct (drop_while_end l) as [|z r] eqn:E.
    + symmetry. apply drop_while_end_all, Forall_drop_while.
      by apply drop_while_end_nil_inv.
    + simpl in *. by rewrite Hx.
  - rewrite drop_while_end_keep by done. simpl. rewrite Hx.
    by rewrite drop_while_end_keep.
Qed.

Lemma Forall_drop_while_end (P : A → Prop) l : Forall P l → Forall P (drop_while_end l).
Proof.
  intros H. destruct (drop_while_end_prefix l) as [k Hk].
  rewrite Hk in H. by apply Forall_app in H as [? _].
Qed.

Lemma Forall_take_while l : Forall (λ x, p x = true) (take_while l).
Proof.
  induction l as [|x l IH]; simpl; [done|]. destruct (p x) eqn:E; by constructor.
Qed.

(** What [drop_while_end] removes satisfies the predicate. *)
Lemma drop_while_end_removed l :
  ∃ k, l = drop_while_end l ++ k ∧ Forall (λ x, p x = true) k.
Proof.
  induction l as [|x l (k & Hk & Hp)] using rev_ind; [by exists []|].
  destruct (p x) eqn:Hx.
  - exists (k ++ [x]). rewrite drop_while_end_app_all by by repeat constructor.
    split; [by rewrite app_assoc, <-Hk|]. apply Forall_app. by repeat constructor.
  - exists []. by rewrite drop_while_end_snoc, app_nil_r.
Qed.

(** An element that stays protects everything before it. *)
Lemma drop_while_end_app_keep l x k :
  p x = false → drop_while_end (l ++ x :: k) = l ++ x :: drop_while_end k.
Proof.
  intros Hx. induction l as [|y l IH]; simpl.
  - destruct (drop_while_end k); [by rewrite Hx|done].
  - rewrite IH. by destruct l.
Qed.

End scan.

(** * Loops *)

Section res_foldl.
Context {A B : Type} (f : A → B → res A).

Lemma res_foldl_app a l k :
  res_foldl f a (l ++ k) = (a' ← res_foldl f a l; res_foldl f a' k).
Proof.
  revert a. induction l as [|b l IH]; intros a; simpl; [done|].
  destruct (f a b); simpl; [apply IH|done].
Qed.

(** An invariant of the loop body holds when the loop ends normally;
    [Q] is what is known of the elements iterated over. *)
Lemma res_foldl_inv (P : A → Prop) (Q : B → Prop) a l a' :
  (∀ a b a', P a → Q b → f a b = Ok a' → P a') →
  Forall Q l → P a → res_foldl f a l = Ok a' → P a'.
Proof.
  intros Hstep Hl. revert a. induction Hl as [|b l Hb _ IH]; intros a Ha; simpl.
  - by intros [= <-].
  - destruct (f a b) as [a1|] eqn:E; simpl; [|done]. eauto.
Qed.

(** A loop whose body cannot raise under the invariant cannot raise. *)
Lemma res_foldl_total (P : A → Prop) (Q : B → Prop) a l :
  (∀ a b, P a → Q b → ∃ a', f a b = Ok a' ∧ P a') →
  Forall Q l → P a → ∃ a', res_foldl f a l = Ok a' ∧ P a'.
Proof.
  intros Hstep Hl. revert a. induction Hl as [|b l Hb _ IH]; intros a Ha; simpl; [eauto|].
  destruct (Hstep a b Ha Hb) as (a1 & -> & Ha1). simpl. eauto.
Qed.

(** The loop raises [e] exactly when the body raises [e] at some element,
    having run normally up to it. *)
Lemma res_foldl_Raise a l e :
  res_foldl f a l = Raise e ↔
  ∃ l1 b l2 a1, l = l1 ++ b :: l2 ∧ res_foldl f a l1 = Ok a1 ∧ f a1 b = Raise e.
Proof.
  revert a. induction l as [|b l IH]; intros a; simpl.
  - split; [done|]. by intros ([|??] & ? & ? & ? & ? & _).
  - destruct (f a b) as [a1|e'] eqn:E; simpl.
    + rewrite IH. split.
      * intros (l1 & c & l2 & a2 & -> & Hrun & Hc).
        exists (b :: l1), c, l2, a2. simpl. by rewrite E.
      * intros ([|b' l1] & c & l2 & a2 & Hl & Hrun & Hc); simplify_eq/=;
          [congruence|].
        rewrite E in Hrun. eauto 8.
    + split.
      * intros [= ->]. by exists [], b, l, a.
      * intros ([|b' l1] & c & l2 & a2 & Hl & Hrun & Hc); simplify_eq/=;
          [congruence|by rewrite E in Hrun].
Qed.

End res_foldl.

Lemma res_foldl_ans_cons {A B C} (ans : B → res C) (g : A → C → A) a b l :
  res_foldl_ans ans g a (b :: l) = (c ← ans b; res_foldl_ans ans g (g a c) l).
Proof. unfold res_foldl_ans. simpl. by destruct (ans b). Qed.

Section res_foldl_ans.
Context {A B C : Type} (ans : B → res C) (g : A → C → A).

(** The loop ends normally exactly when every answer is a value; it
    then folds the answers. *)
Lemma res_foldl_ans_Ok a l a' :
  res_foldl_ans ans g a l = Ok a' ↔
  ∃ cs, Forall2 (λ b c, ans b = Ok c) l cs ∧ a' = foldl g a cs.
Proof.
  revert a. induction l as [|b l IH]; intros a.
  - split; [intros [= <-]; by exists []|]. by intros (cs & ->%Forall2_nil_inv_l & ->).
  - rewrite res_foldl_ans_cons. split.
    + destruct (ans b) as [c|] eqn:E; [|done]. intros (cs & ? & ->)%IH.
      exists (c :: cs). by split; [constructor|].
    + intros (cs & (c & cs' & E & ? & ->)%Forall2_cons_inv_l & ->). rewrite E.
      apply IH. by exists cs'.
Qed.

(** The loop raises the first exception among the answers. *)
Lemma res_foldl_ans_Raise a l e :
  res_foldl_ans ans g a l = Raise e ↔
  ∃ l1 b l2, l = l1 ++ b :: l2 ∧ Forall (λ b, is_ok (ans b) = true) l1 ∧ ans b = Raise e.
Proof.
  revert a. induction l as [|b l IH]; intros a.
  - split; [done|]. by intros ([|??] & ? & ? & ? & _).
  - rewrite res_foldl_ans_cons. destruct (ans b) as [c|e'] eqn:E; simpl.
    + rewrite IH. split.
      * intros (l1 & b' & l2 & -> & ? & ?). exists (b :: l1), b', l2.
        split_and!; [done| |done]. constructor; [by rewrite E|done].
      * intros ([|b1 l1] & b' & l2 & [= <- ->] & Hl1 & ?); [congruence|].
        apply Forall_cons in Hl1 as [_ ?]. by exists l1, b', l2.
    + split.
      * intros [= ->]. by exists [], b, l.
      * intros ([|b1 l1] & b' & l2 & [= <- ->] & Hl1 & ?); [congruence|].
        apply Forall_cons in Hl1 as [Hb _]. by rewrite E in Hb.
Qed.

Lemma until_raise_all l : Forall (λ b, is_ok (ans b) = true) l → until_raise ans l = l.
Proof.
  induction 1 as [|b l Hb _ IH]; [done|]. simpl. destruct (ans b); [by rewrite IH|done].
Qed.

Lemma until_raise_stop l1 b l2 e :
  Forall (λ b, is_ok (ans b) = true) l1 → ans b = Raise e →
  until_raise ans (l1 ++ b :: l2) = l1 ++ [b].
Proof.
  intros Hl1 Hb. induction Hl1 as [|b1 l1 Hb1 _ IH]; simpl; [by rewrite Hb|].
  destruct (ans b1); [by rewrite IH|done].
Qed.

(** What is asked about is asked after every element before it has
    answered. *)
Lemma elem_of_until_raise b l :
  b ∈ until_raise ans l →
  ∃ l1 l2, l = l1 ++ b :: l2 ∧ Forall (λ b, is_ok (ans b) = true) l1.
Proof.
  induction l as [|b' l IH]; simpl; [by intros ?%elem_of_nil|].
  intros [->|Hb]%elem_of_cons; [by exists [], l|].
  destruct (ans b') eqn:E; [|by apply elem_of_nil in Hb].
  destruct (IH Hb) as (l1 & l2 & -> & Hl1). exists (b' :: l1), l2.
  split; [done|]. constructor; [by rewrite E|done].
Qed.

Lemma until_raise_prefix l : until_raise ans l `prefix_of` l.
Proof.
  induction l as [|b l IH]; [done|]. simpl.
  destruct (ans b); [by apply prefix_cons|apply prefix_cons, prefix_nil].
Qed.

(** The loop depends on the answers about the elements it asks about
    only. *)
Lemma until_raise_ext (ans' : B → res C) l :
  Forall (λ b, ans' b = ans b) (until_raise ans l) →
  until_raise ans' l = until_raise ans l ∧
  ∀ a, res_foldl_ans ans' g a l = res_foldl_ans ans g a l.
Proof.
  induction l as [|b l IH]; [by split|]. simpl. intros [Hb Hl]%Forall_cons.
  setoid_rewrite res_foldl_ans_cons. rewrite Hb.
  destruct (ans b); [|by split]. destruct (IH Hl) as [-> Hf]. split; [done|]. intros a'. apply Hf.
Qed.

End res_foldl_ans.

(** * Loops that append *)

Lemma enumerate_length {A} (l : list A) : length (enumerate l) = length l.
Proof. unfold enumerate. rewrite length_zip, length_seq. lia. Qed.

Lemma enumerate_fst {A} (l : list A) : (enumerate l).*1 = seq 0 (length l).
Proof. apply fst_zip. by rewrite length_seq. Qed.

Lemma enumerate_snd {A} (l : list A) : (enumerate l).*2 = l.
Proof. apply snd_zip. by rewrite length_seq. Qed.

Lemma enumerate_lookup {A} (l : list A) i j x :
  enumerate l !! i = Some (j, x) ↔ j = i ∧ l !! i = Some x.
Proof.
  unfold enumerate. rewrite lookup_zip_Some, lookup_seq. split.
  - by intros [[-> _] ?].
  - intros [-> Hx]. split_and!; try done. by eapply lookup_lt_Some.
Qed.

Lemma enumerate_NoDup_fst {A} (l : list A) : NoDup (enumerate l).*1.
Proof. rewrite enumerate_fst. apply NoDup_seq. Qed.

Lemma elem_of_concat {A} (ls : list (list A)) x :
  x ∈ concat ls ↔ ∃ l, l ∈ ls ∧ x ∈ l.
Proof.
  induction ls as [|l ls IH]; simpl.
  - split; [by intros ?%elem_of_nil|]. by intros (l & ?%elem_of_nil & _).
  - rewrite elem_of_app, IH. setoid_rewrite elem_of_cons. split.
    + intros [?|(l' & ? & ?)]; eauto.
    + intros (l' & [->|?] & ?); eauto.
Qed.

Lemma omap_concat {A B} (f : A → option B) (ls : list (list A)) :
  omap f (concat ls) = concat ((omap f : list A → list B) <$> ls).
Proof.
  induction ls as [|l ls IH]; [done|]. simpl. by rewrite omap_app, IH.
Qed.

Lemma length_concat_fmap {A B} (f : A → list B) (l : list A) :
  length (concat (f <$> l)) = sum_list (length ∘ f <$> l).
Proof.
  induction l as [|x l IH]; [done|]. csimpl. rewrite length_app, IH. done.
Qed.

(** Lists produced for distinct owners, each without repetition and each
    made of elements of its owner, have no repetition when put together. *)
Lemma NoDup_concat_owner {X B K} (f : X → list B) (own : B → K) (key : X → K) xs :
  NoDup (key <$> xs) →
  (∀ x, NoDup (f x)) →
  (∀ x y, y ∈ f x → own y = key x) →
  NoDup (concat (f <$> xs)).
Proof.
  intros Hxs Hf Hown. induction xs as [|x xs IH]; csimpl; [constructor|].
  apply NoDup_cons in Hxs as [Hx Hxs]. apply NoDup_app. split_and!; [done| |auto].
  intros y Hy (l & (x' & -> & Hx')%list_elem_of_fmap & Hy')%elem_of_concat.
  apply Hx. apply list_elem_of_fmap. exists x'. split; [|done].
  by rewrite <-(Hown x y), <-(Hown x' y).
Qed.

(** A loop that only appends to its accumulator appends the
    concatenation of what each iteration appends. *)
Lemma foldl_app_concat {A B C} (f : A → B → A) (out : A → list C) (g : B → list C) a l :
  (∀ a b, out (f a b) = out a ++ g b) →
  out (foldl f a l) = out a ++ concat (g <$> l).
Proof.
  intros Hf. revert a. induction l as [|b l IH]; intros a; simpl.
  - by rewrite app_nil_r.
  - by rewrite IH, Hf, <-app_assoc.
Qed.

(** A loop that leaves a part of its accumulator alone. *)
Lemma foldl_fixes {A B C} (f : A → B → A) (out : A → C) a l :
  (∀ a b, out (f a b) = out a) → out (foldl f a l) = out a.
Proof.
  intros Hf. revert a. induction l as [|b l IH]; intros a; simpl; [done|]. by rewrite IH.
Qed.

Lemma Forall_enumerate {A} (Q : A → Prop) (l : list A) :
  Forall Q l → Forall (λ ix, Q ix.2) (enumerate l).
Proof. intros H. apply (Forall_fmap snd). by rewrite enumerate_snd. Qed.

(** * Automation *)

(** Rewriting database for the equations of the model's operations. *)
Create HintDb py discriminated.
Create Rewrite HintDb py.

(** Case analysis on the test of the first conditional in the goal. *)
Ltac case_if :=
  match goal with
  | |- context [if ?b then _ else _] => destruct b eqn:?
  end.

(** Open one bind of the [res] monad in a hypothesis. *)
Ltac res_inv H :=
  match type of H with
  | context [mbind _ ?m] => destruct m eqn:?; simpl in H; [|try done]
  | context [or_raise _ ?o] => destruct o eqn:?; simpl in H
  end.
