(* ===== verification/PyStr.v ===== *)
(** * PyStr: Python strings and the builtin methods the source calls

    A [str] is a list of Unicode code points.  Each definition follows
    the CPython behaviour of the method named in its comment, for the
    arguments the source passes (src/main.py).  The lemmas are the facts
    about these methods that the parser, the extractor and the renderer
    rely on. *)

From S2P Require Import Prelude.
From Stdlib Require Ascii String.
Export String.StringSyntax.

Abbreviation char := N (only parsing).
Abbreviation str := (list N) (only parsing).

(** ** Characters *)

Definition LF : char := 10.
Definition CR : char := 13.
Definition SPACE : char := 32.
Definition STAR : char := 42.
Definition PLUS : char := 43.
Definition COLON : char := 58.

(** A str from an ASCII literal of the proof script. *)
Definition lit (s : String.string) : str :=
  Ascii.N_of_ascii <$> String.list_ascii_of_string s.
Arguments lit s%_string_scope.

(** [str.isspace] on one character: the code points CPython's
    [_PyUnicode_IsWhitespace] accepts. *)
Definition isspace (c : char) : bool :=
  ((9 <=? c) && (c <=? 13) || (28 <=? c) && (c <=? 32)
   || (c =? 133) || (c =? 160) || (c =? 5760)
   || (8192 <=? c) && (c <=? 8202)
   || (c =? 8232) || (c =? 8233) || (c =? 8239) || (c =? 8287)
   || (c =? 12288))%N.

(** The line boundaries of [str.splitlines]: CPython's
    [_PyUnicode_IsLinebreak]. *)
Definition islinebreak (c : char) : bool :=
  ((10 <=? c) && (c <=? 13) || (28 <=? c) && (c <=? 30)
   || (c =? 133) || (c =? 8232) || (c =? 8233))%N.

(** ** Methods *)

(** [s.lstrip()], [s.rstrip()], [s.strip()] with no argument. *)
Definition lstrip (s : str) : str := drop_while isspace s.
Definition rstrip (s : str) : str := drop_while_end isspace s.
Definition strip (s : str) : str := rstrip (lstrip s).

(** [s.splitlines()]: split at every line boundary, a carriage return
    followed by a line feed counting as one; the boundaries are dropped,
    and a final boundary opens no further line. *)
Fixpoint splitlines (s : str) : list str :=
  match s with
  | [] => []
  | c :: s' =>
      if islinebreak c then
        [] :: match s' with
              | d :: s'' => if (c =? CR)%N && (d =? LF)%N then splitlines s'' else splitlines s'
              | [] => []
              end
      else match splitlines s' with
           | [] => [[c]]
           | l :: ls => (c :: l) :: ls
           end
  end.

(** [s.startswith(p)]. *)
Fixpoint startswith (s p : str) {struct p} : bool :=
  match p, s with
  | [], _ => true
  | c :: p', d :: s' => (c =? d)%N && startswith s' p'
  | _ :: _, [] => false
  end.

(** [sub in s] for strings. *)
Fixpoint contains (s sub : str) : bool :=
  startswith s sub ||
  match s with
  | [] => false
  | _ :: s' => contains s' sub
  end.

(** [s.split(sep, 1)] for a separator of one character: the text before
    the first separator and the text after it, or [s] alone. *)
Definition split1 (s : str) (sep : char) : list str :=
  match drop_while (λ c, negb (c =? sep)%N) s with
  | [] => [s]
  | _ :: rest => [take_while (λ c, negb (c =? sep)%N) s; rest]
  end.

(** [l[i]] for an index that is not negative. *)
Definition getitem {A} (l : list A) (i : nat) : res A :=
  or_raise IndexError (l !! i).


(** [s[1:]] and [s[:n]]. *)
Definition slice_from (n : nat) (s : str) : str := drop n s.
Definition slice_to (n : nat) (s : str) : str := take n s.

(** A string that [strip] leaves alone. *)
Definition stripped (s : str) : Prop := strip s = s.

(** A string with no line boundary in it: one line of [splitlines]. *)
Definition one_line (s : str) : Prop := Forall (λ c, islinebreak c = false) s.

#[export] Instance stripped_dec s : Decision (stripped s).
Proof. unfold stripped. apply _. Defined.
#[export] Instance one_line_dec s : Decision (one_line s).
Proof. unfold one_line. apply _. Defined.

(** The lines [ls], each followed by a line feed. *)
Definition unlines (ls : list str) : str := concat ((λ l, l ++ [LF]) <$> ls).

(** ** Characters *)

Lemma islinebreak_isspace c : islinebreak c = true → isspace c = true.
Proof. unfold islinebreak, isspace. lia. Qed.

Lemma isspace_ascii_marks : isspace STAR = false ∧ isspace PLUS = false ∧ isspace COLON = false.
Proof. done. Qed.

(** ** strip *)

Lemma strip_nil : strip [] = [].
Proof. done. Qed.

Lemma strip_idemp s : strip (strip s) = strip s.
Proof.
  unfold strip, lstrip, rstrip.
  by rewrite drop_while_drop_while_end, drop_while_end_idemp, drop_while_idemp.
Qed.

Lemma strip_head s c : head (strip s) = Some c → isspace c = false.
Proof.
  unfold strip, rstrip, lstrip. intros Hc.
  destruct (drop_while_end_prefix isspace (drop_while isspace s)) as [k Hk].
  destruct (drop_while_end isspace (drop_while isspace s)) as [|d r]; simplify_eq/=.
  eauto using drop_while_head.
Qed.

Lemma strip_last s c : last (strip s) = Some c → isspace c = false.
Proof. apply drop_while_end_last. Qed.

(** White space around a string does not survive [strip]. *)
Lemma strip_pad l s r :
  Forall (λ c, isspace c = true) l → Forall (λ c, isspace c = true) r →
  strip (l ++ s ++ r) = strip s.
Proof.
  intros Hl Hr. unfold strip, lstrip, rstrip.
  rewrite drop_while_app_all by done.
  rewrite <-!drop_while_drop_while_end. by rewrite drop_while_end_app_all.
Qed.

(** Strings that neither start nor end with white space are stripped. *)
Lemma stripped_intro s :
  (∀ c, head s = Some c → isspace c = false) →
  (∀ c, last s = Some c → isspace c = false) → stripped s.
Proof.
  intros Hh Hl. unfold stripped, strip, lstrip, rstrip.
  rewrite drop_while_id.
  - apply drop_while_end_id. destruct (last s) eqn:E; eauto.
  - destruct s as [|c s]; simpl; [done|]. by rewrite (Hh c).
Qed.

Lemma stripped_strip s : stripped (strip s).
Proof. apply strip_idemp. Qed.

Lemma strip_empty_iff s : strip s = [] ↔ Forall (λ c, isspace c = true) s.
Proof.
  unfold strip, lstrip, rstrip. split.
  - intros H%drop_while_end_nil_inv. rewrite <-(take_drop_while isspace s).
    apply Forall_app. split; [|done]. clear H.
    induction s as [|c s IH]; simpl; [done|]. destruct (isspace c) eqn:E; auto.
  - intros H. by rewrite (drop_while_all _ _ H).
Qed.

Lemma one_line_strip s : one_line s → one_line (strip s).
Proof. intros H. by apply Forall_drop_while_end, Forall_drop_while. Qed.

(** ** splitlines *)

Lemma splitlines_cons_line c s :
  islinebreak c = false →
  splitlines (c :: s) =
    match splitlines s with [] => [[c]] | l :: ls => (c :: l) :: ls end.
Proof. intros Hc. simpl. by rewrite Hc. Qed.

(** A line feed ends the line before it. *)
Lemma splitlines_line l s :
  one_line l → splitlines (l ++ LF :: s) = l :: splitlines s.
Proof.
  induction 1 as [|c l Hc _ IH].
  - simpl. by destruct s.
  - change ((c :: l) ++ LF :: s) with (c :: (l ++ LF :: s)).
    rewrite splitlines_cons_line by done. by rewrite IH.
Qed.

(** Text after the last line boundary is a line of its own. *)
Lemma splitlines_last l : one_line l → l ≠ [] → splitlines l = [l].
Proof.
  induction 1 as [|c l Hc Hl IH]; [done|]. intros _.
  rewrite splitlines_cons_line by done.
  destruct l as [|d l]; [done|]. by rewrite IH.
Qed.

Lemma unlines_cons l ls : unlines (l :: ls) = l ++ LF :: unlines ls.
Proof. unfold unlines. by rewrite fmap_cons, concat_cons, <-app_assoc. Qed.

(** Lines written one per line are read back, before whatever follows. *)
Lemma splitlines_unlines_app ls s :
  Forall one_line ls → splitlines (unlines ls ++ s) = ls ++ splitlines s.
Proof.
  induction 1 as [|l ls Hl _ IH]; [done|].
  by rewrite unlines_cons, <-app_assoc, <-app_comm_cons, splitlines_line, IH.
Qed.

Lemma splitlines_unlines ls : Forall one_line ls → splitlines (unlines ls) = ls.
Proof.
  intros Hls. rewrite <-(app_nil_r (unlines ls)), splitlines_unlines_app by done.
  apply app_nil_r.
Qed.

(** The lines carry no line boundary. *)
Lemma splitlines_one_line s : Forall one_line (splitlines s).
Proof.
  induction s as [s IH] using (induction_ltof1 _ length); unfold ltof in IH.
  destruct s as [|c s]; [constructor|]. simpl.
  destruct (islinebreak c) eqn:Hc.
  - constructor; [constructor|].
    destruct s as [|d s]; [constructor|].
    destruct ((c =? CR)%N && (d =? LF)%N); apply IH; simpl; lia.
  - specialize (IH s ltac:(simpl; lia)).
    destruct (splitlines s) as [|l ls]; [by repeat constructor|].
    inversion_clear IH. by repeat constructor.
Qed.

(** Every character of a line is a character of the text. *)
Lemma splitlines_subseteq s l : l ∈ splitlines s → l ⊆ s.
Proof.
  revert l. induction s as [s IH] using (induction_ltof1 _ length); unfold ltof in IH.
  destruct s as [|c s]; simpl; [by intros l ?%elem_of_nil|]. intros l.
  destruct (islinebreak c).
  - intros [->|Hl]%elem_of_cons; [apply list_subseteq_nil|].
    destruct s as [|d s]; [by apply elem_of_nil in Hl|].
    destruct ((c =? CR)%N && (d =? LF)%N);
      apply IH in Hl; simpl; try lia; eauto using list_subseteq_cons.
  - pose proof (IH s ltac:(simpl; lia)) as IHs.
    destruct (splitlines s) as [|l' ls].
    + intros ->%list_elem_of_singleton. apply list_subseteq_skip, list_subseteq_nil.
    + intros [->|Hl]%elem_of_cons.
      * apply list_subseteq_skip, IHs. left.
      * apply list_subseteq_cons, IHs. by right.
Qed.

(** What [strip], slicing and [splitlines] return is made of characters
    of their argument. *)
Lemma strip_Forall (P : N → Prop) s : Forall P s → Forall P (strip s).
Proof. intros. by apply Forall_drop_while_end, Forall_drop_while. Qed.

Lemma slice_from_Forall (P : N → Prop) n s : Forall P s → Forall P (slice_from n s).
Proof. apply Forall_drop. Qed.

Lemma splitlines_Forall (P : N → Prop) s : Forall P s → Forall (Forall P) (splitlines s).
Proof.
  intros Hs. apply Forall_forall. intros l Hl%splitlines_subseteq.
  apply Forall_forall. intros c Hc. eapply Forall_forall in Hs; eauto.
Qed.

Lemma splitlines_nil_iff s : splitlines s = [] ↔ s = [].
Proof.
  split; [|by intros ->]. destruct s as [|c s]; [done|]. simpl.
  destruct (islinebreak c); [done|]. by destruct (splitlines s).
Qed.

#[export] Hint Resolve splitlines_one_line one_line_strip stripped_strip : py.
#[export] Hint Rewrite strip_nil strip_idemp : py.

(** ** startswith and [in] *)

Lemma startswith_prefix s p : startswith s p = true ↔ p `prefix_of` s.
Proof.
  revert s. induction p as [|c p IH]; intros [|d s]; simpl.
  - split; [intros; apply prefix_nil|done].
  - split; [intros; apply prefix_nil|done].
  - split; [done|]. by intros ?%prefix_nil_inv.
  - rewrite andb_true_iff, N.eqb_eq, IH. split.
    + intros [-> ?]. by apply prefix_cons.
    + intros H. split; [by apply prefix_cons_inv_1 in H|by apply prefix_cons_inv_2 in H].
Qed.

Lemma startswith_char s c : startswith s [c] = true ↔ head s = Some c.
Proof.
  destruct s as [|d s]; simpl; [done|].
  rewrite andb_true_r, N.eqb_eq. naive_solver.
Qed.

Lemma contains_spec s sub : contains s sub = true ↔ ∃ l r, s = l ++ sub ++ r.
Proof.
  induction s as [|c s IH]; simpl.
  - rewrite orb_false_r, startswith_prefix. split.
    + intros [k ->]. by exists [], k.
    + intros (l & r & H). symmetry in H.
      apply app_eq_nil in H as [-> [-> ->]%app_eq_nil]. done.
  - rewrite orb_true_iff, startswith_prefix, IH. split.
    + intros [[k ->]|(l & r & ->)]; [by exists [], k|by exists (c :: l), r].
    + intros ([|d l] & r & H); simplify_eq/=.
      * left. rewrite H. by exists r.
      * right. eauto.
Qed.

Lemma contains_char s c : contains s [c] = true ↔ c ∈ s.
Proof.
  rewrite contains_spec. split.
  - intros (l & r & ->). apply elem_of_app. right. left.
  - intros (l & r & ->)%list_elem_of_split. by exists l, r.
Qed.

Lemma contains_char_false s c : contains s [c] = false ↔ c ∉ s.
Proof. by rewrite <-contains_char, not_true_iff_false. Qed.

(** ** split *)

Lemma not_sep_Forall (s : str) sep :
  sep ∉ s → Forall (λ c, negb (c =? sep)%N = true) s.
Proof.
  intros Hs. apply Forall_forall. intros c Hc.
  destruct (N.eqb_spec c sep); naive_solver.
Qed.

Lemma split1_found a b sep : sep ∉ a → split1 (a ++ sep :: b) sep = [a; b].
Proof.
  intros Ha%not_sep_Forall. unfold split1.
  rewrite drop_while_stop, take_while_stop; try done; by rewrite N.eqb_refl.
Qed.

Lemma split1_not_found s sep : sep ∉ s → split1 s sep = [s].
Proof.
  intros Hs%not_sep_Forall. unfold split1. by rewrite drop_while_all.
Qed.

(** Element 1 of [s.split(sep, 1)] exists exactly when [sep] is in [s],
    and is the text after the first [sep]. *)
Lemma split1_getitem_1 s sep :
  ((sep ∉ s) ∧ getitem (split1 s sep) 1 = Raise IndexError) ∨
  (∃ a b, s = a ++ sep :: b ∧ (sep ∉ a) ∧ getitem (split1 s sep) 1 = Ok b).
Proof.
  destruct (decide (sep ∈ s)) as [Hs|Hs].
  - right. apply list_elem_of_split_l in Hs as (a & b & -> & Ha).
    exists a, b. by rewrite split1_found.
  - left. by rewrite split1_not_found.
Qed.

(** The two shapes of [s.split(sep, 1)]. *)
Lemma split1_shape s sep :
  ((sep ∉ s) ∧ split1 s sep = [s]) ∨
  (∃ a b, (sep ∈ s) ∧ split1 s sep = [a; b] ∧ getitem (split1 s sep) 1 = Ok b).
Proof.
  destruct (decide (sep ∈ s)) as [Hs|Hs].
  - right. pose proof Hs as (a & b & -> & Ha)%list_elem_of_split_l.
    exists a, b. by rewrite split1_found.
  - left. by rewrite split1_not_found.
Qed.

(** What [split] returns is cut out of the string it splits. *)
Lemma split1_getitem_1_Forall (P : N → Prop) s sep b :
  Forall P s → getitem (split1 s sep) 1 = Ok b → Forall P b.
Proof.
  intros Hs Hb. destruct (split1_getitem_1 s sep) as [[_ E]|(a & b' & -> & _ & E)];
    rewrite E in Hb; simplify_eq.
  apply Forall_app in Hs as [_ Hs]. by inversion Hs.
Qed.

Lemma getitem_split1_Ok s sep : sep ∈ s → ∃ b, getitem (split1 s sep) 1 = Ok b.
Proof.
  intros Hs. destruct (split1_getitem_1 s sep) as [[? _]|(a & b & _ & _ & E)]; [done|eauto].
Qed.

Lemma getitem_split1_Raise s sep : sep ∉ s → getitem (split1 s sep) 1 = Raise IndexError.
Proof. intros Hs. by rewrite split1_not_found. Qed.

(** A name cut out of a line and stripped is a clean name. *)
Definition name_ok (s : str) : Prop := stripped s ∧ one_line s.

#[export] Instance name_ok_dec s : Decision (name_ok s).
Proof. unfold name_ok. apply _. Defined.

Lemma name_ok_strip s : one_line s → name_ok (strip s).
Proof. split; [apply stripped_strip|by apply one_line_strip]. Qed.

Lemma one_line_drop n s : one_line s → one_line (slice_from n s).
Proof. apply Forall_drop. Qed.

#[export] Hint Resolve name_ok_strip one_line_drop : py.


(** ** Lines up to white space *)

(** The lines of a str after [strip], the blank ones left out: what a
    loop that strips each line and skips the empty ones sees. *)
Definition stripped_lines (s : str) : list str :=
  filter (λ l, l ≠ []) (strip <$> splitlines s).

(** How one more character at the end changes the lines: it ends the
    last line, opens an empty one, opens a line of its own, or joins
    the last line. *)
Inductive snoc_lines (c : char) : list str → list str → Prop :=
| snoc_lines_same ls : snoc_lines c ls ls
| snoc_lines_empty ls : snoc_lines c ls (ls ++ [[]])
| snoc_lines_new ls : snoc_lines c ls (ls ++ [[c]])
| snoc_lines_join ls l : snoc_lines c (ls ++ [l]) (ls ++ [l ++ [c]]).

Lemma strip_space c : isspace c = true → strip [c] = [].
Proof. intros Hc. apply strip_empty_iff. by constructor. Qed.

Lemma strip_cons_space c s : isspace c = true → strip (c :: s) = strip s.
Proof.
  intros Hc. rewrite <-(app_nil_r s) at 1.
  by apply (strip_pad [c] s []); repeat constructor.
Qed.

Lemma strip_snoc_space c s : isspace c = true → strip (s ++ [c]) = strip s.
Proof. intros Hc. by apply (strip_pad [] s [c]); repeat constructor. Qed.

Lemma stripped_lines_cons_blank l ls :
  strip l = [] → filter (λ l, l ≠ []) (strip <$> l :: ls) = filter (λ l, l ≠ []) (strip <$> ls).
Proof. intros Hl. csimpl. rewrite Hl. by rewrite filter_cons_False by (by intros []). Qed.

(** The first line with one more character in front. *)
Definition cons_line (c : char) (ls : list str) : list str :=
  match ls with [] => [[c]] | l :: ls => (c :: l) :: ls end.

Lemma snoc_lines_cons_line c d ls ls' :
  snoc_lines c ls ls' → snoc_lines c (cons_line d ls) (cons_line d ls').
Proof.
  destruct 1 as [ls|ls|ls|ls l].
  - constructor.
  - destruct ls as [|l ls]; simpl; [constructor|]. apply (snoc_lines_empty c ((d :: l) :: ls)).
  - destruct ls as [|l ls]; simpl; [apply (snoc_lines_join c [] [d])|].
    apply (snoc_lines_new c ((d :: l) :: ls)).
  - destruct ls as [|l' ls]; simpl; [apply (snoc_lines_join c [] (d :: l))|].
    apply (snoc_lines_join c ((d :: l') :: ls) l).
Qed.

Lemma snoc_lines_cons c l ls ls' : snoc_lines c ls ls' → snoc_lines c (l :: ls) (l :: ls').
Proof.
  destruct 1 as [ls|ls|ls|ls l']; rewrite ?app_comm_cons; constructor.
Qed.

Lemma splitlines_cons_break c s :
  islinebreak c = true →
  splitlines (c :: s) =
    [] :: match s with
          | d :: s' => if (c =? CR)%N && (d =? LF)%N then splitlines s' else splitlines s
          | [] => []
          end.
Proof. intros Hc. simpl. by rewrite Hc. Qed.

Lemma splitlines_snoc_length n s c :
  length s ≤ n → snoc_lines c (splitlines s) (splitlines (s ++ [c])).
Proof.
  revert s. induction n as [|n IH]; intros [|d s] Hn; simpl in Hn; try lia.
  - simpl. destruct (islinebreak c); [apply (snoc_lines_empty c [])|apply (snoc_lines_new c [])].
  - simpl. destruct (islinebreak c); [apply (snoc_lines_empty c [])|apply (snoc_lines_new c [])].
  - change ((d :: s) ++ [c]) with (d :: (s ++ [c])).
    destruct (islinebreak d) eqn:Hd; [|rewrite !splitlines_cons_line by done;
                                        apply snoc_lines_cons_line, IH; lia].
    rewrite !splitlines_cons_break by done. apply snoc_lines_cons.
    destruct s as [|e s]; simpl.
    + destruct ((d =? CR)%N && (c =? LF)%N); [constructor|].
      destruct (islinebreak c); [apply (snoc_lines_empty c [])|apply (snoc_lines_new c [])].
    + destruct ((d =? CR)%N && (e =? LF)%N).
      * apply IH. simpl in Hn. lia.
      * apply (IH (e :: s)). simpl in *. lia.
Qed.

Lemma stripped_lines_snoc s c :
  isspace c = true → stripped_lines (s ++ [c]) = stripped_lines s.
Proof.
  intros Hc. unfold stripped_lines.
  destruct (splitlines_snoc_length (length s) s c) as [ls|ls|ls|ls l]; [done..| | |].
  - rewrite fmap_app, filter_app. simpl. rewrite filter_cons_False by (by intros []).
    by rewrite filter_nil, app_nil_r.
  - rewrite fmap_app, filter_app. simpl. rewrite strip_space by done.
    rewrite filter_cons_False by (by intros []). by rewrite filter_nil, app_nil_r.
  - rewrite !fmap_app. simpl. by rewrite strip_snoc_space.
Qed.

Lemma stripped_lines_cons s c :
  isspace c = true → stripped_lines (c :: s) = stripped_lines s.
Proof.
  intros Hc. unfold stripped_lines. destruct (islinebreak c) eqn:Hb.
  - rewrite splitlines_cons_break, stripped_lines_cons_blank by done.
    destruct s as [|d s]; [done|]. destruct ((c =? CR)%N && (d =? LF)%N) eqn:E; [|done].
    assert (d = LF) as -> by lia.
    rewrite splitlines_cons_break, stripped_lines_cons_blank by done. by destruct s.
  - rewrite splitlines_cons_line by done. destruct (splitlines s) as [|l ls]; csimpl.
    + rewrite strip_space by done. by rewrite filter_cons_False by (by intros []).
    + by rewrite strip_cons_space.
Qed.

(** Stripping a str changes nothing of its stripped lines. *)
Lemma stripped_lines_strip s : stripped_lines (strip s) = stripped_lines s.
Proof.
  unfold strip, lstrip, rstrip. transitivity (stripped_lines (drop_while isspace s)).
  - generalize (drop_while isspace s) as t. intros t.
    induction t as [|c t IH] using rev_ind; [done|]. destruct (isspace c) eqn:Hc.
    + rewrite drop_while_end_app_all by (by repeat constructor).
      by rewrite IH, stripped_lines_snoc.
    + by rewrite drop_while_end_snoc.
  - induction s as [|c s IH]; simpl; [done|]. destruct (isspace c) eqn:Hc; [|done].
    by rewrite IH, stripped_lines_cons.
Qed.

(** A str that starts with a character that is not white space keeps it
    under [strip]. *)
Lemma strip_cons_head c s : isspace c = false → head (strip (c :: s)) = Some c.
Proof.
  intros Hc. unfold strip, lstrip, rstrip. simpl. rewrite Hc. simpl.
  destruct (drop_while_end isspace s); [by rewrite Hc|done].
Qed.

(** A str between two characters that are not white space is stripped
    on the right of the second only. *)
Lemma strip_marks h a c t :
  isspace h = false → isspace c = false →
  strip (h :: a ++ c :: t) = h :: a ++ c :: rstrip t.
Proof.
  intros Hh Hc. unfold strip, lstrip, rstrip.
  assert (drop_while isspace (h :: a ++ c :: t) = h :: a ++ c :: t) as ->
    by (simpl; by rewrite Hh).
  change (h :: a ++ c :: t) with ((h :: a) ++ c :: t).
  by rewrite drop_while_end_app_keep.
Qed.

Lemma strip_rstrip t : strip (rstrip t) = strip t.
Proof.
  unfold strip, lstrip, rstrip.
  by rewrite drop_while_drop_while_end, drop_while_end_idemp.
Qed.

(** ** The methods, specified *)

(** [strip] removes a run of white space at each end and nothing
    else, and what remains neither starts nor ends with white space. *)
Lemma strip_spec s :
  ∃ l r, s = l ++ strip s ++ r ∧
    Forall (λ c, isspace c = true) l ∧ Forall (λ c, isspace c = true) r ∧
    (∀ c, head (strip s) = Some c → isspace c = false) ∧
    (∀ c, last (strip s) = Some c → isspace c = false).
Proof.
  unfold strip, lstrip, rstrip.
  destruct (drop_while_end_removed isspace (drop_while isspace s)) as (r & Hr & Hsp).
  exists (take_while isspace s), r. split_and!.
  - by rewrite <-Hr, take_drop_while.
  - apply Forall_take_while.
  - done.
  - apply strip_head.
  - apply strip_last.
Qed.

(** [splitlines] inverts joining lines with a line feed, for
    exactly the lists of lines without a line boundary; and the lines it
    returns never hold one. *)
Lemma splitlines_unlines_iff ls s :
  (Forall one_line ls ↔ splitlines (unlines ls) = ls) ∧ Forall one_line (splitlines s).
Proof.
  split; [split|apply splitlines_one_line].
  - apply splitlines_unlines.
  - intros <-. apply splitlines_one_line.
Qed.
