(* ===== verification/PyDict.v ===== *)
(** * PyDict: Python's insertion-ordered dict

    A dict is the list of its items in insertion order, with unique
    keys.  [d[k] = v] replaces the value of an existing key where it
    stands and appends a new key at the end, as CPython does.  The
    abstract view of a dict is the finite map [to_gmap d]: lookups and
    updates refine [gmap]'s, and two dicts are equivalent ([≡], Python's
    [==] on dicts) when their views coincide. *)

From S2P Require Import Prelude.
From stdpp Require Import gmap.

Abbreviation dict K V := (list (K * V)) (only parsing).

Section pydict.
Context `{Countable K} {V : Type}.
Implicit Types (d : dict K V) (k : K) (v : V).

(** [d.get(k)]: the value of [k], if any. *)
Fixpoint dict_get d k : option V :=
  match d with
  | [] => None
  | (k', v) :: d' => if decide (k = k') then Some v else dict_get d' k
  end.

(** [d[k]] as an expression: [KeyError] for a missing key. *)
Definition dict_getitem d k : res V := or_raise KeyError (dict_get d k).

(** [d[k] = v]. *)
Fixpoint dict_setitem d k v : dict K V :=
  match d with
  | [] => [(k, v)]
  | (k', v') :: d' =>
      if decide (k = k') then (k', v) :: d' else (k', v') :: dict_setitem d' k v
  end.

(** [d.keys()] and [d.items()], in iteration order. *)
Definition dict_keys d : list K := d.*1.
Definition dict_items d : list (K * V) := d.

(** [d.update(items)]: the items set one after the other; from the empty
    dict, [dict(items)]. *)
Definition dict_update d (items : list (K * V)) : dict K V :=
  foldl (λ d kv, dict_setitem d kv.1 kv.2) d items.
Definition dict_from_items (items : list (K * V)) : dict K V := dict_update [] items.

(** The keys of a list in the order of their first occurrence. *)
Definition first_occurrences (seen ks : list K) : list K :=
  foldl (λ acc k, if decide (k ∈ acc) then acc else acc ++ [k]) seen ks.

(** The dict's invariant: no key twice. *)
Definition dict_wf d : Prop := NoDup (dict_keys d).

(** The abstract view. *)
Definition to_gmap d : gmap K V := list_to_map d.

(** Python's [d1 == d2]: same keys, same values, any order. *)
#[export] Instance dict_equiv : Equiv (dict K V) := λ d1 d2, to_gmap d1 = to_gmap d2.

(** ** Lookup and update *)

Lemma dict_get_setitem d k v j :
  dict_get (dict_setitem d k v) j = if decide (j = k) then Some v else dict_get d j.
Proof.
  induction d as [|[k' v'] d IH]; simpl; [done|].
  destruct (decide (k = k')) as [->|Hk]; simpl; [by destruct (decide (j = k'))|].
  rewrite IH. destruct (decide (j = k')) as [->|]; [by rewrite decide_False|done].
Qed.

Lemma dict_get_setitem_eq d k v : dict_get (dict_setitem d k v) k = Some v.
Proof. by rewrite dict_get_setitem, decide_True. Qed.

Lemma dict_get_setitem_ne d k v j : j ≠ k → dict_get (dict_setitem d k v) j = dict_get d j.
Proof. intros. by rewrite dict_get_setitem, decide_False. Qed.

Lemma dict_get_None d k : dict_get d k = None ↔ k ∉ dict_keys d.
Proof.
  induction d as [|[k' v'] d IH]; simpl.
  - split; [intros _; apply not_elem_of_nil|done].
  - rewrite not_elem_of_cons. case_decide; [|tauto].
    split; [done|]. by intros [? _].
Qed.

Lemma dict_get_is_Some d k : is_Some (dict_get d k) ↔ k ∈ dict_keys d.
Proof.
  rewrite <-not_eq_None_Some, dict_get_None.
  split; [apply dec_stable|by intros ??].
Qed.

Lemma dict_get_elem_of d k v : dict_get d k = Some v → (k, v) ∈ d.
Proof.
  induction d as [|[k' v'] d IH]; simpl; [done|].
  case_decide; simplify_eq/=.
  - intros [= ->]. left.
  - intros ?. right. auto.
Qed.

Lemma dict_elem_of_get d k v : dict_wf d → (k, v) ∈ d → dict_get d k = Some v.
Proof.
  unfold dict_wf. induction d as [|[k' v'] d IH]; simpl.
  - by intros _ ?%elem_of_nil.
  - intros [Hk' Hd]%NoDup_cons [?|Hin]%elem_of_cons; case_decide; simplify_eq; auto.
    destruct Hk'. apply list_elem_of_fmap. by exists (k', v).
Qed.

(** A property of every item survives an update by an item that has it,
    and holds of whatever a lookup finds. *)
Lemma dict_setitem_Forall (P : K * V → Prop) d k v :
  Forall P d → P (k, v) → Forall P (dict_setitem d k v).
Proof.
  intros Hd Hkv. induction Hd as [|[k' v'] d Hx Hd IH]; simpl.
  - by constructor.
  - case_decide; simplify_eq; by constructor.
Qed.

Lemma dict_get_Forall (P : K * V → Prop) d k v :
  Forall P d → dict_get d k = Some v → P (k, v).
Proof.
  intros Hd Hk%dict_get_elem_of. by eapply Forall_forall in Hd.
Qed.

(** Storing back what a key already holds changes nothing. *)
Lemma dict_setitem_id d k v : dict_get d k = Some v → dict_setitem d k v = d.
Proof.
  induction d as [|[k' v'] d IH]; simpl; [done|].
  case_decide; simplify_eq/=; [by intros [= ->]|]. intros ?. f_equal. auto.
Qed.

(** ** Iteration order *)

(** A known key keeps its place; a new key goes last. *)
Lemma dict_keys_setitem d k v :
  dict_keys (dict_setitem d k v) =
    if decide (k ∈ dict_keys d) then dict_keys d else dict_keys d ++ [k].
Proof.
  unfold dict_keys. induction d as [|[k' v'] d IH]; csimpl.
  - by destruct (decide (k ∈ @nil K)) as [?%elem_of_nil|].
  - destruct (decide (k = k')) as [->|Hk]; csimpl.
    + destruct (decide (k' ∈ k' :: d.*1)) as [|Hn]; [done|]. destruct Hn. left.
    + rewrite IH.
      destruct (decide (k ∈ d.*1)), (decide (k ∈ k' :: d.*1)) as [Hc|Hc]; try done.
      * destruct Hc. by right.
      * by apply elem_of_cons in Hc as [?|?].
Qed.

Lemma dict_setitem_wf d k v : dict_wf d → dict_wf (dict_setitem d k v).
Proof.
  unfold dict_wf. rewrite dict_keys_setitem. case_decide as Hk; [done|].
  intros Hd. apply NoDup_app. split_and!; [done| |apply NoDup_singleton].
  by intros j Hj ->%list_elem_of_singleton.
Qed.

Lemma dict_setitem_length d k v :
  length (dict_setitem d k v) =
    if decide (k ∈ dict_keys d) then length d else S (length d).
Proof.
  rewrite <-(length_fmap fst (dict_setitem d k v)).
  fold (dict_keys (dict_setitem d k v)). rewrite dict_keys_setitem.
  unfold dict_keys. case_decide; rewrite ?length_app, length_fmap; simpl; lia.
Qed.

(** Updating a key that has just been set replaces its value where it
    stands. *)
Lemma dict_setitem_setitem d k v v' :
  dict_setitem (dict_setitem d k v) k v' = dict_setitem d k v'.
Proof.
  induction d as [|[k' w] d IH]; simpl.
  - by rewrite decide_True.
  - case_decide; simpl; [by rewrite decide_True|]. by rewrite decide_False, IH.
Qed.

(** ** Building a dict from items *)

Lemma dict_update_snoc d items k v :
  dict_update d (items ++ [(k, v)]) = dict_setitem (dict_update d items) k v.
Proof. unfold dict_update. by rewrite foldl_snoc. Qed.

Lemma dict_update_wf d items : dict_wf d → dict_wf (dict_update d items).
Proof.
  revert d. induction items as [|[k v] items IH]; intros d Hd; simpl; [done|].
  by apply IH, dict_setitem_wf.
Qed.

(** Keys come in the order of their first occurrence. *)
Lemma dict_keys_update d items :
  dict_keys (dict_update d items) = first_occurrences (dict_keys d) items.*1.
Proof.
  revert d. induction items as [|[k v] items IH]; intros d; simpl; [done|].
  by rewrite IH, dict_keys_setitem.
Qed.

(** The value of a key is the one of its last item. *)
Lemma dict_get_update d items k :
  dict_get (dict_update d items) k =
    match dict_get (reverse items) k with Some v => Some v | None => dict_get d k end.
Proof.
  revert d. induction items as [|[k' v'] items IH] using rev_ind; intros d; [done|].
  rewrite dict_update_snoc, reverse_snoc, dict_get_setitem. simpl.
  case_decide; [done|apply IH].
Qed.

(** Items with fresh and distinct keys are appended as they are. *)
Lemma dict_update_fresh d items :
  NoDup (dict_keys d ++ items.*1) → dict_update d items = d ++ items.
Proof.
  revert d. induction items as [|[k v] items IH]; intros d Hn; simpl.
  - by rewrite app_nil_r.
  - assert (dict_setitem d k v = d ++ [(k, v)]) as ->.
    { apply NoDup_app in Hn as (_ & Hn & _). clear IH.
      induction d as [|[k' v'] d IH]; simpl; [done|].
      rewrite decide_False, IH; [done|..].
      - intros j Hj. apply Hn. by right.
      - intros ->. eapply Hn; left. }
    rewrite IH, <-app_assoc; [done|].
    unfold dict_keys in *. by rewrite fmap_app, <-app_assoc.
Qed.

Lemma dict_from_items_wf items : dict_wf items → dict_from_items items = items.
Proof. intros Hd. by apply (dict_update_fresh []). Qed.

Lemma first_occurrences_NoDup seen ks : NoDup seen → NoDup (first_occurrences seen ks).
Proof.
  revert seen. induction ks as [|k ks IH]; intros seen Hs; simpl; [done|].
  apply IH. case_decide; [done|]. apply NoDup_app. split_and!; [done| |apply NoDup_singleton].
  by intros j Hj ->%list_elem_of_singleton.
Qed.

Lemma first_occurrences_elem_of seen ks k :
  k ∈ first_occurrences seen ks ↔ k ∈ seen ∨ k ∈ ks.
Proof.
  revert seen. induction ks as [|j ks IH]; intros seen; simpl.
  - rewrite elem_of_nil. tauto.
  - rewrite IH, elem_of_cons.
    case_decide; rewrite ?elem_of_app, ?list_elem_of_singleton; intuition (subst; auto).
Qed.

(** ** Refinement of the finite map *)

Lemma to_gmap_lookup d k : to_gmap d !! k = dict_get d k.
Proof.
  unfold to_gmap. induction d as [|[k' v'] d IH]; simpl; [done|].
  case_decide; simplify_eq/=.
  - by rewrite lookup_insert_eq.
  - by rewrite lookup_insert_ne.
Qed.

Lemma to_gmap_setitem d k v : to_gmap (dict_setitem d k v) = <[k:=v]> (to_gmap d).
Proof.
  apply map_eq. intros j. rewrite to_gmap_lookup, dict_get_setitem.
  case_decide; simplify_eq/=.
  - by rewrite lookup_insert_eq.
  - by rewrite lookup_insert_ne, to_gmap_lookup.
Qed.

Lemma to_gmap_nil : to_gmap [] = ∅.
Proof. done. Qed.

Lemma to_gmap_dom d : dom (to_gmap d) = list_to_set (dict_keys d).
Proof.
  apply set_eq. intros k.
  rewrite elem_of_dom, to_gmap_lookup, dict_get_is_Some, elem_of_list_to_set. done.
Qed.

(** ** Equality of dicts *)

#[export] Instance dict_equiv_equivalence : Equivalence (≡@{dict K V}).
Proof.
  unfold equiv, dict_equiv. split.
  - by intros d.
  - by intros d1 d2.
  - intros d1 d2 d3. congruence.
Qed.

#[export] Instance dict_get_proper : Proper ((≡) ==> (=) ==> (=)) dict_get.
Proof. intros d1 d2 Hd k ? <-. by rewrite <-!to_gmap_lookup, Hd. Qed.

#[export] Instance dict_setitem_proper :
  Proper ((≡) ==> (=) ==> (=) ==> (≡)) dict_setitem.
Proof.
  intros d1 d2 Hd k ? <- v ? <-. unfold equiv, dict_equiv in *.
  by rewrite !to_gmap_setitem, Hd.
Qed.

(** A dict is its map and the order of its keys: two dicts with the
    same view that iterate in the same order are the same dict. *)
Lemma dict_view_inj d1 d2 :
  dict_wf d1 → to_gmap d1 = to_gmap d2 → dict_keys d1 = dict_keys d2 → d1 = d2.
Proof.
  revert d2. induction d1 as [|[k v] d1 IH]; intros [|[k2 v2] d2] Hd Hm Hk; try done.
  injection Hk as -> Hk. apply NoDup_cons in Hd as [Hn Hd].
  pose proof (f_equal (.!! k2) Hm) as Hv. rewrite !to_gmap_lookup in Hv. simpl in Hv.
  rewrite !decide_True in Hv by done. injection Hv as ->. f_equal. apply IH; [done| |done].
  apply map_eq. intros j. rewrite !to_gmap_lookup. destruct (decide (j = k2)) as [->|Hj].
  - fold (dict_keys d1) in Hn. rewrite (proj2 (dict_get_None d1 k2)) by done.
    symmetry. apply dict_get_None. by rewrite <-Hk.
  - pose proof (f_equal (.!! j) Hm) as Hv. rewrite !to_gmap_lookup in Hv. simpl in Hv.
    by rewrite !decide_False in Hv by done.
Qed.

(** C40: the dict refines the ordered map, a finite map with the order
    of its keys.  An assignment is an insert that leaves the order
    alone when the key is known and puts a new key last; uniqueness of
    keys is kept; a lookup is a lookup and the keys are the domain; and
    the map and the order together determine the dict. *)
Theorem dict_refines_gmap d k v j :
  dict_wf d →
  let d' := dict_setitem d k v in
  dict_wf d' ∧
  to_gmap d' = <[k:=v]> (to_gmap d) ∧
  dict_keys d' = (if decide (k ∈ dict_keys d) then dict_keys d else dict_keys d ++ [k]) ∧
  to_gmap d !! j = dict_get d j ∧
  dom (to_gmap d) = list_to_set (dict_keys d) ∧
  ∀ d2, to_gmap d2 = to_gmap d → dict_keys d2 = dict_keys d → d2 = d.
Proof.
  intros Hd. split_and!;
    [by apply dict_setitem_wf|apply to_gmap_setitem|apply dict_keys_setitem
    |apply to_gmap_lookup|apply to_gmap_dom|].
  intros d2 Hm Hk. symmetry. by apply dict_view_inj.
Qed.

(** Python's [==] on dicts ignores order: two dicts with unique
    keys are equal as maps exactly when one is a permutation of the
    other. *)
Lemma dict_equiv_Permutation d1 d2 : dict_wf d1 → dict_wf d2 → d1 ≡ d2 ↔ d1 ≡ₚ d2.
Proof.
  unfold dict_wf, dict_keys, equiv, dict_equiv, to_gmap. intros H1 H2. split.
  - intros Heq. rewrite <-(map_to_list_to_map d1), <-(map_to_list_to_map d2) by done.
    by rewrite Heq.
  - intros Hp. by apply list_to_map_proper.
Qed.

(** A dict built from items has each key once, at the place of its
    first item and with the value of its last. *)
Lemma dict_from_items_spec (items : list (K * V)) k :
  dict_wf (dict_from_items items) ∧
  dict_keys (dict_from_items items) = first_occurrences [] items.*1 ∧
  dict_get (dict_from_items items) k = dict_get (reverse items) k.
Proof.
  unfold dict_from_items. split_and!.
  - apply dict_update_wf, NoDup_nil_2.
  - apply dict_keys_update.
  - rewrite dict_get_update. by destruct (dict_get (reverse items) k).
Qed.

End pydict.

#[export] Hint Resolve dict_setitem_wf dict_update_wf dict_setitem_Forall : py.
#[export] Hint Rewrite @dict_get_setitem_eq @dict_setitem_setitem @to_gmap_setitem
  @to_gmap_lookup : py.

Lemma dict_refines_gmap_witness :
  dict_keys (dict_setitem [(1, 10); (2, 20)] 1 11) = [1; 2] ∧
  dict_keys (dict_setitem [(1, 10); (2, 20)] 3 30) = [1; 2; 3] ∧
  to_gmap (dict_setitem [(1, 10); (2, 20)] 1 11) = <[1:=11]> (to_gmap [(1, 10); (2, 20)]).
Proof.
  destruct (dict_refines_gmap (K:=nat) (V:=nat) [(1, 10); (2, 20)] 1 11 0)
    as (_ & Hm & Hk & _); [compute_done|].
  destruct (dict_refines_gmap (K:=nat) (V:=nat) [(1, 10); (2, 20)] 3 30 0)
    as (_ & _ & Hk' & _); [compute_done|].
  split_and!; [exact Hk|exact Hk'|exact Hm].
Defined.

Lemma dict_equiv_Permutation_witness :
  [(1, 10); (2, 20)] ≡ [(2, 20); (1, 10)] ↔ [(1, 10); (2, 20)] ≡ₚ [(2, 20); (1, 10)].
Proof. apply (dict_equiv_Permutation (K:=nat) (V:=nat)); compute_done. Defined.
