(* ===== verification/PyFormat.v ===== *)
(** * PyFormat: integers in f-strings

    [f"{i}"] for a non-negative int is its decimal form with no leading
    zero.  The renderer builds its node keys from it, and keys are
    unique because the decimal form is injective and made of digits
    only. *)

From S2P Require Import Prelude PyStr.
From Stdlib Require Import DecimalString DecimalNat.

(** [str(n)], [f"{n}"]. *)
Definition str_of_nat (n : nat) : str :=
  lit (NilEmpty.string_of_uint (Nat.to_uint n)).

(** The characters 0 to 9. *)
Definition isdigit (c : char) : bool := ((48 <=? c) && (c <=? 57))%N.

Lemma lit_inj s1 s2 : lit s1 = lit s2 → s1 = s2.
Proof.
  unfold lit. intros H.
  rewrite <-(String.string_of_list_ascii_of_string s1),
          <-(String.string_of_list_ascii_of_string s2).
  f_equal. revert H. generalize (String.list_ascii_of_string s1) as l1.
  generalize (String.list_ascii_of_string s2) as l2.
  intros l2 l1. revert l2. induction l1 as [|a l1 IH]; intros [|b l2] H; simplify_eq/=; [done|].
  f_equal; [|by apply IH].
  by rewrite <-(Ascii.ascii_N_embedding a), <-(Ascii.ascii_N_embedding b), H.
Qed.

Lemma str_of_nat_inj n m : str_of_nat n = str_of_nat m → n = m.
Proof.
  intros H%lit_inj. apply Unsigned.to_uint_inj.
  apply (f_equal NilEmpty.uint_of_string) in H. rewrite !NilEmpty.usu in H. congruence.
Qed.

Lemma string_of_uint_digits d :
  Forall (λ c, isdigit c = true) (lit (NilEmpty.string_of_uint d)).
Proof. induction d; by constructor. Qed.

Lemma str_of_nat_digits n : Forall (λ c, isdigit c = true) (str_of_nat n).
Proof. apply string_of_uint_digits. Qed.

Lemma not_digit_not_in n c : isdigit c = false → c ∉ str_of_nat n.
Proof.
  intros Hc Hin. pose proof (str_of_nat_digits n) as H.
  rewrite Forall_forall in H. apply H in Hin. congruence.
Qed.

Lemma str_of_nat_one_line n : one_line (str_of_nat n).
Proof.
  eapply Forall_impl; [apply str_of_nat_digits|]. intros c. unfold isdigit, islinebreak. lia.
Qed.

#[export] Hint Resolve str_of_nat_one_line str_of_nat_digits : py.
