(* ===== verification/Utf8.v ===== *)
(** * Utf8: [str.encode("utf-8")] and [bytes.decode("utf-8")]

    The requester sends the prompt to the model as UTF-8 bytes and
    decodes what the model answers (src/main.py, lines 65 and 68).
    Both are strict: encoding raises on a surrogate code point, decoding
    raises on anything that is not the shortest encoding of a scalar
    value.  Bytes are numbers below 256.  The theorems show that the two
    are inverse of each other and characterise when each raises. *)

From Stdlib Require Import ZArith.
From S2P Require Import Prelude PyStr.

Abbreviation bytes := (list N) (only parsing).

Local Open Scope N_scope.

(** Division and remainder by a constant, for [lia]. *)
#[local] Ltac Zify.zify_post_hook ::= Z.to_euclidean_division_equations.

(** The code points a str can hold, the surrogates among them, and the
    scalar values: the code points that have an encoding. *)
Definition is_code_point (c : char) : bool := c <=? 0x10FFFF.
Definition is_surrogate (c : char) : bool := (0xD800 <=? c) && (c <=? 0xDFFF).
Definition is_scalar (c : char) : bool := is_code_point c && negb (is_surrogate c).

(** A byte, and a continuation byte [10xxxxxx]. *)
Definition is_byte (b : N) : bool := b <? 256.
Definition is_cont (b : N) : bool := (0x80 <=? b) && (b <? 0xC0).

(** The encoding of one character: one to four bytes by the size of
    the code point. *)
Definition encode_char (c : char) : res bytes :=
  if c <? 0x80 then Ok [c]
  else if c <? 0x800 then Ok [0xC0 + c / 64; 0x80 + c mod 64]
  else if is_surrogate c then Raise UnicodeError
  else if c <? 0x10000 then
    Ok [0xE0 + c / 4096; 0x80 + (c / 64) mod 64; 0x80 + c mod 64]
  else
    Ok [0xF0 + c / 262144; 0x80 + (c / 4096) mod 64; 0x80 + (c / 64) mod 64;
        0x80 + c mod 64].

(** [s.encode("utf-8")]: [UnicodeEncodeError] at the first surrogate. *)
Fixpoint encode (s : str) : res bytes :=
  match s with
  | [] => Ok []
  | c :: s' => bs ← encode_char c; bs' ← encode s'; Ok (bs ++ bs')
  end.

(** The payload of a lead byte and of a continuation byte. *)
Definition join2 (b0 b1 : N) : char := (b0 - 0xC0) * 64 + (b1 - 0x80).
Definition join3 (b0 b1 b2 : N) : char :=
  (b0 - 0xE0) * 4096 + (b1 - 0x80) * 64 + (b2 - 0x80).
Definition join4 (b0 b1 b2 b3 : N) : char :=
  (b0 - 0xF0) * 262144 + (b1 - 0x80) * 4096 + (b2 - 0x80) * 64 + (b3 - 0x80).

(** [bs.decode("utf-8")]: [UnicodeDecodeError] on a stray continuation
    byte, a truncated sequence, an encoding longer than needed, a
    surrogate, or a value above U+10FFFF. *)
Fixpoint decode (bs : bytes) : res str :=
  match bs with
  | [] => Ok []
  | b0 :: bs1 =>
      if b0 <? 0x80 then s ← decode bs1; Ok (b0 :: s)
      else if b0 <? 0xC2 then Raise UnicodeError
      else if b0 <? 0xE0 then
        match bs1 with
        | b1 :: bs2 =>
            if is_cont b1 then s ← decode bs2; Ok (join2 b0 b1 :: s)
            else Raise UnicodeError
        | _ => Raise UnicodeError
        end
      else if b0 <? 0xF0 then
        match bs1 with
        | b1 :: b2 :: bs3 =>
            let c := join3 b0 b1 b2 in
            if is_cont b1 && is_cont b2 && (0x800 <=? c) && negb (is_surrogate c)
            then s ← decode bs3; Ok (c :: s)
            else Raise UnicodeError
        | _ => Raise UnicodeError
        end
      else if b0 <? 0xF5 then
        match bs1 with
        | b1 :: b2 :: b3 :: bs4 =>
            let c := join4 b0 b1 b2 b3 in
            if is_cont b1 && is_cont b2 && is_cont b3 && (0x10000 <=? c) && is_code_point c
            then s ← decode bs4; Ok (c :: s)
            else Raise UnicodeError
        | _ => Raise UnicodeError
        end
      else Raise UnicodeError
  end.

(** A str from a literal of the proof script written in UTF-8. *)
Definition ulit (s : String.string) : str :=
  match decode (lit s) with Ok r => r | Raise _ => [] end.
Arguments ulit s%_string_scope : simpl never.

(** ** One character *)

Lemma encode_char_scalar c : is_scalar c = true → ∃ bs, encode_char c = Ok bs.
Proof.
  unfold is_scalar, encode_char. intros Hc.
  repeat case_match; eauto. lia.
Qed.

Lemma encode_char_Raise c e : encode_char c = Raise e ↔ is_surrogate c = true ∧ e = UnicodeError.
Proof.
  unfold encode_char, is_surrogate.
  repeat case_match; (split; [intros Hr|intros [Hr ->]]); try done; try lia.
  by injection Hr as <-.
Qed.

Lemma encode_char_bytes c bs :
  is_code_point c = true → encode_char c = Ok bs → Forall (λ b, is_byte b = true) bs.
Proof.
  unfold is_code_point, encode_char, is_byte. intros Hc.
  repeat case_match; intros ?; simplify_eq; repeat apply Forall_cons_2; try apply Forall_nil_2; lia.
Qed.

Lemma encode_char_length c bs :
  encode_char c = Ok bs → (1 ≤ length bs ≤ 4)%nat.
Proof. unfold encode_char. repeat case_match; intros ?; simplify_eq; simpl; lia. Qed.

(** Decoding reads back one encoded character and goes on. *)
Lemma decode_encode_char c bs rest :
  is_code_point c = true → encode_char c = Ok bs →
  decode (bs ++ rest) = s ← decode rest; Ok (c :: s).
Proof.
  unfold is_code_point, encode_char. intros Hc.
  repeat case_match; intros ?; simplify_eq; cbn [app decode].
  - by rewrite (proj2 (N.ltb_lt _ _)) by lia.
  - unfold join2, is_cont.
    repeat (case_match; try lia). clear -Hc. destruct (decode rest); simpl; do 2 f_equal; lia.
  - unfold join3, is_cont, is_surrogate in *.
    repeat (case_match; try lia). destruct (decode rest); simpl; do 2 f_equal; lia.
  - unfold join4, is_cont, is_code_point in *.
    repeat (case_match; try lia). destruct (decode rest); simpl; do 2 f_equal; lia.
Qed.

(** The bytes of a well-formed sequence are the encoding of what they
    decode to. *)
Lemma encode_join2 b0 b1 :
  0xC2 ≤ b0 < 0xE0 → is_cont b1 = true →
  encode_char (join2 b0 b1) = Ok [b0; b1] ∧ is_scalar (join2 b0 b1) = true.
Proof.
  unfold is_cont, encode_char, is_scalar, is_code_point, is_surrogate, join2. intros ??.
  split; [|lia]. repeat (case_match; try lia). do 3 f_equal; lia.
Qed.

Lemma encode_join3 b0 b1 b2 :
  0xE0 ≤ b0 < 0xF0 → is_cont b1 = true → is_cont b2 = true →
  0x800 ≤ join3 b0 b1 b2 → is_surrogate (join3 b0 b1 b2) = false →
  encode_char (join3 b0 b1 b2) = Ok [b0; b1; b2] ∧ is_scalar (join3 b0 b1 b2) = true.
Proof.
  unfold is_scalar, is_code_point, encode_char. intros ???? ->.
  assert (join3 b0 b1 b2 < 0x10000) by (unfold join3, is_cont in *; lia).
  split; [|lia]. repeat (case_match; try lia).
  unfold join3, is_cont in *. do 2 f_equal; [|f_equal; [|f_equal]]; lia.
Qed.

Lemma encode_join4 b0 b1 b2 b3 :
  0xF0 ≤ b0 < 0xF5 → is_cont b1 = true → is_cont b2 = true → is_cont b3 = true →
  0x10000 ≤ join4 b0 b1 b2 b3 → is_code_point (join4 b0 b1 b2 b3) = true →
  encode_char (join4 b0 b1 b2 b3) = Ok [b0; b1; b2; b3] ∧
  is_scalar (join4 b0 b1 b2 b3) = true.
Proof.
  unfold is_scalar, is_surrogate, encode_char. intros ????? ->.
  split; [|lia]. unfold is_surrogate. repeat (case_match; try lia).
  unfold join4, is_cont in *. do 2 f_equal; [|f_equal; [|f_equal; [|f_equal]]]; lia.
Qed.

Lemma encode_ascii_char b0 :
  b0 < 0x80 → encode_char b0 = Ok [b0] ∧ is_scalar b0 = true.
Proof.
  unfold encode_char, is_scalar, is_code_point, is_surrogate. intros ?.
  split; [by rewrite (proj2 (N.ltb_lt b0 _))|lia].
Qed.

(** What a successful decoding starts with: nothing, or the encoding of
    a scalar value followed by a sequence that decodes. *)
Lemma decode_Ok_inv bs s :
  decode bs = Ok s →
  bs = [] ∧ s = [] ∨
  ∃ c enc rest s', is_scalar c = true ∧ encode_char c = Ok enc ∧
    bs = enc ++ rest ∧ s = c :: s' ∧ decode rest = Ok s'.
Proof.
  destruct bs as [|b0 bs1]; [intros [= <-]; by left|right]. revert H. cbn [decode].
  repeat case_match; try done; subst;
    (destruct (decode _) as [s'|] eqn:E; intros ?; simplify_eq/=);
    repeat match goal with
    | H : _ && _ = true |- _ => apply andb_true_iff in H as [??]
    | H : negb _ = true |- _ => apply negb_true_iff in H
    end.
  - edestruct (encode_ascii_char b0) as [??]; [lia|]. by exists b0, [b0], bs1, s'.
  - edestruct (encode_join2 b0) as [??]; [| |by eexists _, _, _, _]; [lia|eassumption].
  - edestruct (encode_join3 b0) as [??];
      [| | | | |by eexists _, _, _, _]; try eassumption; lia.
  - edestruct (encode_join4 b0) as [??];
      [| | | | | |by eexists _, _, _, _]; try eassumption; lia.
Qed.

(** ** Whole strings *)

(** The strs every character of which has an encoding. *)
Definition encodable (s : str) : Prop := Forall (λ c, is_scalar c = true) s.

#[export] Instance encodable_dec s : Decision (encodable s).
Proof. unfold encodable. apply _. Defined.

(** [str.isascii]: the characters below 128, which every encoding of
    a console has. *)
Definition isascii (s : str) : Prop := Forall (λ c, c < 128)%N s.

#[export] Instance isascii_dec s : Decision (isascii s).
Proof. unfold isascii. apply _. Defined.

Lemma ascii_is_scalar c : (c < 128)%N → is_scalar c = true.
Proof. unfold is_scalar, is_code_point, is_surrogate. lia. Qed.

Lemma isascii_encodable s : isascii s → encodable s.
Proof. intros H. eapply Forall_impl; [exact H|]. apply ascii_is_scalar. Qed.

Lemma is_scalar_code_point c : is_scalar c = true → is_code_point c = true.
Proof. unfold is_scalar. by intros [? _]%andb_true_iff. Qed.

Lemma encode_cons c s bs bs' :
  encode_char c = Ok bs → encode s = Ok bs' → encode (c :: s) = Ok (bs ++ bs').
Proof. simpl. by intros -> ->. Qed.

Lemma encode_Ok_encodable s bs :
  Forall (λ c, is_code_point c = true) s → encode s = Ok bs → encodable s.
Proof.
  intros Hs. revert bs. induction Hs as [|c s Hc Hs IH]; intros bs; [by constructor|].
  simpl. destruct (encode_char c) as [b|e] eqn:Ec; [|done].
  destruct (encode s) as [b'|] eqn:Es; [|done]. intros _. constructor; [|by eapply IH].
  unfold is_scalar. rewrite Hc. simpl. destruct (is_surrogate c) eqn:E; [|done].
  by rewrite (proj2 (encode_char_Raise c UnicodeError)) in Ec.
Qed.

Lemma encodable_encode s : encodable s → ∃ bs, encode s = Ok bs ∧ decode bs = Ok s.
Proof.
  induction 1 as [|c s Hc Hs (bs' & Es & Ds)]; [by exists []|].
  destruct (encode_char_scalar c Hc) as [bs Ec]. exists (bs ++ bs').
  split; [by apply encode_cons|].
  rewrite (decode_encode_char c) by auto using is_scalar_code_point. by rewrite Ds.
Qed.

Lemma decode_encode_length n bs s :
  (length bs ≤ n)%nat → decode bs = Ok s → encode s = Ok bs ∧ encodable s.
Proof.
  revert bs s. induction n as [|n IH]; intros bs s Hn Hd;
    apply decode_Ok_inv in Hd as [[-> ->]|(c & enc & rest & s' & Hc & Ec & -> & -> & Hr)];
    try (split; [done|constructor]).
  - apply encode_char_length in Ec. rewrite length_app in Hn. lia.
  - destruct (IH rest s') as [Es Hs]; [|done|].
    + apply encode_char_length in Ec. rewrite length_app in Hn. lia.
    + split; [by apply encode_cons|by constructor].
Qed.

(** What decodes is made of scalar values. *)
Lemma decode_Ok_encodable bs s : decode bs = Ok s → encodable s.
Proof. intros Hd. by apply (decode_encode_length (length bs)) in Hd as [_ ?]. Qed.

Lemma encode_bytes s bs :
  Forall (λ c, is_code_point c = true) s → encode s = Ok bs →
  Forall (λ b, is_byte b = true) bs.
Proof.
  intros Hs. revert bs. induction Hs as [|c s Hc Hs IH]; intros bs; simpl.
  - intros [= <-]. constructor.
  - destruct (encode_char c) as [b|] eqn:Ec; [|done].
    destruct (encode s) as [b'|]; intros [= <-]. apply Forall_app. split; [|by apply IH].
    by eapply encode_char_bytes.
Qed.

Lemma encode_length s bs :
  encode s = Ok bs → (length s ≤ length bs ≤ 4 * length s)%nat.
Proof.
  revert bs. induction s as [|c s IH]; intros bs; simpl.
  - intros [= <-]. simpl. lia.
  - destruct (encode_char c) as [b|] eqn:Ec; [|done].
    destruct (encode s) as [b'|]; intros [= <-].
    apply encode_char_length in Ec. specialize (IH _ eq_refl). rewrite length_app. lia.
Qed.

Lemma encode_Raise_Exists s e :
  encode s = Raise e → Exists (λ c, is_surrogate c = true) s ∧ e = UnicodeError.
Proof.
  induction s as [|c s IH]; simpl; [done|].
  destruct (encode_char c) as [b|e'] eqn:Ec.
  - destruct (encode s) as [b'|e'']; [done|]. intros [= <-].
    destruct IH as [??]; [done|]. split; [by right|done].
  - intros [= <-]. apply encode_char_Raise in Ec as [??]. split; [by left|done].
Qed.

Lemma encode_app s1 s2 :
  encode (s1 ++ s2) = (b1 ← encode s1; b2 ← encode s2; Ok (b1 ++ b2)).
Proof.
  induction s1 as [|c s1 IH]; simpl; [by destruct (encode s2)|].
  destruct (encode_char c) as [b|]; simpl; [|done]. rewrite IH.
  destruct (encode s1) as [b1|]; simpl; [|done].
  destruct (encode s2) as [b2|]; simpl; [|done]. by rewrite app_assoc.
Qed.

Lemma decode_Raise bs e : decode bs = Raise e → e = UnicodeError.
Proof.
  revert bs. assert (∀ n bs, (length bs ≤ n)%nat → decode bs = Raise e → e = UnicodeError)
    as Hn; [|by intros bs; apply (Hn (length bs))].
  induction n as [|n IH]; intros [|b0 bs] Hl; simpl in Hl; try done; try lia.
  cbn [decode]. repeat case_match; subst; simpl in Hl; try (by intros [= <-]);
    (destruct (decode _) as [?|e'] eqn:E; [done|]); intros [= <-];
    (eapply IH; [|exact E]; lia).
Qed.

(** Code points up to U+007F are their own encoding. *)
Lemma encode_ascii s : Forall (λ c, c < 0x80) s → encode s = Ok s.
Proof.
  induction 1 as [|c s Hc _ IH]; [done|]. simpl.
  destruct (encode_ascii_char c Hc) as [-> _]. by rewrite IH.
Qed.

(** C9: a str with no surrogate has an encoding, made of bytes, between
    one and four per character, and decoding it gives the str back. *)
Theorem encode_decode s :
  encodable s →
  ∃ bs, encode s = Ok bs ∧ decode bs = Ok s ∧
        Forall (λ b, is_byte b = true) bs ∧ (length s ≤ length bs ≤ 4 * length s)%nat.
Proof.
  intros Hs. destruct (encodable_encode s Hs) as (bs & He & Hd). exists bs.
  repeat (split; [done|]). split; [|by apply encode_length].
  eapply encode_bytes; [|done].
  eapply Forall_impl; [exact Hs|]. auto using is_scalar_code_point.
Qed.

Lemma encode_decode_witness :
  ∃ bs, encode (ulit "Tópico ✅") = Ok bs ∧ decode bs = Ok (ulit "Tópico ✅") ∧
        Forall (λ b, is_byte b = true) bs ∧
        (length (ulit "Tópico ✅") ≤ length bs ≤ 4 * length (ulit "Tópico ✅"))%nat.
Proof. apply encode_decode. compute_done. Defined.

(** C29: whatever decodes is the encoding of its decoding: a byte
    sequence that is not the shortest encoding of scalar values is
    rejected, so decoding is injective. *)
Theorem decode_encode bs s :
  decode bs = Ok s → encode s = Ok bs ∧ encodable s.
Proof. by apply (decode_encode_length (length bs)). Qed.

Lemma decode_encode_witness :
  encode [233; 8364; 128512] = Ok [195; 169; 226; 130; 172; 240; 159; 152; 128] ∧
  encodable [233; 8364; 128512].
Proof. by apply decode_encode. Defined.

(** C39: encoding a str raises exactly when the str holds a surrogate
    code point, and what it raises is a Unicode error. *)
Theorem encode_Raise s e :
  Forall (λ c, is_code_point c = true) s →
  encode s = Raise e ↔ ¬ encodable s ∧ e = UnicodeError.
Proof.
  intros Hs. split.
  - intros He. destruct (encode_Raise_Exists _ _ He) as [Hex ->]. split; [|done].
    intros Henc. destruct (encodable_encode s Henc) as (bs & E & _). congruence.
  - intros [Hn ->]. destruct (encode s) as [bs|e'] eqn:E.
    + destruct Hn. by eapply encode_Ok_encodable.
    + by apply encode_Raise_Exists in E as [_ ->].
Qed.

Lemma encode_Raise_witness :
  encode [65; 0xD800] = Raise UnicodeError ↔ ¬ encodable [65; 0xD800] ∧ UnicodeError = UnicodeError.
Proof. apply encode_Raise. compute_done. Defined.

(** Overlong forms, surrogates, stray and missing continuation bytes and
    values above U+10FFFF are rejected. *)
Example decode_rejects :
  decode [0xC0; 0x80] = Raise UnicodeError ∧
  decode [0xE0; 0x80; 0x80] = Raise UnicodeError ∧
  decode [0xED; 0xA0; 0x80] = Raise UnicodeError ∧
  decode [0x80] = Raise UnicodeError ∧
  decode [0xE2; 0x82] = Raise UnicodeError ∧
  decode [0xF4; 0x90; 0x80; 0x80] = Raise UnicodeError ∧
  decode [0xFF] = Raise UnicodeError.
Proof. by vm_compute. Qed.
