(* ===== verification/Parser.v ===== *)
(** * Parser: [parse_topicos] (src/main.py, lines 80-102)

    The parser's state is the dict [topicos] and the variable
    [current_topico]; the loop body is [parse_line], one definition per
    branch, and the loop is [res_foldl] over the lines of the reply.
    Indexing a list and looking a key up are the two operations of the
    body that can raise, and both are modelled as such. *)

From S2P Require Import Prelude PyStr PyDict.

(** The heading word the prompt asks for, "Tópico". *)
Definition Topico : str := [84; 243; 112; 105; 99; 111]%N.

(** The outline: topic name to subtopic names, in insertion order. *)
Abbreviation outline := (list (list N * list (list N))) (only parsing).

(** The two variables the loop updates. *)
Record pstate := PState {
  topicos : outline;
  current_topico : option str;
}.

(** [topicos = {}; current_topico = None] *)
Definition init_state : pstate := PState [] None.

(** [linha.startswith("*") and "Tópico" in linha] *)
Definition is_topic_line (linha : str) : bool :=
  startswith linha [STAR] && contains linha Topico.

(** [linha.startswith("+") and current_topico] *)
Definition is_subtopic_line (linha : str) (current : option str) : bool :=
  startswith linha [PLUS] && truthy current.

(** The topic branch:
    [current_topico = linha.split(":", 1)[1].strip()]
    [topicos[current_topico] = []] *)
Definition topic_branch (st : pstate) (linha : str) : res pstate :=
  name ← getitem (split1 linha COLON) 1;
  let current := strip name in
  Ok (PState (dict_setitem (topicos st) current []) (Some current)).

(** [linha.split(":", 1)[1].strip() if ":" in linha else linha[1:].strip()] *)
Definition subtopic_name (linha : str) : res str :=
  if contains linha [COLON]
  then name ← getitem (split1 linha COLON) 1; Ok (strip name)
  else Ok (strip (slice_from 1 linha)).

(** The subtopic branch: the name, then
    [topicos[current_topico].append(subt)]. *)
Definition subtopic_branch (st : pstate) (linha : str) : res pstate :=
  subt ← subtopic_name linha;
  match current_topico st with
  | Some current =>
      l ← dict_getitem (topicos st) current;
      Ok (PState (dict_setitem (topicos st) current (l ++ [subt])) (Some current))
  | None => Raise KeyError
  end.

(** The loop body. *)
Definition parse_line (st : pstate) (linha : str) : res pstate :=
  let linha := strip linha in
  if negb (truthy linha) then Ok st
  else if is_topic_line linha then topic_branch st linha
  else if is_subtopic_line linha (current_topico st) then subtopic_branch st linha
  else Ok st.

(** The loop over given lines, from a given state. *)
Definition parse_lines (st : pstate) (linhas : list str) : res pstate :=
  res_foldl parse_line st linhas.

(** [parse_topicos(resposta)] *)
Definition parse_topicos (resposta : str) : res outline :=
  st ← parse_lines init_state (splitlines resposta); Ok (topicos st).

(** The lines of the bullet format the prompt asks for, used to state
    the scenarios: ["* Tópico <n>: <name>"] and
    ["    + Subtópico <n>: <name>"]. *)
Definition topic_line (n name : str) : str :=
  lit "* T" ++ [243%N] ++ lit "pico " ++ n ++ lit ": " ++ name.
Definition subtopic_line (n name : str) : str :=
  lit "    + Subt" ++ [243%N] ++ lit "pico " ++ n ++ lit ": " ++ name.

(** A topic line with no colon: [split] returns one element, and
    element 1 is missing. *)
Definition malformed (linha : str) : bool :=
  is_topic_line (strip linha) && negb (contains (strip linha) [COLON]).

(** ** Well-formed outlines and states *)

(** An item of the outline: clean names, and no subtopic under the
    empty name (the empty name is false, so nothing is appended to it). *)
Definition item_ok (kv : str * list str) : Prop :=
  name_ok kv.1 ∧ Forall name_ok kv.2 ∧ (kv.1 = [] → kv.2 = []).

Definition outline_wf (o : outline) : Prop := dict_wf o ∧ Forall item_ok o.

(** Well-formedness is decidable: whether an outline is well formed is
    found by evaluation. *)
#[export] Instance item_ok_dec kv : Decision (item_ok kv).
Proof. unfold item_ok. apply _. Defined.
#[export] Instance outline_wf_dec o : Decision (outline_wf o).
Proof. unfold outline_wf, dict_wf. apply _. Defined.

(** The loop invariant: the outline is well formed and the current
    topic, once set, is one of its keys. *)
Definition state_wf (st : pstate) : Prop :=
  outline_wf (topicos st) ∧
  ∀ c, current_topico st = Some c → c ∈ dict_keys (topicos st).

(** The states the loop can be in: a step relation on lines. *)
Inductive reachable : pstate → Prop :=
| reach_init : reachable init_state
| reach_step st linha st' :
    reachable st → one_line linha → parse_line st linha = Ok st' → reachable st'.

(** The strs of an outline and of a state are made of characters that
    satisfy [P]. *)
Definition outline_chars (P : N → Prop) (o : outline) : Prop :=
  Forall (λ kv, Forall P kv.1 ∧ Forall (Forall P) kv.2) o.

(** [name] is a run of consecutive characters of [linha]. *)
Definition piece (name linha : str) : Prop := ∃ pre post, linha = pre ++ name ++ post.

(** The names of an outline and of a state satisfy [Q]. *)
Definition outline_names (Q : str → Prop) (o : outline) : Prop :=
  Forall (λ kv, Q kv.1 ∧ Forall Q kv.2) o.
Definition state_names (Q : str → Prop) (st : pstate) : Prop :=
  outline_names Q (topicos st) ∧ ∀ c, current_topico st = Some c → Q c.

(** ** The branches *)

Lemma init_state_wf : state_wf init_state.
Proof. repeat split; try constructor. by intros c. Qed.

Lemma topic_branch_wf st linha st' :
  state_wf st → one_line linha → topic_branch st linha = Ok st' → state_wf st'.
Proof.
  intros [[Hd Hi] Hc] Hl. unfold topic_branch. intros Hst. res_inv Hst.
  simplify_eq/=. repeat split; simpl.
  - auto with py.
  - apply dict_setitem_Forall; [done|]. repeat split; simpl; try done.
    all: eapply name_ok_strip, split1_getitem_1_Forall; eauto.
  - intros c [= <-]. apply dict_get_is_Some. by autorewrite with py.
Qed.

Lemma subtopic_name_Ok linha : ∃ subt, subtopic_name linha = Ok subt.
Proof.
  unfold subtopic_name. destruct (contains linha [COLON]) eqn:E; [|eauto].
  apply contains_char, (getitem_split1_Ok _ COLON) in E as [b ->]. simpl. eauto.
Qed.

Lemma subtopic_name_ok linha subt :
  one_line linha → subtopic_name linha = Ok subt → name_ok subt.
Proof.
  unfold subtopic_name. intros Hl. case_match.
  - intros Hs. res_inv Hs. simplify_eq.
    eapply name_ok_strip, split1_getitem_1_Forall; eauto.
  - intros [= <-]. by apply name_ok_strip, (one_line_drop 1).
Qed.

Lemma subtopic_branch_Ok st linha :
  state_wf st → truthy (current_topico st) = true →
  ∃ c l subt, current_topico st = Some c ∧ c ≠ [] ∧
    dict_get (topicos st) c = Some l ∧ subtopic_name linha = Ok subt ∧
    subtopic_branch st linha =
      Ok (PState (dict_setitem (topicos st) c (l ++ [subt])) (Some c)).
Proof.
  intros [_ Hc] Ht. unfold subtopic_branch.
  destruct (current_topico st) as [c|] eqn:Ec; [|done].
  destruct (proj2 (dict_get_is_Some _ _) (Hc c eq_refl)) as [l El].
  destruct (subtopic_name_Ok linha) as [subt Es].
  exists c, l, subt. rewrite Es. unfold dict_getitem. rewrite El. simpl.
  split_and!; try done. by intros ->.
Qed.

Lemma subtopic_branch_wf st linha st' :
  state_wf st → one_line linha → truthy (current_topico st) = true →
  subtopic_branch st linha = Ok st' → state_wf st'.
Proof.
  intros Hst Hl Ht. pose proof Hst as [[Hd Hi] Hc].
  destruct (subtopic_branch_Ok st linha Hst Ht) as (c & l & subt & Ec & Hne & El & Es & ->).
  intros [= <-]. repeat split; simpl.
  - auto with py.
  - apply dict_setitem_Forall; [done|].
    destruct (dict_get_Forall _ _ _ _ Hi El) as (Hk & Hv & _).
    refine (conj Hk (conj _ (λ E, False_ind _ (Hne E)))). simpl.
    apply Forall_app. split; [done|]. constructor; [|done].
    by eapply subtopic_name_ok.
  - intros ? [= <-]. apply dict_get_is_Some. by autorewrite with py.
Qed.

(** ** The loop body *)

Lemma is_topic_line_truthy linha : is_topic_line linha = true → truthy linha = true.
Proof.
  unfold is_topic_line. intros [H%startswith_char _]%andb_true_iff.
  by destruct linha.
Qed.

Lemma malformed_spec linha :
  malformed linha = true ↔ is_topic_line (strip linha) = true ∧ COLON ∉ strip linha.
Proof.
  unfold malformed. rewrite andb_true_iff, negb_true_iff, <-contains_char.
  by rewrite not_true_iff_false.
Qed.

(** The body on a topic line: the branch runs on the stripped line. *)
Lemma parse_line_topic st linha :
  is_topic_line (strip linha) = true →
  parse_line st linha = topic_branch st (strip linha).
Proof.
  intros Ht. unfold parse_line. by rewrite (is_topic_line_truthy _ Ht), Ht.
Qed.

(** The body on a line that is not a topic line: a subtopic line when a
    non-empty topic is current, and nothing otherwise. *)
Lemma parse_line_other st linha :
  is_topic_line (strip linha) = false →
  parse_line st linha =
    if is_subtopic_line (strip linha) (current_topico st)
    then subtopic_branch st (strip linha) else Ok st.
Proof.
  intros Ht. unfold parse_line. rewrite Ht.
  destruct (strip linha) as [|c s] eqn:E; [|done].
  unfold is_subtopic_line. by simpl.
Qed.

(** A topic line with no colon raises [IndexError], whatever the state. *)
Lemma parse_line_malformed st linha :
  malformed linha = true → parse_line st linha = Raise IndexError.
Proof.
  intros [Ht Hc]%malformed_spec. rewrite parse_line_topic by done.
  unfold topic_branch. by rewrite getitem_split1_Raise.
Qed.

(** Every step preserves the invariant. *)
Lemma parse_line_wf st linha st' :
  state_wf st → one_line linha → parse_line st linha = Ok st' → state_wf st'.
Proof.
  intros Hst Hl%one_line_strip.
  destruct (is_topic_line (strip linha)) eqn:Ht.
  - rewrite parse_line_topic by done. by apply topic_branch_wf.
  - rewrite parse_line_other by done.
    destruct (is_subtopic_line _ _) eqn:Hs; [|by intros [= <-]].
    apply andb_true_iff in Hs as [_ Hs]. by apply subtopic_branch_wf.
Qed.

(** A line that is not malformed is consumed without an exception. *)
Lemma parse_line_Ok st linha :
  state_wf st → malformed linha = false → ∃ st', parse_line st linha = Ok st'.
Proof.
  intros Hst Hm. destruct (is_topic_line (strip linha)) eqn:Ht.
  - rewrite parse_line_topic by done. unfold topic_branch, malformed in *.
    rewrite Ht in Hm. apply negb_false_iff, contains_char in Hm.
    apply (getitem_split1_Ok _ COLON) in Hm as [b ->]. simpl. eauto.
  - rewrite parse_line_other by done.
    destruct (is_subtopic_line _ _) eqn:Hs; [|eauto].
    apply andb_true_iff in Hs as [_ Hs].
    destruct (subtopic_branch_Ok st (strip linha) Hst Hs) as (?&?&?&_&_&_&_&->). eauto.
Qed.

#[export] Hint Resolve init_state_wf parse_line_wf : py.

(** ** The loop *)

Lemma parse_lines_cons st linha linhas :
  parse_lines st (linha :: linhas) = (st' ← parse_line st linha; parse_lines st' linhas).
Proof. done. Qed.

Lemma parse_lines_app st l1 l2 :
  parse_lines st (l1 ++ l2) = (st' ← parse_lines st l1; parse_lines st' l2).
Proof. apply res_foldl_app. Qed.

(** The loop, from a well-formed state: [IndexError] when a line is
    malformed, a well-formed state otherwise. *)
Lemma parse_lines_spec st linhas :
  state_wf st → Forall one_line linhas →
  if existsb malformed linhas then parse_lines st linhas = Raise IndexError
  else ∃ st', parse_lines st linhas = Ok st' ∧ state_wf st'.
Proof.
  intros Hst Hl. revert st Hst.
  induction Hl as [|linha linhas Hl _ IH]; intros st Hst; simpl; [eauto|].
  destruct (malformed linha) eqn:Hm; simpl.
  - unfold parse_lines. simpl. by rewrite parse_line_malformed.
  - destruct (parse_line_Ok st linha Hst Hm) as [st1 E].
    rewrite parse_lines_cons, E. simpl. apply IH. eauto with py.
Qed.

Lemma parse_lines_reachable st linhas st' :
  reachable st → Forall one_line linhas → parse_lines st linhas = Ok st' → reachable st'.
Proof.
  intros Hst Hl. revert st Hst. induction Hl as [|l ls Hl _ IH]; intros st Hst.
  - by intros [= <-].
  - rewrite parse_lines_cons. intros H. res_inv H. eauto using reachable.
Qed.

(** Without a current topic that is true, lines that are not topic lines
    leave the state as it is. *)
Lemma parse_lines_no_topics st linhas :
  truthy (current_topico st) = false →
  Forall (λ l, is_topic_line (strip l) = false) linhas →
  parse_lines st linhas = Ok st.
Proof.
  intros Hc. induction 1 as [|l ls Hl _ IH]; [done|].
  rewrite parse_lines_cons, parse_line_other by done.
  unfold is_subtopic_line. by rewrite Hc, andb_false_r.
Qed.

(** ** The parser *)

(** C1: [parse_topicos] raises [IndexError] when some line of the reply
    is a topic line without a colon, and in every other case returns a
    well-formed outline; it never raises [KeyError]. *)
Theorem parse_topicos_result resposta :
  if existsb malformed (splitlines resposta)
  then parse_topicos resposta = Raise IndexError
  else ∃ o, parse_topicos resposta = Ok o ∧ outline_wf o.
Proof.
  unfold parse_topicos.
  pose proof (parse_lines_spec init_state (splitlines resposta)
    init_state_wf (splitlines_one_line resposta)) as H.
  destruct (existsb malformed (splitlines resposta)).
  - by rewrite H.
  - destruct H as (st & -> & [Ho _]). simpl. eauto.
Qed.

(** C3: every state the loop reaches satisfies the invariant: unique
    keys, clean names, nothing under the empty name, and the current
    topic is a key of the dict. *)
Theorem reachable_state_wf st : reachable st → state_wf st.
Proof.
  induction 1 as [|st linha st' _ IH Hl Hstep]; [apply init_state_wf|].
  by eapply parse_line_wf.
Qed.

Lemma reachable_state_wf_witness :
  state_wf (PState [(lit "A", [lit "Y"])] (Some (lit "A"))).
Proof.
  apply reachable_state_wf.
  apply (reach_step (PState [(lit "A", [])] (Some (lit "A"))) (lit "+ Sub: Y"));
    [|compute_done..].
  apply (reach_step init_state (topic_line (lit "1") (lit "A")));
    [apply reach_init|compute_done..].
Defined.

(** C34: a reply with no topic line parses to the empty outline. *)
Theorem parse_topicos_no_topics resposta :
  Forall (λ l, is_topic_line (strip l) = false) (splitlines resposta) →
  parse_topicos resposta = Ok [].
Proof.
  intros H. unfold parse_topicos. by rewrite parse_lines_no_topics.
Qed.

Lemma parse_topicos_no_topics_witness :
  parse_topicos ([9888; 65039]%N ++ lit " Nenhuma resposta foi gerada pelo Ollama.") = Ok [].
Proof. apply parse_topicos_no_topics. compute_done. Defined.

(** C35: lines before the first topic line (orphan subtopics among them)
    contribute nothing to the outline. *)
Theorem parse_topicos_orphans pre resposta :
  Forall one_line pre →
  Forall (λ l, is_topic_line (strip l) = false) pre →
  parse_topicos (unlines pre ++ resposta) = parse_topicos resposta.
Proof.
  intros Hl Hpre. unfold parse_topicos.
  by rewrite splitlines_unlines_app, parse_lines_app, parse_lines_no_topics.
Qed.

Lemma parse_topicos_orphans_witness :
  parse_topicos (unlines [lit "+ Orphan: X"] ++
                 unlines [topic_line (lit "1") (lit "A"); lit "+ Sub: Y"]) =
  parse_topicos (unlines [topic_line (lit "1") (lit "A"); lit "+ Sub: Y"]).
Proof. apply parse_topicos_orphans; compute_done. Defined.

(** ** The scenarios of the spec *)

Definition scenario1 : str :=
  unlines [topic_line (lit "1") (lit "Redes");
           subtopic_line (lit "1") (lit "TCP");
           subtopic_line (lit "2") (lit "UDP");
           topic_line (lit "2") (lit "Seguran" ++ [231%N] ++ lit "a");
           subtopic_line (lit "1") (lit "Criptografia")].

Definition scenario3 : str :=
  unlines [lit "+ Orphan: X"; topic_line (lit "1") (lit "A"); lit "+ Sub: Y"].

Definition scenario4 : str :=
  unlines [topic_line (lit "1") (lit "A"); lit "+ S1";
           topic_line (lit "2") (lit "A"); lit "+ S2"].

Example scenario1_outline :
  parse_topicos scenario1 =
    Ok [(lit "Redes", [lit "TCP"; lit "UDP"]);
        (lit "Seguran" ++ [231%N] ++ lit "a", [lit "Criptografia"])].
Proof. compute_done. Qed.

Example scenario1_wf :
  bool_decide (outline_wf [(lit "Redes", [lit "TCP"; lit "UDP"])]) = true ∧
  bool_decide (outline_wf [(lit "Redes ", [lit "TCP"])]) = false ∧
  bool_decide (outline_wf [([], [lit "TCP"])]) = false ∧
  bool_decide (outline_wf [(lit "A", []); (lit "A", [])]) = false.
Proof. by vm_compute. Qed.

Example scenario3_outline : parse_topicos scenario3 = Ok [(lit "A", [lit "Y"])].
Proof. compute_done. Qed.

Example scenario4_outline : parse_topicos scenario4 = Ok [(lit "A", [lit "S2"])].
Proof. compute_done. Qed.

Example scenario5_outline : parse_topicos [] = Ok [].
Proof. done. Qed.

(** ** White space around the reply *)

Lemma parse_line_strip st linha : parse_line st (strip linha) = parse_line st linha.
Proof. unfold parse_line. by autorewrite with py. Qed.

Lemma parse_line_blank st linha : strip linha = [] → parse_line st linha = Ok st.
Proof. unfold parse_line. by intros ->. Qed.

(** The loop sees the lines stripped, and the blank ones not at all. *)
Lemma parse_lines_stripped st linhas :
  parse_lines st linhas = parse_lines st (filter (λ l, l ≠ []) (strip <$> linhas)).
Proof.
  revert st. induction linhas as [|l ls IH]; intros st; [done|].
  rewrite parse_lines_cons. destruct (decide (strip l = [])) as [E|E].
  - rewrite stripped_lines_cons_blank, parse_line_blank by done. apply IH.
  - csimpl. rewrite filter_cons_True, parse_lines_cons, parse_line_strip by done.
    destruct (parse_line st l); [apply IH|done].
Qed.

Lemma parse_topicos_stripped_lines resposta :
  parse_topicos resposta = (st ← parse_lines init_state (stripped_lines resposta); Ok (topicos st)).
Proof. unfold parse_topicos. by rewrite parse_lines_stripped. Qed.

Lemma parse_topicos_strip resposta :
  parse_topicos (strip resposta) = parse_topicos resposta.
Proof. by rewrite !parse_topicos_stripped_lines, stripped_lines_strip. Qed.

(** A line whose first character is neither white space nor the star is
    no topic line. *)
Lemma is_topic_line_head c s :
  isspace c = false → c ≠ STAR → is_topic_line (strip (c :: s)) = false.
Proof.
  intros Hc Hs. unfold is_topic_line. apply andb_false_iff. left.
  apply not_true_is_false. rewrite startswith_char, strip_cons_head by done. congruence.
Qed.

(** C31: white space around the reply is immaterial: the reply padded
    with white space on either side parses to the same result, outline
    or exception, and so does the reply stripped, as the requester
    returns it. *)
Theorem parse_topicos_pad l resposta r :
  Forall (λ c, isspace c = true) l → Forall (λ c, isspace c = true) r →
  parse_topicos (l ++ resposta ++ r) = parse_topicos resposta ∧
  parse_topicos (strip (l ++ resposta ++ r)) = parse_topicos resposta.
Proof.
  intros Hl Hr. rewrite <-(parse_topicos_strip (l ++ _)), strip_pad by done.
  by rewrite !parse_topicos_strip.
Qed.

Lemma parse_topicos_pad_witness :
  parse_topicos (lit "  " ++ [LF] ++ scenario1 ++ [CR; LF; SPACE]) = parse_topicos scenario1 ∧
  parse_topicos (strip (lit "  " ++ [LF] ++ scenario1 ++ [CR; LF; SPACE])) =
    parse_topicos scenario1.
Proof. apply (parse_topicos_pad (lit "  " ++ [LF])); compute_done. Defined.

(** ** The two results of the parser, for its callers *)

Lemma parse_topicos_Raise resposta e :
  parse_topicos resposta = Raise e ↔
  e = IndexError ∧ existsb malformed (splitlines resposta) = true.
Proof.
  unfold parse_topicos.
  pose proof (parse_lines_spec init_state (splitlines resposta)
    init_state_wf (splitlines_one_line resposta)) as H.
  destruct (existsb malformed (splitlines resposta)).
  - rewrite H. simpl. split; [by intros [= <-]|by intros [-> _]].
  - destruct H as (st & -> & _). simpl. split; [done|by intros [_ ?]].
Qed.

Lemma parse_topicos_Ok_wf resposta o : parse_topicos resposta = Ok o → outline_wf o.
Proof.
  unfold parse_topicos.
  pose proof (parse_lines_spec init_state (splitlines resposta)
    init_state_wf (splitlines_one_line resposta)) as H.
  destruct (existsb malformed (splitlines resposta)).
  - by rewrite H.
  - destruct H as (st & -> & [Ho _]). by intros [= <-].
Qed.


(** ** The names of the outline *)

(** The parser invents nothing: the names it stores are cut out of the
    lines it reads, by [strip], by taking what follows the first colon
    and by dropping a leading character.  So a property [Q] of the lines
    that these three keep is a property of every name of the outline. *)
Section names.
Context (Q : str → Prop).
Context (Q_strip : ∀ s, Q s → Q (strip s)).
Context (Q_after : ∀ s sep b, Q s → getitem (split1 s sep) 1 = Ok b → Q b).
Context (Q_slice : ∀ n s, Q s → Q (slice_from n s)).

Lemma topic_branch_names st linha st' :
  state_names Q st → Q linha → topic_branch st linha = Ok st' → state_names Q st'.
Proof.
  intros [Ho Hc] Hl. unfold topic_branch. intros Hst. res_inv Hst. simplify_eq/=.
  split; simpl; [apply dict_setitem_Forall; [done|split; [|done]]|intros c [= <-]];
    eapply Q_strip, Q_after; eauto.
Qed.

Lemma subtopic_name_names linha subt :
  Q linha → subtopic_name linha = Ok subt → Q subt.
Proof.
  unfold subtopic_name. intros Hl. case_match.
  - intros Hs. res_inv Hs. simplify_eq. eapply Q_strip, Q_after; eauto.
  - intros [= <-]. by apply Q_strip, (Q_slice 1).
Qed.

Lemma subtopic_branch_names st linha st' :
  state_names Q st → Q linha → subtopic_branch st linha = Ok st' → state_names Q st'.
Proof.
  intros [Ho Hc] Hl. unfold subtopic_branch. intros Hst. res_inv Hst.
  destruct (current_topico st) as [c|] eqn:Ec; [|done]. res_inv Hst. simplify_eq/=.
  match goal with H : dict_getitem _ _ = Ok _ |- _ => rename H into Hg end.
  unfold dict_getitem in Hg. destruct (dict_get _ c) as [l|] eqn:El; simplify_eq/=.
  destruct (dict_get_Forall _ _ _ _ Ho El) as [Hk Hv].
  split; simpl; [|by intros ? [= <-]]. apply dict_setitem_Forall; [done|].
  split; [done|]. simpl. apply Forall_app. eauto using subtopic_name_names.
Qed.

Lemma parse_line_names st linha st' :
  state_names Q st → Q linha → parse_line st linha = Ok st' → state_names Q st'.
Proof.
  intros Hst Hl%Q_strip. destruct (is_topic_line (strip linha)) eqn:Ht.
  - rewrite parse_line_topic by done. by apply topic_branch_names.
  - rewrite parse_line_other by done.
    destruct (is_subtopic_line _ _); [by apply subtopic_branch_names|by intros [= <-]].
Qed.

Lemma parse_topicos_names resposta o :
  Forall Q (splitlines resposta) → parse_topicos resposta = Ok o → outline_names Q o.
Proof.
  intros Hr. unfold parse_topicos. intros Hp. res_inv Hp. simplify_eq.
  eapply (res_foldl_inv parse_line (state_names Q) Q); [apply parse_line_names|done| |done].
  split; [constructor|done].
Qed.

End names.

(** The parser makes no character. *)
Lemma parse_topicos_chars (P : N → Prop) resposta o :
  Forall P resposta → parse_topicos resposta = Ok o → outline_chars P o.
Proof.
  intros Hr. apply (parse_topicos_names (Forall P)); [apply strip_Forall|..].
  - intros s sep. apply split1_getitem_1_Forall.
  - intros n s. apply slice_from_Forall.
  - by apply splitlines_Forall.
Qed.

(** *** Names are pieces of lines *)

Lemma piece_refl s : piece s s.
Proof. exists [], []. by rewrite app_nil_r. Qed.

Lemma piece_trans a b c : piece a b → piece b c → piece a c.
Proof.
  intros (p1 & q1 & ->) (p2 & q2 & ->). exists (p2 ++ p1), (q1 ++ q2).
  by rewrite <-!(assoc_L (++)).
Qed.

Lemma piece_strip s : piece (strip s) s.
Proof. destruct (strip_spec s) as (l & r & E & _). by exists l, r. Qed.

Lemma piece_after s sep b : getitem (split1 s sep) 1 = Ok b → piece b s.
Proof.
  destruct (split1_getitem_1 s sep) as [[_ E]|(a & b' & -> & _ & E)];
    rewrite E; intros [= <-].
  exists (a ++ [sep]), []. by rewrite app_nil_r, <-(assoc_L (++)).
Qed.

Lemma piece_slice_from n s : piece (slice_from n s) s.
Proof. exists (take n s), []. by rewrite app_nil_r; unfold slice_from; rewrite take_drop. Qed.

(** C38: the parser invents nothing.  Every topic name and every
    subtopic name of the outline is a run of consecutive characters of
    one line of the reply: no name is made up, completed, translated or
    put together from two lines. *)
Theorem parse_topicos_pieces resposta o :
  parse_topicos resposta = Ok o →
  outline_names (λ name, ∃ linha, linha ∈ splitlines resposta ∧ piece name linha) o.
Proof.
  apply parse_topicos_names.
  - intros s (linha & ? & ?). eauto using piece_trans, piece_strip.
  - intros s sep b (linha & ? & ?) ?. eauto using piece_trans, piece_after.
  - intros n s (linha & ? & ?). eauto using piece_trans, piece_slice_from.
  - apply Forall_forall. eauto using piece_refl.
Qed.

Lemma parse_topicos_pieces_witness :
  outline_names (λ name, ∃ linha, linha ∈ splitlines scenario3 ∧ piece name linha)
    [(lit "A", [lit "Y"])].
Proof. apply parse_topicos_pieces. compute_done. Defined.
