(* ===== verification/ParserSpec.v ===== *)
(** * ParserSpec: the contract of [parse_topicos]

    The spec describes the parser as a classifier of lines followed by
    a reducer over the classified lines.  This file states that
    reading in three layers and proves that the code implements it:

    - [classify] tags a line, looking at the line alone;
    - [reduce] is the reducer over tags ([parse_line] is [reduce] after
      [classify]);
    - [blocks] groups the tags into one block per topic line, and the
      outline is the dict built from the blocks: keys in order of first
      appearance, the value of a name that of its last block. *)

From S2P Require Import Prelude PyStr PyDict Parser.

(** What a line is, by itself.  [Malformed] is a topic line with no
    colon, on which the code raises. *)
Inductive line_kind :=
| TopicLine (name : str)
| SubtopicLine (name : str)
| Malformed
| Unrecognized.

Definition classify (linha : str) : line_kind :=
  let l := strip linha in
  if is_topic_line l then
    match split1 l COLON with
    | [_; rest] => TopicLine (strip rest)
    | _ => Malformed
    end
  else if startswith l [PLUS] then
    SubtopicLine match split1 l COLON with
                 | [_; rest] => strip rest
                 | _ => strip (slice_from 1 l)
                 end
  else Unrecognized.

(** The reducer: how a tagged line changes the state. *)
Definition reduce (st : pstate) (ev : line_kind) : res pstate :=
  match ev with
  | TopicLine n => Ok (PState (dict_setitem (topicos st) n []) (Some n))
  | SubtopicLine s =>
      match current_topico st with
      | Some c =>
          if truthy c then
            l ← dict_getitem (topicos st) c;
            Ok (PState (dict_setitem (topicos st) c (l ++ [s])) (Some c))
          else Ok st
      | None => Ok st
      end
  | Malformed => Raise IndexError
  | Unrecognized => Ok st
  end.

(** The subtopic names up to the next topic line. *)
Fixpoint subs_until_topic (evs : list line_kind) : list str :=
  match evs with
  | [] => []
  | TopicLine _ :: _ => []
  | SubtopicLine s :: evs' => s :: subs_until_topic evs'
  | _ :: evs' => subs_until_topic evs'
  end.

(** One block per topic line: its name and the subtopics that follow it.
    The empty name takes none. *)
Fixpoint blocks (evs : list line_kind) : list (str * list str) :=
  match evs with
  | [] => []
  | TopicLine n :: evs' =>
      (n, if truthy n then subs_until_topic evs' else []) :: blocks evs'
  | _ :: evs' => blocks evs'
  end.

(** The outline the contract promises for a reply. *)
Definition outline_of (resposta : str) : outline :=
  dict_from_items (blocks (classify <$> splitlines resposta)).

(** The names the topic lines of a reply declare, in line order. *)
Definition topic_names (linhas : list str) : list str :=
  omap (λ l, match classify l with TopicLine n => Some n | _ => None end) linhas.

(** What the subtopics after the current topic do to the dict. *)
Definition extend (st : pstate) (subs : list str) : outline :=
  match current_topico st with
  | Some c =>
      if truthy c then
        match dict_get (topicos st) c with
        | Some l => dict_setitem (topicos st) c (l ++ subs)
        | None => topicos st
        end
      else topicos st
  | None => topicos st
  end.

(** ** The classifier *)

Lemma classify_Malformed linha : classify linha = Malformed ↔ malformed linha = true.
Proof.
  rewrite malformed_spec. unfold classify.
  destruct (is_topic_line (strip linha)); [|split; [by case_match|by intros []]].
  destruct (split1_shape (strip linha) COLON) as [[? ->]|(a & b & ? & -> & _)];
    split; try done. by intros [_ ?].
Qed.

(** The loop body is the reducer after the classifier. *)
Lemma parse_line_reduce st linha : parse_line st linha = reduce st (classify linha).
Proof.
  unfold classify. destruct (is_topic_line (strip linha)) eqn:Ht.
  - rewrite parse_line_topic by done. unfold topic_branch.
    by destruct (split1_shape (strip linha) COLON) as [[? ->]|(a & b & ? & -> & _)].
  - rewrite parse_line_other by done. unfold is_subtopic_line, subtopic_branch.
    destruct (startswith (strip linha) [PLUS]); simpl; [|done].
    destruct (current_topico st) as [c|]; simpl; [|done].
    unfold truthy at 1. simpl. destruct (truthy c); [|done].
    unfold subtopic_name.
    destruct (split1_shape (strip linha) COLON) as [[H1 ->]|(a & b & H1 & -> & _)].
    + apply contains_char_false in H1 as ->. by simpl.
    + apply contains_char in H1 as ->. by simpl.
Qed.

Lemma parse_lines_reduce st linhas :
  parse_lines st linhas = res_foldl reduce st (classify <$> linhas).
Proof.
  revert st. induction linhas as [|l ls IH]; intros st; [done|].
  rewrite parse_lines_cons, parse_line_reduce. simpl.
  destruct (reduce st (classify l)); simpl; [apply IH|done].
Qed.

(** ** The reducer computes the blocks *)

(** The current topic is a key of the dict. *)
Definition current_in (st : pstate) : Prop :=
  ∀ c, current_topico st = Some c → is_Some (dict_get (topicos st) c).

Lemma extend_nil st : current_in st → extend st [] = topicos st.
Proof.
  intros Hc. unfold extend. destruct (current_topico st) as [c|] eqn:Ec; [|done].
  destruct (truthy c); [|done]. destruct (Hc c Ec) as [l El].
  by rewrite El, app_nil_r, dict_setitem_id.
Qed.

Lemma extend_falsy st subs :
  truthy (current_topico st) = false → extend st subs = topicos st.
Proof.
  unfold extend, truthy at 1. destruct (current_topico st) as [c|]; simpl; [|done].
  by intros ->.
Qed.

Lemma reduce_subtopic_falsy st s :
  truthy (current_topico st) = false → reduce st (SubtopicLine s) = Ok st.
Proof.
  unfold truthy at 1. simpl. destruct (current_topico st) as [c|]; simpl; [|done].
  by intros ->.
Qed.

Lemma extend_topic d n subs :
  extend (PState (dict_setitem d n []) (Some n)) subs =
    dict_setitem d n (if truthy n then subs else []).
Proof.
  unfold extend. simpl. destruct (truthy n); [|done].
  by autorewrite with py.
Qed.

Lemma extend_subtopic d c l s subs :
  truthy c = true → dict_get d c = Some l →
  extend (PState (dict_setitem d c (l ++ [s])) (Some c)) subs =
    extend (PState d (Some c)) (s :: subs).
Proof.
  intros Hc Hl. unfold extend. simpl.
  by rewrite Hc, dict_get_setitem_eq, dict_setitem_setitem, Hl, <-app_assoc.
Qed.

(** From a state whose current topic is a key, the reducer runs to the
    dict updated by the blocks, unless a line is malformed. *)
Lemma reduce_blocks st evs :
  current_in st → Malformed ∉ evs →
  ∃ st', res_foldl reduce st evs = Ok st' ∧
    topicos st' = dict_update (extend st (subs_until_topic evs)) (blocks evs).
Proof.
  revert st. induction evs as [|ev evs IH]; intros st Hc Hm.
  { exists st. simpl. by rewrite extend_nil. }
  apply not_elem_of_cons in Hm as [Hev Hm].
  destruct ev as [n|s| |]; [| |done|by apply IH].
  - destruct (IH (PState (dict_setitem (topicos st) n []) (Some n))) as (st' & E1 & E2);
      [|done|].
    + intros c [= <-]. simpl. by autorewrite with py.
    + exists st'. simpl. by rewrite E1, E2, extend_topic, extend_nil.
  - destruct (truthy (current_topico st)) eqn:Et.
    + destruct (current_topico st) as [c|] eqn:Ec; [|done].
      change (truthy c = true) in Et. destruct (Hc c Ec) as [l El].
      destruct (IH (PState (dict_setitem (topicos st) c (l ++ [s])) (Some c)))
        as (st' & E1 & E2); [|done|].
      * intros ? [= <-]. simpl. by autorewrite with py.
      * exists st'. simpl. unfold dict_getitem. rewrite Ec, Et, El. simpl.
        rewrite E1, E2, extend_subtopic by done.
        unfold extend. simpl. by rewrite Ec.
    + destruct (IH st Hc Hm) as (st' & E1 & E2). exists st'.
      cbn [res_foldl subs_until_topic blocks].
      by rewrite (reduce_subtopic_falsy st s Et), E2, !extend_falsy.
Qed.

Lemma Malformed_classify_existsb linhas :
  Malformed ∈ classify <$> linhas ↔ existsb malformed linhas = true.
Proof.
  rewrite list_elem_of_fmap, existsb_exists. setoid_rewrite <-list_elem_of_In.
  split; intros (l & ? & ?); exists l; split; try done;
    [by apply classify_Malformed|symmetry; by apply classify_Malformed].
Qed.

Lemma blocks_names linhas : (blocks (classify <$> linhas)).*1 = topic_names linhas.
Proof.
  unfold topic_names. induction linhas as [|l ls IH]; [done|]. csimpl.
  destruct (classify l); csimpl; by rewrite ?IH.
Qed.

(** The loop, from the initial state, builds the dict of the blocks. *)
Lemma parse_lines_init_blocks linhas :
  existsb malformed linhas = false →
  ∃ st, parse_lines init_state linhas = Ok st ∧
    topicos st = dict_from_items (blocks (classify <$> linhas)).
Proof.
  intros Hm. rewrite parse_lines_reduce.
  destruct (reduce_blocks init_state (classify <$> linhas)) as (st & E1 & E2);
    [by intros c| |eauto].
  rewrite Malformed_classify_existsb. by rewrite Hm.
Qed.

Lemma parse_topicos_Ok_outline_of resposta o :
  parse_topicos resposta = Ok o → o = outline_of resposta.
Proof.
  unfold parse_topicos.
  pose proof (parse_lines_spec init_state (splitlines resposta)
    init_state_wf (splitlines_one_line resposta)) as H.
  destruct (existsb malformed (splitlines resposta)) eqn:Hm; [by rewrite H|].
  destruct (parse_lines_init_blocks _ Hm) as (st & -> & E). simpl. by intros [= <-].
Qed.

Lemma parse_topicos_well_formed resposta :
  existsb malformed (splitlines resposta) = false →
  parse_topicos resposta = Ok (outline_of resposta).
Proof.
  intros Hm. unfold parse_topicos.
  destruct (parse_lines_init_blocks _ Hm) as (st & -> & E). simpl. by rewrite E.
Qed.

(** ** The contract *)

(** C2: functional refinement.  The parser computes exactly the outline
    of the contract: the dict built, block after block, from the topic
    lines and the subtopic lines that follow each; and it raises
    [IndexError] on a reply with a malformed topic line. *)
Theorem parse_topicos_refines resposta :
  parse_topicos resposta =
    if existsb malformed (splitlines resposta) then Raise IndexError
    else Ok (outline_of resposta).
Proof.
  pose proof (parse_lines_spec init_state (splitlines resposta)
    init_state_wf (splitlines_one_line resposta)) as H.
  unfold parse_topicos. destruct (existsb malformed (splitlines resposta)) eqn:Hm.
  - by rewrite H.
  - destruct (parse_lines_init_blocks _ Hm) as (st & -> & E). simpl. by rewrite E.
Qed.

(** C13: the topics of the outline come in the order in which their
    names first appear in the reply, each once. *)
Theorem parse_topicos_keys resposta o :
  parse_topicos resposta = Ok o →
  dict_keys o = first_occurrences [] (topic_names (splitlines resposta)).
Proof.
  intros ->%parse_topicos_Ok_outline_of. unfold outline_of, dict_from_items.
  by rewrite dict_keys_update, blocks_names.
Qed.

Lemma parse_topicos_keys_witness :
  dict_keys [(lit "Redes", [lit "TCP"; lit "UDP"]);
             (lit "Seguran" ++ [231%N] ++ lit "a", [lit "Criptografia"])] =
  first_occurrences [] (topic_names (splitlines scenario1)).
Proof. apply (parse_topicos_keys scenario1). compute_done. Defined.

(** C6: the subtopics of a topic are those of the last block with its
    name: a repeated topic name discards what was collected before. *)
Theorem parse_topicos_lookup resposta o k :
  parse_topicos resposta = Ok o →
  dict_get o k = dict_get (reverse (blocks (classify <$> splitlines resposta))) k.
Proof.
  intros ->%parse_topicos_Ok_outline_of. unfold outline_of, dict_from_items.
  rewrite dict_get_update. by case_match.
Qed.

Lemma parse_topicos_lookup_witness :
  dict_get [(lit "A", [lit "S2"])] (lit "A") =
  dict_get (reverse (blocks (classify <$> splitlines scenario4))) (lit "A").
Proof. apply (parse_topicos_lookup scenario4). compute_done. Defined.

(** C32: the set of topic names of the outline is the set of names the
    topic lines declare. *)
Theorem parse_topicos_topic_set resposta o k :
  parse_topicos resposta = Ok o →
  k ∈ dict_keys o ↔ k ∈ topic_names (splitlines resposta).
Proof.
  intros ->%parse_topicos_Ok_outline_of. unfold outline_of, dict_from_items.
  rewrite dict_keys_update, first_occurrences_elem_of, blocks_names.
  split; [by intros [?%elem_of_nil|]|by right].
Qed.

Lemma parse_topicos_topic_set_witness :
  lit "A" ∈ dict_keys [(lit "A", [lit "Y"])] ↔
  lit "A" ∈ topic_names (splitlines scenario3).
Proof. apply (parse_topicos_topic_set scenario3). compute_done. Defined.
