(* ===== verification/ParserSteps.v ===== *)
(** * ParserSteps: the loop of [parse_topicos], one iteration at a time
    (src/main.py, lines 87-102)

    A small-step semantics of the [for] loop of the parser.  A
    configuration is the loop about to take its next line, with the
    dict and the current topic, or the function having returned, or an
    exception on its way out.  The relation [step] has one rule for
    each way through the body of the loop: the blank line, the topic
    line with and without a colon, the subtopic line under a current
    topic that is a key of the dict and under one that is not, the
    line that is neither, and the [return] after the last line.  The
    premises of a rule are the tests the code makes on that way.

    [step_fun] is the iteration as the function [parse_line] computes
    it, and [exec] its iteration with fuel.  The theorems show that
    the rules and the function agree, that the system is deterministic
    and never stuck, that the rule that raises [KeyError] is never
    taken from the start, and that the loop takes exactly one step for
    each line before the first topic line without a colon, and one
    more to return or to raise. *)

From stdpp Require Import relations.
From S2P Require Import Prelude PyStr PyDict Parser.

(** ** The transition system *)

Inductive config :=
| Loop (st : pstate) (linhas : list str)  (* at [for linha in linhas], these lines left *)
| Returned (topicos : outline)            (* after [return topicos] *)
| Raised (e : exn).                       (* an exception left the function *)

(** The state after [topicos[current] = []] and after
    [topicos[current].append(subt)]. *)
Definition opened (st : pstate) (current : str) : pstate :=
  PState (dict_setitem (topicos st) current []) (Some current).
Definition appended (st : pstate) (current : str) (l : list str) (subt : str) : pstate :=
  PState (dict_setitem (topicos st) current (l ++ [subt])) (Some current).

Inductive step : relation config :=
(* [linha = linha.strip(); if not linha: continue] *)
| step_blank st linha linhas :
    strip linha = [] →
    step (Loop st (linha :: linhas)) (Loop st linhas)
(* [if linha.startswith("*") and "Tópico" in linha:], and
   [linha.split(":", 1)] has an element 1 *)
| step_topic st linha linhas before rest :
    is_topic_line (strip linha) = true →
    split1 (strip linha) COLON = [before; rest] →
    step (Loop st (linha :: linhas)) (Loop (opened st (strip rest)) linhas)
(* the same test, and [linha.split(":", 1)] is the line alone *)
| step_topic_raise st linha linhas :
    is_topic_line (strip linha) = true →
    split1 (strip linha) COLON = [strip linha] →
    step (Loop st (linha :: linhas)) (Raised IndexError)
(* [elif linha.startswith("+") and current_topico:], and
   [current_topico] is a key of [topicos] *)
| step_subtopic st linha linhas current subt l :
    is_topic_line (strip linha) = false →
    startswith (strip linha) [PLUS] = true →
    current_topico st = Some current → current ≠ [] →
    subtopic_name (strip linha) = Ok subt →
    dict_get (topicos st) current = Some l →
    step (Loop st (linha :: linhas)) (Loop (appended st current l subt) linhas)
(* the same test, and [topicos[current_topico]] raises *)
| step_subtopic_raise st linha linhas current subt :
    is_topic_line (strip linha) = false →
    startswith (strip linha) [PLUS] = true →
    current_topico st = Some current → current ≠ [] →
    subtopic_name (strip linha) = Ok subt →
    dict_get (topicos st) current = None →
    step (Loop st (linha :: linhas)) (Raised KeyError)
(* neither test holds: the line is passed over *)
| step_other st linha linhas :
    strip linha ≠ [] →
    is_topic_line (strip linha) = false →
    is_subtopic_line (strip linha) (current_topico st) = false →
    step (Loop st (linha :: linhas)) (Loop st linhas)
(* [return topicos] *)
| step_return st : step (Loop st []) (Returned (topicos st)).

(** The configuration after the iteration on a line, as [parse_line]
    computes it. *)
Definition next (st : pstate) (linha : str) (linhas : list str) : config :=
  match parse_line st linha with
  | Ok st' => Loop st' linhas
  | Raise e => Raised e
  end.

Definition step_fun (c : config) : option config :=
  match c with
  | Loop st [] => Some (Returned (topicos st))
  | Loop st (linha :: linhas) => Some (next st linha linhas)
  | Returned _ | Raised _ => None
  end.

(** [topicos = {}; current_topico = None; linhas = resposta.splitlines()] *)
Definition start (resposta : str) : config := Loop init_state (splitlines resposta).

(** The configuration in which a call ends. *)
Definition outcome (r : res outline) : config :=
  match r with Ok o => Returned o | Raise e => Raised e end.

Definition final (c : config) : bool :=
  match c with Loop _ _ => false | Returned _ | Raised _ => true end.

(** The steps a configuration has left, at most. *)
Definition size (c : config) : nat :=
  match c with Loop _ linhas => S (length linhas) | Returned _ | Raised _ => 0 end.

(** [fuel] steps, or as many as there are. *)
Fixpoint exec (fuel : nat) (c : config) : config :=
  match fuel with
  | 0 => c
  | S fuel => match step_fun c with Some c' => exec fuel c' | None => c end
  end.

(** The lines the loop gets past: those before the first topic line
    without a colon. *)
Definition passed (linhas : list str) : list str :=
  take_while (λ linha, negb (malformed linha)) linhas.

(** The invariant of the system: the state is well formed, the lines
    left are lines, and the only exception is [IndexError]. *)
Definition config_wf (c : config) : Prop :=
  match c with
  | Loop st linhas => state_wf st ∧ Forall one_line linhas
  | Returned o => outline_wf o
  | Raised e => e = IndexError
  end.

(** ** The rules and the function *)

(** Each rule is a path of [parse_line]. *)
Lemma step_next st linha linhas c : step (Loop st (linha :: linhas)) c → c = next st linha linhas.
Proof.
  unfold next. inversion 1 as [??? E|????? Ht E|??? Ht E|?????? Ht Hp Hc Hn Es Hl
                               |????? Ht Hp Hc Hn Es Hl|??? Hn Ht Hs|]; subst.
  - unfold parse_line. by rewrite E.
  - rewrite parse_line_topic by done. unfold topic_branch. by rewrite E.
  - rewrite parse_line_topic by done. unfold topic_branch. by rewrite E.
  - rewrite parse_line_other by done. unfold is_subtopic_line, subtopic_branch, dict_getitem.
    rewrite Hp, Hc, Es, Hl. by destruct current.
  - rewrite parse_line_other by done. unfold is_subtopic_line, subtopic_branch, dict_getitem.
    rewrite Hp, Hc, Es, Hl. by destruct current.
  - rewrite parse_line_other by done. by rewrite Hs.
Qed.

(** Each path of [parse_line] is a rule. *)
Lemma next_step st linha linhas : step (Loop st (linha :: linhas)) (next st linha linhas).
Proof.
  unfold next. destruct (decide (strip linha = [])) as [E|E].
  { unfold parse_line. rewrite E. by apply step_blank. }
  destruct (is_topic_line (strip linha)) eqn:Ht.
  { rewrite parse_line_topic by done. unfold topic_branch.
    destruct (split1_shape (strip linha) COLON) as [[_ Es]|(a & b & _ & Es & _)];
      rewrite Es; simpl; [by apply step_topic_raise|by eapply step_topic]. }
  rewrite parse_line_other by done.
  destruct (is_subtopic_line _ _) eqn:Hs; [|by apply step_other].
  apply andb_true_iff in Hs as [Hp Hc]. unfold subtopic_branch, dict_getitem.
  destruct (current_topico st) as [current|] eqn:Ec; [|done].
  destruct (subtopic_name_Ok (strip linha)) as [subt Es]. rewrite Es. simpl.
  assert (current ≠ []) by by intros ->.
  destruct (dict_get (topicos st) current) as [l|] eqn:El; simpl;
    [by eapply step_subtopic|by eapply step_subtopic_raise].
Qed.

Lemma step_fun_spec c c' : step c c' ↔ step_fun c = Some c'.
Proof.
  split.
  - destruct c as [st [|linha linhas]| |]; [|by intros ->%step_next|inversion 1..].
    by inversion 1.
  - destruct c as [st [|linha linhas]| |]; simpl; intros [= <-];
      [apply step_return|apply next_step].
Qed.

Lemma step_deterministic : deterministic step.
Proof. intros c c1 c2 H1%step_fun_spec H2%step_fun_spec. congruence. Qed.

Lemma step_size c c' : step c c' → size c' < size c.
Proof. destruct 1; simpl; lia. Qed.

(** A configuration that is not final has a step: the loop is never
    stuck. *)
Lemma final_nf c : final c = true ↔ nf step c.
Proof.
  split.
  - intros Hf [c' Hs]. by destruct Hs.
  - intros Hnf. destruct c as [st linhas| |]; [|done..]. destruct Hnf.
    exists (default (Raised KeyError) (step_fun (Loop st linhas))).
    apply step_fun_spec. by destruct linhas.
Qed.

Lemma outcome_final r : final (outcome r) = true.
Proof. by destruct r. Qed.

(** ** The invariant *)

(** On a well-formed state the body raises only on a topic line
    without a colon, and then [IndexError]. *)
Lemma next_wf st linha linhas :
  config_wf (Loop st (linha :: linhas)) →
  config_wf (next st linha linhas) ∧
  (final (next st linha linhas) = true ↔ malformed linha = true).
Proof.
  intros [Hst [Hl Hls]%Forall_cons]. unfold next. destruct (malformed linha) eqn:Hm.
  - by rewrite parse_line_malformed.
  - destruct (parse_line_Ok st linha Hst Hm) as [st' E]. rewrite E.
    split; [|done]. split; [by eapply parse_line_wf|done].
Qed.

Lemma step_config_wf c c' : config_wf c → step c c' → config_wf c'.
Proof.
  intros Hc Hs. destruct c as [st [|linha linhas]| |]; [|apply step_next in Hs as ->|inversion Hs..].
  - inversion Hs; subst. apply Hc.
  - by apply next_wf.
Qed.

Lemma rtc_step_config_wf c c' : config_wf c → rtc step c c' → config_wf c'.
Proof. intros Hc Hs. induction Hs; eauto using step_config_wf. Qed.

Lemma start_wf resposta : config_wf (start resposta).
Proof. split; [apply init_state_wf|apply splitlines_one_line]. Qed.

(** ** Sequences of steps *)

Lemma step_sn c : sn step c.
Proof.
  induction c as [c IH] using (induction_ltof1 _ size).
  constructor. intros c' Hs. apply IH, step_size, Hs.
Qed.

(** The loop from a well-formed state: a step for each line it gets
    past, and one to return or to raise. *)
Lemma nsteps_parse_lines st linhas :
  config_wf (Loop st linhas) →
  nsteps step (S (length (passed linhas))) (Loop st linhas)
         (outcome (topicos <$> parse_lines st linhas)).
Proof.
  revert st. induction linhas as [|linha linhas IH]; intros st Hc.
  { apply nsteps_once, step_return. }
  destruct (next_wf _ _ _ Hc) as [Hn Hf]. pose proof (next_step st linha linhas) as Hs.
  unfold passed. rewrite parse_lines_cons. simpl. unfold next in *.
  destruct (malformed linha); destruct (parse_line st linha) as [st'|e]; simpl in *;
    try (by destruct Hf as [Hf1 Hf2]; first [discriminate Hf1|discriminate Hf2]; auto).
  - by apply nsteps_once.
  - eapply nsteps_l; [done|]. by apply IH.
Qed.

Lemma exec_nsteps n c c' : nsteps step n c c' → exec n c = c'.
Proof.
  induction 1 as [c|n c c1 c' Hs _ IH]; [done|]. simpl. by apply step_fun_spec in Hs as ->.
Qed.

Lemma exec_final fuel c : final c = true → exec fuel c = c.
Proof. destruct fuel, c; done. Qed.

Lemma exec_add n m c : exec (n + m) c = exec m (exec n c).
Proof.
  revert c. induction n as [|n IH]; intros c; [done|]. simpl.
  destruct (step_fun c) eqn:E; [done|]. symmetry. apply exec_final. by destruct c as [? []| |].
Qed.

(** A run of [n] steps to a final configuration: fuel computes it
    exactly from [n] on. *)
Lemma exec_exact n c c' fuel :
  nsteps step n c c' → final c' = true →
  (final (exec fuel c) = true ↔ n ≤ fuel) ∧ (n ≤ fuel → exec fuel c = c').
Proof.
  intros Hs Hf.
  assert (n ≤ fuel → exec fuel c = c') as Hge.
  { intros Hle. replace fuel with (n + (fuel - n)) by lia.
    by rewrite exec_add, (exec_nsteps _ _ _ Hs), exec_final. }
  split; [|done]. split; [|by intros ->%Hge].
  intros Hfin. destruct (decide (n ≤ fuel)) as [|Hlt]; [done|].
  replace n with (fuel + (n - fuel)) in Hs by lia.
  apply nsteps_add_inv in Hs as (c1 & H1 & H2). rewrite (exec_nsteps _ _ _ H1) in Hfin.
  apply final_nf in Hfin. destruct (n - fuel) eqn:E; [lia|].
  inversion H2; subst. destruct Hfin. by eexists.
Qed.

(** ** The loop terminates, in what the parser computes *)

Lemma parse_topicos_fmap resposta :
  parse_topicos resposta = topicos <$> parse_lines init_state (splitlines resposta).
Proof. unfold parse_topicos. by destruct (parse_lines _ _). Qed.

Lemma nsteps_parse_topicos resposta :
  nsteps step (S (length (passed (splitlines resposta)))) (start resposta)
         (outcome (parse_topicos resposta)).
Proof. rewrite parse_topicos_fmap. apply nsteps_parse_lines, start_wf. Qed.

(** C15: the loop of [parse_topicos] terminates, and when.  No sequence
    of steps from the start is infinite, and none takes the rule that
    raises [KeyError].  The loop takes one step for each line before
    the first topic line without a colon and one more, and is then in
    the outcome of [parse_topicos]: returned, or raised at that line.
    Every sequence that cannot be continued ends there, and running
    the steps with fuel reaches a final configuration exactly when the
    fuel exceeds the number of those lines. *)
Theorem parse_topicos_terminates resposta :
  let result := outcome (parse_topicos resposta) in
  let k := length (passed (splitlines resposta)) in
  sn step (start resposta) ∧
  (∀ c, rtc step (start resposta) c → c ≠ Raised KeyError) ∧
  nsteps step (S k) (start resposta) result ∧
  (∀ c, rtc step (start resposta) c → nf step c → c = result) ∧
  (∀ fuel, final (exec fuel (start resposta)) = true ↔ k < fuel) ∧
  (∀ fuel, k < fuel → exec fuel (start resposta) = result).
Proof.
  pose proof (nsteps_parse_topicos resposta) as Hs.
  pose proof (outcome_final (parse_topicos resposta)) as Hf.
  split_and!; [apply step_sn| |done| |intros fuel..].
  - intros c Hc%(rtc_step_config_wf _ _ (start_wf resposta)) ->. done.
  - intros c Hc Hnf.
    eapply (confluent_rtc_nf _ _ _ (deterministic_confluent step_deterministic));
      [done..|by eapply rtc_nsteps_2|by apply final_nf].
  - apply (exec_exact _ _ _ fuel Hs Hf).
  - apply (exec_exact _ _ _ fuel Hs Hf).
Qed.

(** The first scenario takes a step per line and one to return; a
    topic line without a colon stops the loop where it stands, and the
    lines after it are not looked at. *)
Example exec_examples :
  exec 6 (start scenario1) = outcome (parse_topicos scenario1) ∧
  final (exec 5 (start scenario1)) = false ∧
  exec 1 (start (lit "* T" ++ [243%N] ++ lit "pico sem nome" ++ [LF] ++ scenario1)) =
    Raised IndexError ∧
  length (passed (splitlines (lit "+ a" ++ [LF] ++ lit "* T" ++ [243%N] ++ lit "pico" ++
                              [LF] ++ scenario1))) = 1.
Proof. by vm_compute. Qed.
