(* ===== verification/Template.v ===== *)
(** * Template: the bullet format of the prompt, and the round trip

    The prompt (src/main.py, lines 51-57) shows the model the format of
    the reply: a line ["* Tópico <n>: <name>"] per topic, followed by a
    line ["    + Subtópico <n>: <name>"] per subtopic, both numbered
    from 1.  [print_outline] writes an outline in that format.  The
    theorems show that the parser reads back what the printer writes,
    for exactly the outlines that are well formed, and that an outline
    the parser has produced survives printing and parsing again. *)

From S2P Require Import Prelude PyStr PyDict PyFormat Parser ParserSpec.

(** The lines of one topic: its own, then those of its subtopics. *)
Definition print_subtopic (js : nat * str) : str :=
  subtopic_line (str_of_nat (S js.1)) js.2.

Definition print_topic (it : nat * (str * list str)) : list str :=
  topic_line (str_of_nat (S it.1)) it.2.1 :: (print_subtopic <$> enumerate it.2.2).

(** The outline in the bullet format. *)
Definition print_lines (o : outline) : list str :=
  concat (print_topic <$> enumerate o).

Definition print_outline (o : outline) : str := unlines (print_lines o).

(** ** The classifier on the lines of the format *)

Section lines.
Context (n name : str).
Hypothesis n_no_colon : COLON ∉ n.
Hypothesis name_stripped : stripped name.

Lemma strip_after_colon : strip (rstrip (SPACE :: name)) = name.
Proof. by rewrite strip_rstrip, strip_cons_space. Qed.

Lemma strip_topic_line :
  strip (topic_line n name) =
    (lit "* T" ++ [243%N] ++ lit "pico " ++ n) ++ COLON :: rstrip (SPACE :: name).
Proof. by apply (strip_marks STAR (lit " T" ++ [243%N] ++ lit "pico " ++ n) COLON). Qed.

Lemma strip_subtopic_line :
  strip (subtopic_line n name) =
    (lit "+ Subt" ++ [243%N] ++ lit "pico " ++ n) ++ COLON :: rstrip (SPACE :: name).
Proof.
  unfold subtopic_line. rewrite <-(strip_pad (lit "    ") _ []) by by repeat constructor.
  rewrite app_nil_r.
  by apply (strip_marks PLUS (lit " Subt" ++ [243%N] ++ lit "pico " ++ n) COLON).
Qed.

Lemma classify_topic_line : classify (topic_line n name) = TopicLine name.
Proof.
  unfold classify. rewrite strip_topic_line.
  assert (is_topic_line ((lit "* T" ++ [243%N] ++ lit "pico " ++ n) ++
            COLON :: rstrip (SPACE :: name)) = true) as ->.
  { unfold is_topic_line. apply andb_true_iff. split; [done|].
    apply contains_spec. by exists (lit "* "), (SPACE :: n ++ COLON :: rstrip (SPACE :: name)). }
  rewrite split1_found, strip_after_colon; [done|].
  rewrite !not_elem_of_app. split_and!; try done; compute_done.
Qed.

Lemma classify_subtopic_line : classify (subtopic_line n name) = SubtopicLine name.
Proof.
  unfold classify. rewrite strip_subtopic_line.
  rewrite split1_found, strip_after_colon; [done|].
  rewrite !not_elem_of_app. split_and!; try done; compute_done.
Qed.

End lines.

(** ** The events of an outline *)

(** What the classifier makes of the printed lines: a topic event, then
    a subtopic event per subtopic. *)
Definition events (o : outline) : list line_kind :=
  concat ((λ kv, TopicLine kv.1 :: (SubtopicLine <$> kv.2)) <$> o).

Lemma str_of_nat_no_colon k : COLON ∉ str_of_nat k.
Proof. by apply not_digit_not_in. Qed.

Lemma enumerate_elem_of {A} (l : list A) j x : (j, x) ∈ enumerate l → x ∈ l.
Proof.
  intros H. rewrite <-(enumerate_snd l). apply list_elem_of_fmap. by exists (j, x).
Qed.

Lemma classify_print_subtopics subs :
  Forall name_ok subs →
  classify <$> (print_subtopic <$> enumerate subs) = SubtopicLine <$> subs.
Proof.
  intros Hs. rewrite <-(enumerate_snd subs) at 2. rewrite <-!list_fmap_compose.
  apply list_fmap_ext. intros i [j s] Hjs%list_elem_of_lookup_2%enumerate_elem_of.
  rewrite Forall_forall in Hs. destruct (Hs s Hjs) as [? _].
  apply classify_subtopic_line; [apply str_of_nat_no_colon|done].
Qed.

Lemma classify_print_lines o :
  Forall item_ok o → classify <$> print_lines o = events o.
Proof.
  intros Ho. unfold print_lines, events. rewrite <-(enumerate_snd o) in Ho |- * at 2.
  induction (enumerate o) as [|[i [k subs]] its IH]; [done|].
  apply Forall_cons in Ho as [([Hk _] & Hsubs & _) Ho].
  rewrite !fmap_cons, !concat_cons, fmap_app, IH by done. f_equal.
  unfold print_topic. cbn [fst snd]. rewrite fmap_cons, classify_print_subtopics by done.
  by rewrite classify_topic_line by (done || apply str_of_nat_no_colon).
Qed.

Lemma subs_until_topic_app subs evs :
  subs_until_topic ((SubtopicLine <$> subs) ++ evs) = subs ++ subs_until_topic evs.
Proof. induction subs as [|s subs IH]; [done|]. csimpl. by rewrite IH. Qed.

Lemma blocks_app_subtopics subs evs : blocks ((SubtopicLine <$> subs) ++ evs) = blocks evs.
Proof. by induction subs. Qed.

Lemma subs_until_topic_events o : subs_until_topic (events o) = [].
Proof. by destruct o. Qed.

Lemma blocks_events o : Forall item_ok o → blocks (events o) = o.
Proof.
  unfold events. induction 1 as [|[k subs] o (_ & _ & Hk) _ IH]; [done|].
  rewrite fmap_cons, concat_cons. cbn [fst snd app blocks].
  rewrite subs_until_topic_app, blocks_app_subtopics, IH.
  fold (events o). rewrite subs_until_topic_events, app_nil_r.
  simpl in Hk. destruct k; [by rewrite Hk|done].
Qed.

Lemma Malformed_events o : Malformed ∉ events o.
Proof.
  unfold events. intros (l & (kv & -> & _)%list_elem_of_fmap & Hl)%elem_of_concat.
  by apply elem_of_cons in Hl as [|(? & ? & _)%list_elem_of_fmap].
Qed.

(** ** The printed lines *)

Lemma topic_line_one_line n name : one_line n → one_line name → one_line (topic_line n name).
Proof.
  intros. unfold topic_line, one_line in *. rewrite !Forall_app.
  split_and!; try done; compute_done.
Qed.

Lemma subtopic_line_one_line n name :
  one_line n → one_line name → one_line (subtopic_line n name).
Proof.
  intros. unfold subtopic_line, one_line in *. rewrite !Forall_app.
  split_and!; try done; compute_done.
Qed.

Lemma print_lines_one_line o : Forall item_ok o → Forall one_line (print_lines o).
Proof.
  intros Ho. unfold print_lines. apply Forall_concat, Forall_fmap, Forall_forall.
  intros [i [k subs]] Hin. apply enumerate_elem_of in Hin.
  rewrite Forall_forall in Ho. destruct (Ho _ Hin) as ([_ Hk] & Hsubs & _).
  constructor; [apply topic_line_one_line; auto with py|].
  apply Forall_fmap, Forall_forall. intros [j s] Hs%enumerate_elem_of.
  rewrite Forall_forall in Hsubs. destruct (Hsubs _ Hs) as [_ ?].
  apply subtopic_line_one_line; auto with py.
Qed.

Lemma splitlines_print_outline o :
  Forall item_ok o → splitlines (print_outline o) = print_lines o.
Proof. intros Ho. by apply splitlines_unlines, print_lines_one_line. Qed.

(** ** The round trip *)

Lemma parse_print_outline o : outline_wf o → parse_topicos (print_outline o) = Ok o.
Proof.
  intros [Hd Ho]. rewrite parse_topicos_well_formed.
  - unfold outline_of. rewrite splitlines_print_outline, classify_print_lines by done.
    by rewrite blocks_events, dict_from_items_wf.
  - apply not_true_is_false. rewrite <-Malformed_classify_existsb.
    rewrite splitlines_print_outline, classify_print_lines by done. apply Malformed_events.
Qed.

(** C5: the parser reads back what the printer writes, for exactly the
    well-formed outlines: unique topic names, names without line
    boundary or white space around them, and no subtopic under the
    empty name. *)
Theorem print_outline_roundtrip o :
  outline_wf o ↔ parse_topicos (print_outline o) = Ok o.
Proof. split; [apply parse_print_outline|apply parse_topicos_Ok_wf]. Qed.

(** C30: an outline the parser has produced survives the round trip
    through the bullet format of the prompt. *)
Theorem parse_topicos_reparse resposta o :
  parse_topicos resposta = Ok o → parse_topicos (print_outline o) = Ok o.
Proof. intros H. by eapply parse_print_outline, parse_topicos_Ok_wf. Qed.

Lemma parse_topicos_reparse_witness :
  parse_topicos (print_outline [(lit "A", [lit "S2"])]) = Ok [(lit "A", [lit "S2"])].
Proof. by apply (parse_topicos_reparse scenario4). Defined.

(** The first scenario of the spec is the printed form of its outline;
    an outline with a repeated name is not printable. *)
Example print_outline_scenario1 :
  print_outline [(lit "Redes", [lit "TCP"; lit "UDP"]);
                 (lit "Seguran" ++ [231%N] ++ lit "a", [lit "Criptografia"])] = scenario1.
Proof. by vm_compute. Qed.

Example print_outline_repeated :
  parse_topicos (print_outline [(lit "A", [lit "x"]); (lit "A", [])]) = Ok [(lit "A", [])].
Proof. by vm_compute. Qed.
