(* ===== verification/Extractor.v ===== *)
(** * Extractor: [extrair_texto_pdf] (src/main.py, lines 33-40)

    pdfplumber is not modelled: what it answers is the argument of the
    model.  Opening the file succeeds or raises, [pdf.pages] has a
    number of pages or raises, [extract_text] of a page yields a
    string, [None] or an exception, and leaving the [with] block closes
    the file, which may raise too.  The model is the loop that
    concatenates the page texts inside the block; the theorems give the
    closed form of the loop, say when the function returns and what,
    which exception it raises otherwise, and relate its output to the
    lines the parser of a later stage would read. *)

From S2P Require Import Prelude PyStr.

(** What [pagina.extract_text()] returns. *)
Abbreviation page_text := (option (list N)) (only parsing).

(** The loop body:
    [if pagina_texto: texto += pagina_texto + "\n"] *)
Definition add_page (texto : str) (pagina_texto : page_text) : str :=
  match pagina_texto with
  | Some t => if truthy t then texto ++ (t ++ [LF]) else texto
  | None => texto
  end.

(** The loop over [pdf.pages], from [texto = ""]. *)
Definition extract_pages (pages : list page_text) : str :=
  foldl add_page [] pages.

(** ** The function, given what pdfplumber answers *)

Section session.
(** The answers to [pdfplumber.open(caminho_pdf)], to [pdf.pages] (the
    number of pages), to [extract_text()] of the page at each position
    and to leaving the [with] block. *)
Context (opened : res unit) (pages : res nat) (extract_text : nat → res page_text)
        (closed : res unit).

(** The body of the [with] block:
    [for pagina in pdf.pages: pagina_texto = pagina.extract_text(); ...]
    from [texto = ""].  An exception of a page leaves the loop. *)
Definition read_pages : res str :=
  n ← pages; res_foldl_ans extract_text add_page [] (seq 0 n).

(** The pages [extract_text] is called on. *)
Definition pages_read : list nat :=
  match pages with Ok n => until_raise extract_text (seq 0 n) | Raise _ => [] end.

(** [extrair_texto_pdf(caminho_pdf)].  An exception of
    [pdfplumber.open] propagates at once; once the file is open the
    block is left, and the file closed, whatever the body does. *)
Definition extrair_texto_pdf : res str :=
  _ ← opened; leaving closed read_pages.

End session.

(** The answers of a file that opens, has the pages [pts] and closes. *)
Definition page_at (pts : list page_text) (i : nat) : res page_text :=
  or_raise IndexError (pts !! i).

(** The texts that count: pages that have one, and not the empty one. *)
Definition page_texts (pages : list page_text) : list str :=
  omap (λ p, match p with Some t => if truthy t then Some t else None | None => None end) pages.

(** ** The loop *)

Lemma foldl_add_page texto pages :
  foldl add_page texto pages = texto ++ unlines (page_texts pages).
Proof.
  revert texto. induction pages as [|p pages IH]; intros texto; simpl.
  - by rewrite app_nil_r.
  - rewrite IH. destruct p as [t|]; simpl; [|done].
    destruct (truthy t); simpl; [|done].
    by rewrite unlines_cons, <-!app_assoc.
Qed.

Lemma unlines_app l1 l2 : unlines (l1 ++ l2) = unlines l1 ++ unlines l2.
Proof. unfold unlines. by rewrite fmap_app, concat_app. Qed.

Lemma page_texts_app p1 p2 : page_texts (p1 ++ p2) = page_texts p1 ++ page_texts p2.
Proof. apply omap_app. Qed.

(** The loop computes the page texts that are not empty, each
    followed by a line feed; pages without text contribute nothing. *)
Lemma extract_pages_unlines pages :
  extract_pages pages = unlines (page_texts pages).
Proof. unfold extract_pages. by rewrite foldl_add_page. Qed.

(** Extraction distributes over the concatenation of page lists:
    the text of a document is the text of its first pages followed by
    the text of the rest. *)
Lemma extract_pages_app p1 p2 :
  extract_pages (p1 ++ p2) = extract_pages p1 ++ extract_pages p2.
Proof.
  unfold extract_pages. by rewrite !foldl_add_page, page_texts_app, unlines_app.
Qed.

(** When no page text contains a line boundary, the lines of the
    extracted text are exactly the page texts that are not empty. *)
Lemma extract_pages_lines pages :
  Forall one_line (page_texts pages) →
  splitlines (extract_pages pages) = page_texts pages.
Proof.
  intros H. unfold extract_pages. rewrite foldl_add_page. by apply splitlines_unlines.
Qed.

(** ** The session *)

Lemma Forall2_seq_lookup {C} (P : nat → C → Prop) n cs :
  Forall2 P (seq 0 n) cs ↔ length cs = n ∧ ∀ i c, cs !! i = Some c → P i c.
Proof.
  rewrite Forall2_same_length_lookup, length_seq. split; intros [Hn H]; (split; [done|]).
  - intros i c Hc. apply (H i); [|done]. apply lookup_seq. split; [done|].
    rewrite Hn. by eapply lookup_lt_Some.
  - intros i j c [-> _]%lookup_seq. apply H.
Qed.

Lemma seq_middle_inv n l1 i l2 : seq 0 n = l1 ++ i :: l2 → l1 = seq 0 i ∧ i < n.
Proof.
  intros H.
  assert (seq 0 n !! length l1 = Some i) as [-> Hlt]%lookup_seq
    by (rewrite H; by apply list_lookup_middle).
  split; [|done]. apply (f_equal (take (length l1))) in H.
  rewrite take_seq, take_app_length, Nat.min_l in H by lia. done.
Qed.

Section session_lemmas.
Context (opened : res unit) (pages : res nat) (extract_text : nat → res page_text)
        (closed : res unit).

(** The loop ends normally exactly when [pdf.pages] and every page
    answer; the text is then that of the answers. *)
Lemma read_pages_Ok texto :
  read_pages pages extract_text = Ok texto ↔
  ∃ pts, pages = Ok (length pts) ∧ (∀ i pt, pts !! i = Some pt → extract_text i = Ok pt) ∧
         texto = extract_pages pts.
Proof.
  unfold read_pages. destruct pages as [n|e]; simpl.
  - rewrite res_foldl_ans_Ok. setoid_rewrite Forall2_seq_lookup. split.
    + intros (pts & [<- ?] & ->). by exists pts.
    + intros (pts & [= ->] & ? & ->). by exists pts.
  - split; [done|]. by intros (? & ? & _).
Qed.

(** It raises the exception of [pdf.pages], or that of the first page
    that raises one. *)
Lemma read_pages_Raise e :
  read_pages pages extract_text = Raise e ↔
  pages = Raise e ∨
  ∃ n i, pages = Ok n ∧ i < n ∧ extract_text i = Raise e ∧
         ∀ j, j < i → is_ok (extract_text j) = true.
Proof.
  unfold read_pages. destruct pages as [n|e']; simpl.
  - rewrite res_foldl_ans_Raise. split.
    + intros (l1 & i & l2 & [-> ?]%seq_middle_inv & Hl1 & Hi). right. exists n, i.
      split_and!; [done..|]. intros j Hj. rewrite Forall_forall in Hl1. apply Hl1.
      apply elem_of_seq. lia.
    + intros [[=]|(? & i & [= <-] & Hi & He & Hok)].
      exists (seq 0 i), i, (seq (S i) (n - S i)). split_and!; [| |done].
      * replace n with (i + S (n - S i)) at 1 by lia. by rewrite seq_app.
      * apply Forall_seq. intros j [_ Hj]. apply Hok. lia.
  - split; [intros [= ->]; by left|]. intros [[= ->]|(? & ? & [=] & _)]. done.
Qed.

(** The function returns exactly when the file opens, [pdf.pages] and
    every page answer, and the file closes; the text is then the page
    texts that are not empty, each followed by a line feed. *)
Lemma extrair_texto_pdf_Ok texto :
  extrair_texto_pdf opened pages extract_text closed = Ok texto ↔
  opened = Ok tt ∧ closed = Ok tt ∧
  ∃ pts, pages = Ok (length pts) ∧ (∀ i pt, pts !! i = Some pt → extract_text i = Ok pt) ∧
         texto = extract_pages pts.
Proof.
  unfold extrair_texto_pdf, leaving. rewrite <-read_pages_Ok.
  destruct opened as [[]|], closed as [[]|]; simpl; intuition congruence.
Qed.

(** It raises the exception of opening the file; or else that of
    closing it; or else that of the block. *)
Lemma extrair_texto_pdf_Raise e :
  extrair_texto_pdf opened pages extract_text closed = Raise e ↔
  opened = Raise e ∨
  opened = Ok tt ∧
    (closed = Raise e ∨ closed = Ok tt ∧ read_pages pages extract_text = Raise e).
Proof.
  unfold extrair_texto_pdf, leaving.
  destruct opened as [[]|], closed as [[]|]; simpl; intuition congruence.
Qed.

(** The pages asked are the first pages of the file, in order. *)
Lemma pages_read_seq : ∃ k, pages_read pages extract_text = seq 0 k.
Proof.
  unfold pages_read. destruct pages as [n|]; [|by exists 0].
  pose proof (until_raise_prefix extract_text (seq 0 n)) as Hp.
  pose proof (prefix_length _ _ Hp) as Hlen. rewrite length_seq in Hlen.
  destruct Hp as [l Hl]. set (u := until_raise _ _) in *. exists (length u).
  rewrite <-(Nat.min_l _ _ Hlen), <-take_seq, Hl. by rewrite take_app_length.
Qed.

(** A page is asked for its text when it is a page of the file and
    the pages before it have answered. *)
Lemma elem_of_pages_read i :
  i ∈ pages_read pages extract_text →
  ∃ n, pages = Ok n ∧ i < n ∧ ∀ j, j < i → is_ok (extract_text j) = true.
Proof.
  unfold pages_read. destruct pages as [n|]; [|by intros ?%elem_of_nil].
  intros (l1 & l2 & [-> ?]%seq_middle_inv & Hl1)%elem_of_until_raise.
  exists n. split_and!; [done..|]. intros j Hj. rewrite Forall_forall in Hl1.
  apply Hl1, elem_of_seq. lia.
Qed.

Lemma pages_read_all pts :
  pages = Ok (length pts) → (∀ i pt, pts !! i = Some pt → extract_text i = Ok pt) →
  pages_read pages extract_text = seq 0 (length pts).
Proof.
  intros -> Hpts. apply until_raise_all, Forall_seq. intros i [_ Hi].
  destruct (lookup_lt_is_Some_2 pts i Hi) as [pt Hpt]. by rewrite (Hpts _ _ Hpt).
Qed.

End session_lemmas.

(** C25: [extrair_texto_pdf] returns exactly when the file opens,
    [pdf.pages] and every page answer, and the file closes; what it
    returns is then the texts of the pages that have one, each
    followed by a line feed.  Pages without text, and pages whose text
    is empty, contribute nothing. *)
Theorem extrair_texto_pdf_returns opened pages extract_text closed texto :
  extrair_texto_pdf opened pages extract_text closed = Ok texto ↔
  opened = Ok tt ∧ closed = Ok tt ∧
  ∃ pts, pages = Ok (length pts) ∧ (∀ i pt, pts !! i = Some pt → extract_text i = Ok pt) ∧
         texto = unlines (page_texts pts).
Proof. rewrite extrair_texto_pdf_Ok. by setoid_rewrite extract_pages_unlines. Qed.

(** C24: the exception [extrair_texto_pdf] raises is that of opening
    the file; or else, the file being open, that of closing it, even
    when the block raised one; or else that of [pdf.pages]; or else
    that of the first page whose [extract_text] raises, the pages
    before it having answered. *)
Theorem extrair_texto_pdf_raises opened pages extract_text closed e :
  extrair_texto_pdf opened pages extract_text closed = Raise e ↔
  opened = Raise e ∨
  opened = Ok tt ∧
    (closed = Raise e ∨
     closed = Ok tt ∧
       (pages = Raise e ∨
        ∃ n i, pages = Ok n ∧ i < n ∧ extract_text i = Raise e ∧
               ∀ j, j < i → is_ok (extract_text j) = true)).
Proof. rewrite extrair_texto_pdf_Raise. by setoid_rewrite read_pages_Raise. Qed.

Lemma page_at_lookup pts i pt : pts !! i = Some pt → page_at pts i = Ok pt.
Proof. unfold page_at. by intros ->. Qed.

(** A file that opens, answers for every page and closes reads as its
    pages. *)
Lemma extrair_texto_pdf_page_at pts :
  extrair_texto_pdf (Ok tt) (Ok (length pts)) (page_at pts) (Ok tt) = Ok (extract_pages pts).
Proof.
  apply extrair_texto_pdf_Ok. split_and!; [done..|]. exists pts.
  split_and!; [done| |done]. apply page_at_lookup.
Qed.

Lemma extract_pages_lines_witness :
  splitlines (extract_pages [Some (lit "um"); None; Some []; Some (lit "dois")]) =
  page_texts [Some (lit "um"); None; Some []; Some (lit "dois")].
Proof. apply extract_pages_lines. compute_done. Defined.

(** A file of three pages, the second without text; the same file when
    the second page cannot be read, when it cannot be closed, and when
    both fail: the exception of closing wins. *)
Example extrair_texto_pdf_examples :
  let pts := [Some (lit "um"); None; Some (lit "dois")] in
  let torn i := if decide (i = 1) then Raise UnicodeError else page_at pts i in
  extrair_texto_pdf (Ok tt) (Ok 3) (page_at pts) (Ok tt) = Ok (lit "um" ++ [LF] ++ lit "dois" ++ [LF]) ∧
  extrair_texto_pdf (Ok tt) (Ok 3) torn (Ok tt) = Raise UnicodeError ∧
  pages_read (Ok 3) torn = [0; 1] ∧
  extrair_texto_pdf (Ok tt) (Ok 3) (page_at pts) (Raise KeyError) = Raise KeyError ∧
  extrair_texto_pdf (Ok tt) (Ok 3) torn (Raise KeyError) = Raise KeyError ∧
  extrair_texto_pdf (Raise FileNotFoundError) (Ok 3) torn (Raise KeyError) =
    Raise FileNotFoundError ∧
  extrair_texto_pdf (Ok tt) (Ok 4) (page_at pts) (Ok tt) = Raise IndexError.
Proof. by vm_compute. Qed.
