(* ===== verification/Renderer.v ===== *)
(** * Renderer: [criar_mapa_mental] (src/main.py, lines 107-127)

    The Digraph object is its list of statements, in the order the
    calls of [node] and [edge] append them.  Graphviz itself is not
    modelled: whether the dot executable is found, what rendering
    answers and what [print] does with a line are arguments of the
    model.  The theorems give the graph a closed form, list its nodes
    and edges, and show that it is a tree whose node keys are pairwise
    distinct. *)

From stdpp Require Import relations.
From S2P Require Import Prelude PyStr PyDict PyFormat Utf8 Parser.

(** A statement of the graph's body. *)
Inductive stmt :=
| Node (name label : str)
| Edge (tail_name head_name : str).

(** [Digraph(comment=...)]: the comment and the body. *)
Record digraph := Digraph {
  comment : str;
  body : list stmt;
}.

(** [dot.node(name, label)] and [dot.edge(tail, head)] append. *)
Definition node (dot : digraph) (name label : str) : digraph :=
  Digraph (comment dot) (body dot ++ [Node name label]).
Definition edge (dot : digraph) (tail_name head_name : str) : digraph :=
  Digraph (comment dot) (body dot ++ [Edge tail_name head_name]).

(** The keys: ['A'], [f"T{i}"], [f"{topico_id}_{j}"]. *)
Definition root_id : str := lit "A".
Definition topico_id (i : nat) : str := lit "T" ++ str_of_nat i.
Definition sub_id (topico_id : str) (j : nat) : str :=
  topico_id ++ lit "_" ++ str_of_nat j.

(** The body of the inner loop, for the pair [(j, subt)]. *)
Definition add_subtopico (topico_id : str) (dot : digraph) (js : nat * str) : digraph :=
  let sub_id := sub_id topico_id js.1 in
  let dot := node dot sub_id js.2 in
  edge dot topico_id sub_id.

(** The body of the outer loop, for [(i, (topico, subtopicos))]. *)
Definition add_topico (dot : digraph) (it : nat * (str * list str)) : digraph :=
  let topico_id := topico_id it.1 in
  let dot := node dot topico_id it.2.1 in
  let dot := edge dot root_id topico_id in
  foldl (add_subtopico topico_id) dot (enumerate it.2.2).

(** The graph [criar_mapa_mental] builds before rendering it. *)
Definition build_graph (titulo : str) (topicos_dict : outline) : digraph :=
  let dot := Digraph titulo [] in
  let dot := node dot root_id titulo in
  foldl add_topico dot (enumerate (dict_items topicos_dict)).

(** The three messages of the function. *)
Definition msg_no_graphviz : str :=
  ulit "❌ Graphviz não encontrado. Instale Graphviz e adicione 'bin' ao PATH do Windows.".
Definition msg_saved : str := ulit "✅ Mapa mental salvo como 'mapa_mental.pdf'".
Definition msg_render_error (e : str) : str := ulit "❌ Erro ao gerar o mapa mental: " ++ e.

(** What a call leaves behind: the lines handed to [print], the graph
    the call says it saved, and the exception that leaves the call. *)
Record render_outcome := RenderOutcome {
  printed : list str;
  rendered : option digraph;
  raised : option exn;
}.

(** [print(m)] as the last statement of a path: the path leaves
    [rendered] unless [print] raises. *)
Definition report (print : str → res unit) (m : str) (rendered : option digraph) :
    render_outcome :=
  match print m with
  | Ok _ => RenderOutcome [m] rendered None
  | Raise e => RenderOutcome [m] None (Some e)
  end.

(** [criar_mapa_mental(titulo, topicos_dict)].  [dot_found] is whether
    [shutil.which("dot")] finds the executable; [render] is what
    [dot.render] does with the graph: [None] when it returns, [Some e]
    when it raises an exception whose text is [e]; [print] is what the
    console does with a line and [exn_str] the text of an exception.
    The [print] of the saved message is inside the [try]: when it
    raises, the handler prints the error message with the text of that
    exception. *)
Definition criar_mapa_mental (dot_found : bool) (render : digraph → option str)
    (exn_str : exn → str) (print : str → res unit)
    (titulo : str) (topicos_dict : outline) : render_outcome :=
  if negb dot_found then report print msg_no_graphviz None
  else
    let dot := build_graph titulo topicos_dict in
    match render dot with
    | None =>
        match print msg_saved with
        | Ok _ => RenderOutcome [msg_saved] (Some dot) None
        | Raise e =>
            let out := report print (msg_render_error (exn_str e)) None in
            RenderOutcome (msg_saved :: printed out) None (raised out)
        end
    | Some e => report print (msg_render_error e) None
    end.

(** ** The closed form of the graph *)

Definition sub_stmts (tid : str) (js : nat * str) : list stmt :=
  [Node (sub_id tid js.1) js.2; Edge tid (sub_id tid js.1)].

Definition topic_stmts (it : nat * (str * list str)) : list stmt :=
  Node (topico_id it.1) it.2.1 :: Edge root_id (topico_id it.1) ::
  concat (sub_stmts (topico_id it.1) <$> enumerate it.2.2).

Definition graph_stmts (titulo : str) (topicos_dict : outline) : list stmt :=
  Node root_id titulo :: concat (topic_stmts <$> enumerate topicos_dict).

(** The nodes and the edges of a body. *)
Definition nodes (ss : list stmt) : list (str * str) :=
  omap (λ s, match s with Node n l => Some (n, l) | Edge _ _ => None end) ss.
Definition edges (ss : list stmt) : list (str * str) :=
  omap (λ s, match s with Edge t h => Some (t, h) | Node _ _ => None end) ss.

Lemma add_subtopico_body tid dot js :
  body (add_subtopico tid dot js) = body dot ++ sub_stmts tid js.
Proof. unfold add_subtopico, sub_stmts. simpl. by rewrite <-app_assoc. Qed.

Lemma add_topico_body dot it : body (add_topico dot it) = body dot ++ topic_stmts it.
Proof.
  unfold add_topico, topic_stmts.
  rewrite (foldl_app_concat _ body (sub_stmts (topico_id it.1)))
    by apply add_subtopico_body.
  simpl. by rewrite <-!app_assoc.
Qed.

Lemma add_subtopico_comment tid dot js : comment (add_subtopico tid dot js) = comment dot.
Proof. done. Qed.

(** C37: the statements appended by the two nested loops are, in
    order: the root node, then for each topic its node, the edge from
    the root, and for each subtopic its node and the edge from the
    topic. *)
Theorem build_graph_body titulo topicos_dict :
  body (build_graph titulo topicos_dict) = graph_stmts titulo topicos_dict.
Proof.
  unfold build_graph, graph_stmts, dict_items.
  by rewrite (foldl_app_concat _ body topic_stmts) by apply add_topico_body.
Qed.

(** ** Node identities *)

(** The position of a node in the outline: the key the code gives it is
    made from it alone, never from its label. *)
Inductive node_id :=
| RootId
| TopicId (i : nat)
| SubId (i j : nat).

#[export] Instance node_id_eq_dec : EqDecision node_id.
Proof. solve_decision. Defined.

Definition key_of (id : node_id) : str :=
  match id with
  | RootId => root_id
  | TopicId i => topico_id i
  | SubId i j => sub_id (topico_id i) j
  end.

(** The node an edge comes from. *)
Definition parent_of (id : node_id) : option node_id :=
  match id with
  | RootId => None
  | TopicId _ => Some RootId
  | SubId i _ => Some (TopicId i)
  end.

(** The topic a node belongs to. *)
Definition owner (id : node_id) : nat :=
  match id with RootId => 0 | TopicId i => i | SubId i _ => i end.

(** The nodes of an outline, in the order the loops visit them. *)
Definition topic_ids (it : nat * (str * list str)) : list node_id :=
  TopicId it.1 :: (SubId it.1 <$> (enumerate it.2.2).*1).
Definition outline_ids (o : outline) : list node_id :=
  RootId :: concat (topic_ids <$> enumerate o).

(** The edge that reaches a node. *)
Definition edge_to (id : node_id) : option (str * str) :=
  p ← parent_of id; Some (key_of p, key_of id).

(** The edges of a graph, as a relation on keys, and its keys. *)
Definition edge_rel (g : digraph) : relation str := λ a b, (a, b) ∈ edges (body g).
Definition keys (g : digraph) : list str := (nodes (body g)).*1.

Lemma topico_id_unfold i : topico_id i = 84%N :: str_of_nat i.
Proof. done. Qed.

Lemma sub_id_unfold i j :
  sub_id (topico_id i) j = 84%N :: str_of_nat i ++ 95%N :: str_of_nat j.
Proof. unfold sub_id. by rewrite topico_id_unfold. Qed.

Lemma underscore_not_digit n : 95%N ∉ str_of_nat n.
Proof. by apply not_digit_not_in. Qed.

(** Distinct positions get distinct keys. *)
#[export] Instance key_of_inj : Inj (=) (=) key_of.
Proof.
  intros [|i|i j] [|i'|i' j']; simpl;
    rewrite ?topico_id_unfold, ?sub_id_unfold; intros H; try done.
  - injection H as H. by apply str_of_nat_inj in H as ->.
  - injection H as H. destruct (underscore_not_digit i).
    rewrite H. apply elem_of_app. right. left.
  - injection H as H. destruct (underscore_not_digit i').
    rewrite <-H. apply elem_of_app. right. left.
  - injection H as H.
    apply not_elem_of_app_cons_inv_l in H as (H1 & _ & H2);
      [|apply underscore_not_digit..].
    by apply str_of_nat_inj in H1 as ->; apply str_of_nat_inj in H2 as ->.
Qed.

Lemma topic_ids_NoDup it : NoDup (topic_ids it).
Proof.
  unfold topic_ids. apply NoDup_cons. split.
  - by intros (j & ? & _)%list_elem_of_fmap.
  - apply NoDup_fmap_2; [by intros ?? [=]|apply enumerate_NoDup_fst].
Qed.

Lemma topic_ids_owner it id : id ∈ topic_ids it → owner id = it.1.
Proof.
  unfold topic_ids. intros [->|(j & -> & _)%list_elem_of_fmap]%elem_of_cons; done.
Qed.

Lemma outline_ids_NoDup o : NoDup (outline_ids o).
Proof.
  unfold outline_ids. apply NoDup_cons. split.
  - intros (l & (it & -> & _)%list_elem_of_fmap & Hl)%elem_of_concat.
    unfold topic_ids in Hl.
    by apply elem_of_cons in Hl as [?|(j & ? & _)%list_elem_of_fmap].
  - apply (NoDup_concat_owner _ owner fst);
      [apply enumerate_NoDup_fst|apply topic_ids_NoDup|apply topic_ids_owner].
Qed.

(** The nodes and edges of the closed form, by position. *)
Lemma nodes_Node n l ss : nodes (Node n l :: ss) = (n, l) :: nodes ss.
Proof. done. Qed.
Lemma nodes_Edge t h ss : nodes (Edge t h :: ss) = nodes ss.
Proof. done. Qed.
Lemma edges_Node n l ss : edges (Node n l :: ss) = edges ss.
Proof. done. Qed.
Lemma edges_Edge t h ss : edges (Edge t h :: ss) = (t, h) :: edges ss.
Proof. done. Qed.
Lemma nodes_app s1 s2 : nodes (s1 ++ s2) = nodes s1 ++ nodes s2.
Proof. apply omap_app. Qed.
Lemma edges_app s1 s2 : edges (s1 ++ s2) = edges s1 ++ edges s2.
Proof. apply omap_app. Qed.
#[global] Arguments nodes : simpl never.
#[global] Arguments edges : simpl never.

Lemma sub_stmts_nodes tid subs :
  nodes (concat (sub_stmts tid <$> enumerate subs)) =
    (λ js, (sub_id tid js.1, js.2)) <$> enumerate subs.
Proof.
  induction (enumerate subs) as [|js l IH]; [done|]. csimpl.
  by rewrite nodes_Node, nodes_Edge, IH.
Qed.

Lemma sub_stmts_edges tid subs :
  edges (concat (sub_stmts tid <$> enumerate subs)) =
    (λ js, (tid, sub_id tid js.1)) <$> enumerate subs.
Proof.
  induction (enumerate subs) as [|js l IH]; [done|]. csimpl.
  by rewrite edges_Node, edges_Edge, IH.
Qed.

Lemma topic_stmts_keys it : (nodes (topic_stmts it)).*1 = key_of <$> topic_ids it.
Proof.
  unfold topic_stmts, topic_ids.
  rewrite nodes_Node, nodes_Edge, sub_stmts_nodes. csimpl. f_equal.
  by rewrite <-!list_fmap_compose.
Qed.

Lemma topic_stmts_edges it : edges (topic_stmts it) = omap edge_to (topic_ids it).
Proof.
  unfold topic_stmts, topic_ids. rewrite edges_Node, edges_Edge, sub_stmts_edges.
  csimpl. f_equal.
  induction (enumerate it.2.2) as [|js l IH]; [done|]. csimpl. by rewrite IH.
Qed.

Lemma topic_stmts_labels it : (nodes (topic_stmts it)).*2 = it.2.1 :: it.2.2.
Proof.
  unfold topic_stmts. rewrite nodes_Node, nodes_Edge, sub_stmts_nodes. csimpl. f_equal.
  rewrite <-list_fmap_compose. apply enumerate_snd.
Qed.

Lemma graph_stmts_keys titulo o :
  (nodes (graph_stmts titulo o)).*1 = key_of <$> outline_ids o.
Proof.
  unfold graph_stmts, outline_ids. rewrite nodes_Node. csimpl. f_equal.
  induction (enumerate o) as [|it l IH]; [done|]. rewrite !fmap_cons, !concat_cons.
  by rewrite nodes_app, !fmap_app, topic_stmts_keys, IH.
Qed.

Lemma graph_stmts_edges titulo o :
  edges (graph_stmts titulo o) = omap edge_to (outline_ids o).
Proof.
  unfold graph_stmts, outline_ids. rewrite edges_Node. csimpl.
  induction (enumerate o) as [|it l IH]; [done|]. rewrite !fmap_cons, !concat_cons.
  by rewrite edges_app, omap_app, topic_stmts_edges, IH.
Qed.

Lemma graph_stmts_labels titulo o :
  (nodes (graph_stmts titulo o)).*2 = titulo :: concat ((λ kv, kv.1 :: kv.2) <$> o).
Proof.
  unfold graph_stmts. rewrite nodes_Node. csimpl. f_equal.
  rewrite <-(enumerate_snd o) at 2.
  induction (enumerate o) as [|it l IH]; [done|]. rewrite !fmap_cons, !concat_cons.
  by rewrite nodes_app, fmap_app, topic_stmts_labels, IH.
Qed.

Lemma outline_ids_length o :
  length (outline_ids o) = S (length o + sum_list (length ∘ snd <$> o)).
Proof.
  unfold outline_ids. simpl. f_equal. rewrite length_concat_fmap.
  rewrite <-(enumerate_snd o) at 2 3. rewrite length_fmap.
  induction (enumerate o) as [|it l IH]; [done|]. csimpl.
  rewrite IH, !length_fmap, enumerate_length. unfold compose. simpl. lia.
Qed.

(** Every node but the root has an edge into it. *)
Lemma outline_edges_length o : S (length (omap edge_to (outline_ids o))) = length (outline_ids o).
Proof.
  unfold outline_ids. csimpl. f_equal.
  induction (enumerate o) as [|it l IH]; [done|]. rewrite !fmap_cons, !concat_cons.
  rewrite omap_app, !length_app, IH. f_equal. unfold topic_ids. csimpl. f_equal.
  induction (enumerate it.2.2).*1 as [|j js IHj]; [done|]. csimpl. by rewrite IHj.
Qed.

(** Puts the body of [build_graph] in closed form. *)
Ltac graph_closed_form :=
  unfold build_graph, dict_items;
  rewrite (foldl_app_concat _ body topic_stmts) by apply add_topico_body;
  match goal with
  | |- context [body (node _ _ ?t) ++ concat (topic_stmts <$> enumerate ?o)] =>
      change (body (node (Digraph t []) root_id t) ++ concat (topic_stmts <$> enumerate o))
        with (graph_stmts t o)
  end.

(** ** The graph is the tree of the outline *)

(** C7: no two nodes of the graph have the same key, whatever the
    labels: identical topic or subtopic names stay distinct nodes. *)
Theorem build_graph_keys_NoDup titulo topicos_dict :
  NoDup (nodes (body (build_graph titulo topicos_dict))).*1.
Proof.
  graph_closed_form. rewrite graph_stmts_keys.
  apply NoDup_fmap_2; [apply _|apply outline_ids_NoDup].
Qed.

(** C28: the edges of the graph are, in order, one edge into every node
    but the root, coming from its parent: the root for a topic, the
    topic for a subtopic. *)
Theorem build_graph_edges titulo topicos_dict :
  edges (body (build_graph titulo topicos_dict)) =
    omap edge_to (outline_ids topicos_dict).
Proof. graph_closed_form. apply graph_stmts_edges. Qed.

(** The labels of the nodes, in order, are the title, then every
    topic name followed by its subtopic names. *)
Lemma build_graph_labels titulo topicos_dict :
  (nodes (body (build_graph titulo topicos_dict))).*2 =
    titulo :: concat ((λ kv, kv.1 :: kv.2) <$> topicos_dict).
Proof. graph_closed_form. apply graph_stmts_labels. Qed.

(** C22: the nodes of the graph, in the order the code adds them: the
    root [A] labelled with the title; then, for the topic at position i
    (from 0), the node [T<i>] labelled with the topic's name, followed,
    for its subtopic at position j (from 0), by the node [T<i>_<j>]
    labelled with the subtopic's name.  So the graph has one node for
    the title, one per topic and one per subtopic, and one edge less
    than nodes. *)
Theorem build_graph_nodes titulo topicos_dict :
  let g := body (build_graph titulo topicos_dict) in
  nodes g =
    (root_id, titulo) ::
    concat ((λ it, (topico_id it.1, it.2.1) ::
                   ((λ js, (sub_id (topico_id it.1) js.1, js.2)) <$> enumerate it.2.2))
            <$> enumerate topicos_dict) ∧
  length (nodes g) = S (length topicos_dict + sum_list (length ∘ snd <$> topicos_dict)) ∧
  S (length (edges g)) = length (nodes g).
Proof.
  graph_closed_form. cbv zeta. split.
  - unfold graph_stmts. rewrite nodes_Node. f_equal.
    induction (enumerate topicos_dict) as [|it l IH]; [done|].
    rewrite !fmap_cons, !concat_cons, nodes_app, IH. f_equal.
    unfold topic_stmts. by rewrite nodes_Node, nodes_Edge, sub_stmts_nodes.
  - rewrite <-(length_fmap fst (nodes _)), graph_stmts_keys, length_fmap, graph_stmts_edges.
    split; [apply outline_ids_length|apply outline_edges_length].
Qed.

(** The labels are made of the characters of the title and of the
    outline. *)
Lemma build_graph_labels_chars (P : N → Prop) titulo topicos_dict :
  Forall P titulo → outline_chars P topicos_dict →
  Forall (Forall P) (nodes (body (build_graph titulo topicos_dict))).*2.
Proof.
  intros Ht Ho. graph_closed_form. rewrite graph_stmts_labels. constructor; [done|].
  apply Forall_concat, Forall_fmap. eapply Forall_impl; [apply Ho|].
  intros kv [Hk Hv]. by constructor.
Qed.

(** ** The strs of the graph *)

(** What the graph holds of text: its comment, the names and the
    labels of its nodes, the ends of its edges. *)
Definition stmt_strings (s : stmt) : list str :=
  match s with Node name label => [name; label] | Edge t h => [t; h] end.
Definition strings (g : digraph) : list str :=
  comment g :: concat (stmt_strings <$> body g).

Lemma build_graph_comment titulo o : comment (build_graph titulo o) = titulo.
Proof.
  unfold build_graph. rewrite (foldl_fixes _ comment); [done|].
  intros dot it. unfold add_topico. by rewrite (foldl_fixes _ comment).
Qed.

(** The keys are made of the letters A and T, the underscore and
    digits. *)
Lemma key_of_isascii id : isascii (key_of id).
Proof.
  assert (∀ n, isascii (str_of_nat n)) as Hn.
  { intros n. eapply Forall_impl; [apply str_of_nat_digits|]. intros c. unfold isdigit. lia. }
  destruct id as [|i|i j]; simpl; rewrite ?topico_id_unfold, ?sub_id_unfold; unfold isascii;
    repeat first [apply Hn | apply Forall_cons_2; [lia|] | apply Forall_app_2];
    compute_done.
Qed.

Section strings.
Context (P : N → Prop).
Hypothesis ascii : ∀ c, (c < 128)%N → P c.

Lemma key_of_chars id : Forall P (key_of id).
Proof. eapply Forall_impl; [apply key_of_isascii|done]. Qed.

(** Statements whose strs are at hand. *)
Ltac strs := repeat first [assumption | apply Forall_nil_2 | apply Forall_cons_2].

Lemma sub_stmts_chars i js :
  Forall P js.2 → Forall (λ st, Forall (Forall P) (stmt_strings st)) (sub_stmts (topico_id i) js).
Proof.
  intros Hs. pose proof (key_of_chars (SubId i js.1)). pose proof (key_of_chars (TopicId i)).
  unfold sub_stmts. strs.
Qed.

Lemma topic_stmts_chars it :
  Forall P it.2.1 → Forall (Forall P) it.2.2 →
  Forall (λ st, Forall (Forall P) (stmt_strings st)) (topic_stmts it).
Proof.
  intros Hk Hv. pose proof (key_of_chars (TopicId it.1)). pose proof (key_of_chars RootId).
  unfold topic_stmts. do 2 (apply Forall_cons_2; [strs|]).
  apply Forall_concat, Forall_fmap. eapply Forall_impl; [by apply Forall_enumerate|].
  intros js. apply sub_stmts_chars.
Qed.

(** Every str of the graph is made of the characters of the title, of
    the outline and of the keys. *)
Lemma build_graph_strings_chars titulo o :
  Forall P titulo → outline_chars P o → Forall (Forall P) (strings (build_graph titulo o)).
Proof.
  intros Ht Ho. unfold strings. rewrite build_graph_comment. constructor; [done|].
  graph_closed_form. apply Forall_concat, Forall_fmap. unfold graph_stmts.
  pose proof (key_of_chars RootId). apply Forall_cons_2; [strs|].
  apply Forall_concat, Forall_fmap. eapply Forall_impl; [by apply Forall_enumerate|].
  intros it [Hk Hv]. by apply topic_stmts_chars.
Qed.

End strings.

(** ** The graph is a rooted tree *)

(** The parent of a node of the outline is a node of the outline. *)
Lemma outline_ids_parent o id p :
  id ∈ outline_ids o → parent_of id = Some p → p ∈ outline_ids o.
Proof.
  unfold outline_ids. destruct id as [|i|i j]; intros Hid [= <-]; [left|].
  apply elem_of_cons in Hid as [|Hid]; [done|]. right.
  apply elem_of_concat in Hid as (l & Hl & Hid). apply elem_of_concat. exists l.
  split; [done|]. apply list_elem_of_fmap in Hl as (it & -> & _).
  apply topic_ids_owner in Hid as Ho. simpl in Ho. subst i. left.
Qed.

Lemma keys_build_graph titulo o : keys (build_graph titulo o) = key_of <$> outline_ids o.
Proof. unfold keys. graph_closed_form. apply graph_stmts_keys. Qed.

(** An edge of the graph joins the parent of a node of the outline to
    the node. *)
Lemma edge_rel_build_graph titulo o a b :
  edge_rel (build_graph titulo o) a b ↔
  ∃ id p, id ∈ outline_ids o ∧ parent_of id = Some p ∧ a = key_of p ∧ b = key_of id.
Proof.
  unfold edge_rel. graph_closed_form. rewrite graph_stmts_edges, list_elem_of_omap.
  unfold edge_to. split.
  - intros (id & Hid & H). destruct (parent_of id) as [p|] eqn:Ep; simplify_eq/=. eauto 6.
  - intros (id & p & Hid & Ep & -> & ->). exists id. by rewrite Ep.
Qed.

Lemma edge_rel_parent titulo o id p :
  id ∈ outline_ids o → parent_of id = Some p →
  edge_rel (build_graph titulo o) (key_of p) (key_of id).
Proof. intros. apply edge_rel_build_graph. eauto 6. Qed.

(** Every node is at most two edges away from the root. *)
Lemma root_reaches titulo o id :
  id ∈ outline_ids o →
  ∃ n, n ≤ 2 ∧ nsteps (edge_rel (build_graph titulo o)) n root_id (key_of id).
Proof.
  intros Hid. destruct id as [|i|i j].
  - exists 0. split; [lia|constructor].
  - exists 1. split; [lia|]. by apply nsteps_once, (edge_rel_parent _ _ (TopicId i) RootId).
  - exists 2. split; [lia|]. pose proof (outline_ids_parent _ _ _ Hid eq_refl) as Hp.
    eapply nsteps_l; [by apply (edge_rel_parent _ _ (TopicId i) RootId)|].
    by apply nsteps_once, (edge_rel_parent _ _ (SubId i j) (TopicId i)).
Qed.

(** C21: the graph is a tree rooted at the node of the title, of depth
    at most two: every node is reached from the root by at most two
    edges, the edges join nodes of the graph and none enters the root,
    and a node has at most one parent. *)
Theorem build_graph_tree titulo topicos_dict :
  let g := build_graph titulo topicos_dict in
  (∀ k, k ∈ keys g → ∃ n, n ≤ 2 ∧ nsteps (edge_rel g) n root_id k) ∧
  (∀ a b, edge_rel g a b → a ∈ keys g ∧ b ∈ keys g ∧ b ≠ root_id) ∧
  (∀ a b k, edge_rel g a k → edge_rel g b k → a = b).
Proof.
  cbv zeta. rewrite keys_build_graph. split_and!.
  - intros k (id & -> & Hid)%list_elem_of_fmap. by apply root_reaches.
  - intros a b (id & p & Hid & Ep & -> & ->)%edge_rel_build_graph.
    split_and!; [apply list_elem_of_fmap_2; by eapply outline_ids_parent
                |by apply list_elem_of_fmap_2|].
    intros ->%(inj key_of _ RootId). done.
  - intros a b k (id & p & _ & Ep & -> & ->)%edge_rel_build_graph
                 (id' & p' & _ & Ep' & -> & ->%(inj key_of))%edge_rel_build_graph.
    congruence.
Qed.

(** ** The outcome of a call *)

(** A graph is reported exactly when dot is found, rendering returns
    and the console takes the message that says so. *)
Lemma criar_mapa_mental_rendered dot_found render exn_str print titulo topicos_dict g :
  rendered (criar_mapa_mental dot_found render exn_str print titulo topicos_dict) = Some g ↔
  dot_found = true ∧ render g = None ∧ print msg_saved = Ok tt ∧
  g = build_graph titulo topicos_dict.
Proof.
  unfold criar_mapa_mental, report.
  destruct dot_found; simpl;
    [destruct (render (build_graph _ _)) as [e|] eqn:E;
     [|destruct (print msg_saved) as [[]|e] eqn:Es]|];
    simpl; repeat case_match; simpl; (split; [intros [= <-]|intros (? & ? & ? & ->)]);
    try done; congruence.
Qed.

(** On a console that takes the line a call prints one message. *)
Lemma criar_mapa_mental_printed dot_found render exn_str titulo topicos_dict :
  ∃ m, printed (criar_mapa_mental dot_found render exn_str (λ _, Ok tt) titulo topicos_dict)
         = [m] ∧
       (m = msg_no_graphviz ∨ m = msg_saved ∨ ∃ e, m = msg_render_error e).
Proof.
  unfold criar_mapa_mental, report. destruct dot_found; simpl; [|eauto].
  destruct (render _) as [e|]; simpl; eauto 6.
Qed.

(** Two topics with the same subtopic name: the labels repeat, the keys
    do not. *)
Example build_graph_example :
  body (build_graph (lit "Doc") [(lit "X", [lit "a"; lit "a"]); (lit "Y", [lit "a"])]) =
  [ Node (lit "A") (lit "Doc");
    Node (lit "T0") (lit "X"); Edge (lit "A") (lit "T0");
    Node (lit "T0_0") (lit "a"); Edge (lit "T0") (lit "T0_0");
    Node (lit "T0_1") (lit "a"); Edge (lit "T0") (lit "T0_1");
    Node (lit "T1") (lit "Y"); Edge (lit "A") (lit "T1");
    Node (lit "T1_0") (lit "a"); Edge (lit "T1") (lit "T1_0") ].
Proof. by vm_compute. Qed.
