(* ===== verification/Outside.v ===== *)
(** * Outside: the calls a run makes to the outside, and its trace

    The program talks to the window system, to pdfplumber, to the
    ollama process, to Graphviz and to the console.  An [event] is one
    such call with its arguments; a [world] is what the outside answers
    to each; an [io] computation is the trace of the calls made, in
    order, with the value computed or the exception raised.  [io] is a
    monad, [catch] is [try]/[except], [with_exit] is the [with] block,
    [io_foldl] the [for] loop, and the lemmas are its laws and the
    equations that run a computation call by call. *)

From stdpp Require Import lexico.
From S2P Require Import Prelude PyStr Utf8 Renderer.

(** ** Events *)

(** A call to the outside, as the source writes it. *)
Inductive event :=
| EvTk                                        (* tk.Tk() *)
| EvWithdraw                                  (* root.withdraw() *)
| EvAskOpen (title : str) (filetypes : list (str * str))
                                              (* filedialog.askopenfilename *)
| EvPrint (s : str)                           (* print(s) *)
| EvOpenPdf (caminho_pdf : str)               (* pdfplumber.open(caminho_pdf) *)
| EvPages (caminho_pdf : str)                 (* pdf.pages *)
| EvExtractText (caminho_pdf : str) (pagina : nat)
                                              (* pagina.extract_text() *)
| EvClosePdf (caminho_pdf : str)              (* the end of the with block *)
| EvRun (cmd : list str) (input : bytes)      (* subprocess.run *)
| EvWhich (name : str)                        (* shutil.which *)
| EvRender (dot : digraph) (filename format : str) (cleanup : bool).
                                              (* dot.render *)

#[export] Instance stmt_eq_dec : EqDecision stmt.
Proof. solve_decision. Defined.
#[export] Instance digraph_eq_dec : EqDecision digraph.
Proof. solve_decision. Defined.
#[export] Instance event_eq_dec : EqDecision event.
Proof. solve_decision. Defined.

(** What the outside answers. *)
Record world := World {
  (** [tk.Tk()]: the root window, or the exception of a missing display. *)
  tk_root : res unit;
  (** [root.withdraw()] *)
  withdraw : res unit;
  (** [filedialog.askopenfilename(title=..., filetypes=...)]: the path
      chosen, empty when the dialog is cancelled. *)
  askopenfilename : str → list (str * str) → res str;
  (** [pdfplumber.open(path)]: the file is open, or the exception of a
      file that is missing or is not a PDF. *)
  open_pdf : str → res unit;
  (** [pdf.pages]: the number of pages of the file. *)
  pdf_pages : str → res nat;
  (** [pagina.extract_text()] of the page at a position: its text, or
      [None]. *)
  extract_text : str → nat → res (option str);
  (** Leaving the [with] block, which closes the file. *)
  close_pdf : str → res unit;
  (** [subprocess.run(cmd, input=..., capture_output=True)]: the bytes on
      the standard output. *)
  subprocess_run : list str → bytes → res bytes;
  (** [str(e)]. *)
  exn_str : exn → str;
  (** [shutil.which(name)]: the path of the executable, or [None]. *)
  which : str → option str;
  (** [dot.render(filename, format=..., cleanup=...)]. *)
  dot_render : digraph → str → str → bool → res unit;
  (** [print(s)]: the line is written, or the exception of a console
      that cannot take it. *)
  console : str → res unit;
}.

(** A world with another answer to one of the calls. *)
Definition set_tk_root (r : res unit) (w : world) : world :=
  World r (withdraw w) (askopenfilename w) (open_pdf w) (pdf_pages w) (extract_text w)
        (close_pdf w) (subprocess_run w) (exn_str w) (which w) (dot_render w) (console w).
Definition set_withdraw (r : res unit) (w : world) : world :=
  World (tk_root w) r (askopenfilename w) (open_pdf w) (pdf_pages w) (extract_text w)
        (close_pdf w) (subprocess_run w) (exn_str w) (which w) (dot_render w) (console w).
Definition set_askopenfilename (f : str → list (str * str) → res str) (w : world) : world :=
  World (tk_root w) (withdraw w) f (open_pdf w) (pdf_pages w) (extract_text w)
        (close_pdf w) (subprocess_run w) (exn_str w) (which w) (dot_render w) (console w).
Definition set_open_pdf (f : str → res unit) (w : world) : world :=
  World (tk_root w) (withdraw w) (askopenfilename w) f (pdf_pages w) (extract_text w)
        (close_pdf w) (subprocess_run w) (exn_str w) (which w) (dot_render w) (console w).
Definition set_pdf_pages (f : str → res nat) (w : world) : world :=
  World (tk_root w) (withdraw w) (askopenfilename w) (open_pdf w) f (extract_text w)
        (close_pdf w) (subprocess_run w) (exn_str w) (which w) (dot_render w) (console w).
Definition set_extract_text (f : str → nat → res (option str)) (w : world) : world :=
  World (tk_root w) (withdraw w) (askopenfilename w) (open_pdf w) (pdf_pages w) f
        (close_pdf w) (subprocess_run w) (exn_str w) (which w) (dot_render w) (console w).
Definition set_close_pdf (f : str → res unit) (w : world) : world :=
  World (tk_root w) (withdraw w) (askopenfilename w) (open_pdf w) (pdf_pages w) (extract_text w)
        f (subprocess_run w) (exn_str w) (which w) (dot_render w) (console w).
Definition set_subprocess_run (f : list str → bytes → res bytes) (w : world) : world :=
  World (tk_root w) (withdraw w) (askopenfilename w) (open_pdf w) (pdf_pages w) (extract_text w)
        (close_pdf w) f (exn_str w) (which w) (dot_render w) (console w).
Definition set_exn_str (f : exn → str) (w : world) : world :=
  World (tk_root w) (withdraw w) (askopenfilename w) (open_pdf w) (pdf_pages w) (extract_text w)
        (close_pdf w) (subprocess_run w) f (which w) (dot_render w) (console w).
Definition set_which (f : str → option str) (w : world) : world :=
  World (tk_root w) (withdraw w) (askopenfilename w) (open_pdf w) (pdf_pages w) (extract_text w)
        (close_pdf w) (subprocess_run w) (exn_str w) f (dot_render w) (console w).
Definition set_dot_render (f : digraph → str → str → bool → res unit) (w : world) : world :=
  World (tk_root w) (withdraw w) (askopenfilename w) (open_pdf w) (pdf_pages w) (extract_text w)
        (close_pdf w) (subprocess_run w) (exn_str w) (which w) f (console w).
Definition set_console (f : str → res unit) (w : world) : world :=
  World (tk_root w) (withdraw w) (askopenfilename w) (open_pdf w) (pdf_pages w) (extract_text w)
        (close_pdf w) (subprocess_run w) (exn_str w) (which w) (dot_render w) f.

(** ** The monad *)

(** A computation: the calls it made, and its value or the exception
    that ended it. *)
Definition io (A : Type) : Type := (list event * res A)%type.

#[export] Instance io_ret : MRet io := λ A a, ([], Ok a).
#[export] Instance io_bind : MBind io := λ A B f m,
  match m.2 with
  | Ok a => (m.1 ++ (f a).1, (f a).2)
  | Raise e => (m.1, Raise e)
  end.

(** A call to the outside, with what it answers. *)
Definition outside {A} (ev : event) (answer : res A) : io A := ([ev], answer).

(** [print(s)] *)
Definition print (w : world) (s : str) : io unit := outside (EvPrint s) (console w s).

(** An expression that may raise and calls nothing. *)
Definition call {A} (r : res A) : io A := ([], r).

(** [try: m except Exception as e: h e] *)
Definition catch {A} (m : io A) (h : exn → io A) : io A :=
  match m.2 with
  | Ok _ => m
  | Raise e => (m.1 ++ (h e).1, (h e).2)
  end.

(** [with ...: body]: [exit] runs when the body ends, by an exception
    too, and the outcome is that of [leaving] the block. *)
Definition with_exit {A} (body : io A) (exit : io unit) : io A :=
  (body.1 ++ exit.1, leaving exit.2 body.2).

(** [for b in l: a = f(a, b)] *)
Fixpoint io_foldl {A B} (f : A → B → io A) (a : A) (l : list B) : io A :=
  match l with
  | [] => mret a
  | b :: l => a' ← f a b; io_foldl f a' l
  end.

(** ** Traces *)

(** The lines printed, and the calls that are not prints. *)
Definition prints (tr : list event) : list str :=
  omap (λ ev, match ev with EvPrint s => Some s | _ => None end) tr.

Definition is_print (ev : event) : bool :=
  match ev with EvPrint _ => true | _ => false end.

Definition calls (tr : list event) : list event :=
  filter (λ ev, is_print ev = false) tr.

(** The place of a call in the program text, and for a call made in a
    loop the turn of the loop. *)
Definition rank (ev : event) : nat * nat :=
  match ev with
  | EvTk => (0, 0)
  | EvWithdraw => (1, 0)
  | EvAskOpen _ _ => (2, 0)
  | EvOpenPdf _ => (3, 0)
  | EvPages _ => (4, 0)
  | EvExtractText _ pagina => (5, pagina)
  | EvClosePdf _ => (6, 0)
  | EvRun _ _ => (7, 0)
  | EvWhich _ => (8, 0)
  | EvRender _ _ _ _ => (9, 0)
  | EvPrint _ => (10, 0)
  end.

#[export] Instance rank_lexico_dec (r1 r2 : nat * nat) : Decision (lexico r1 r2).
Proof. unfold lexico, prod_lexico, lexico, nat_lexico. apply _. Defined.

(** ** The laws of the monad *)

Section laws.
Context {A B C : Type}.
Implicit Types (m : io A) (f : A → io B) (g : B → io C).

Lemma io_bind_ret_l (a : A) f : mret a ≫= f = f a.
Proof. unfold mret, io_ret, mbind, io_bind. simpl. by destruct (f a). Qed.

Lemma io_bind_ret_r m : m ≫= mret = m.
Proof.
  destruct m as [tr [a|e]]; unfold mbind, io_bind; simpl; [|done]. by rewrite app_nil_r.
Qed.

Lemma io_bind_assoc m f g : (m ≫= f) ≫= g = m ≫= (λ a, f a ≫= g).
Proof.
  destruct m as [tr [a|e]]; unfold mbind, io_bind; simpl; [|done].
  destruct (f a) as [tr' [b|e]]; simpl; [|done]. by rewrite app_assoc.
Qed.

(** A handler is not run when nothing is raised, and is run after what
    the body has done when something is. *)
Lemma catch_Ok tr (a : A) h : catch (tr, Ok a) h = (tr, Ok a).
Proof. done. Qed.

Lemma catch_Raise tr e (h : exn → io A) : catch (tr, Raise e) h = (tr ++ (h e).1, (h e).2).
Proof. done. Qed.

End laws.

(** ** Running a computation call by call *)

Lemma io_bind_print {B} w s (k : unit → io B) :
  print w s ≫= k =
    match console w s with
    | Ok _ => (EvPrint s :: (k tt).1, (k tt).2)
    | Raise e => ([EvPrint s], Raise e)
    end.
Proof. unfold print. by destruct (console w s) as [[]|]. Qed.

Lemma io_bind_outside {A B} ev (r : res A) (k : A → io B) :
  outside ev r ≫= k =
    match r with Ok a => (ev :: (k a).1, (k a).2) | Raise e => ([ev], Raise e) end.
Proof. by destruct r. Qed.

Lemma io_bind_call {A B} (r : res A) (k : A → io B) :
  call r ≫= k = match r with Ok a => k a | Raise e => ([], Raise e) end.
Proof. destruct r as [a|e]; [|done]. apply io_bind_ret_l. Qed.

Lemma io_bind_pair {A B} tr (a : A) (k : A → io B) :
  ((tr, Ok a) : io A) ≫= k = (tr ++ (k a).1, (k a).2).
Proof. done. Qed.

Lemma io_bind_pair_Raise {A B} tr e (k : A → io B) :
  ((tr, Raise e) : io A) ≫= k = (tr, Raise e).
Proof. done. Qed.

(** A loop whose body is a call: the calls made are those up to the
    first that raises. *)
Lemma io_foldl_outside {A B C} (ev : B → event) (ans : B → res C) (g : A → C → A) a l :
  io_foldl (λ a b, c ← outside (ev b) (ans b); mret (g a c)) a l =
    (ev <$> until_raise ans l, res_foldl_ans ans g a l).
Proof.
  revert a. induction l as [|b l IH]; intros a; [done|].
  rewrite res_foldl_ans_cons. cbn [io_foldl until_raise]. rewrite io_bind_assoc, io_bind_outside.
  destruct (ans b) as [c|e]; [|done]. rewrite io_bind_ret_l, IH. done.
Qed.

Lemma with_exit_outside {A} tr (r : res A) ev (closed : res unit) :
  with_exit (tr, r) (outside ev closed) = (tr ++ [ev], leaving closed r).
Proof. done. Qed.

(** ** Lemmas on traces *)

Lemma prints_app tr1 tr2 : prints (tr1 ++ tr2) = prints tr1 ++ prints tr2.
Proof. apply omap_app. Qed.

Lemma prints_EvPrint ss : prints (EvPrint <$> ss) = ss.
Proof. induction ss as [|s ss IH]; [done|]. csimpl. by rewrite IH. Qed.

Lemma calls_app tr1 tr2 : calls (tr1 ++ tr2) = calls tr1 ++ calls tr2.
Proof. apply filter_app. Qed.

Lemma calls_EvPrint ss : calls (EvPrint <$> ss) = [].
Proof.
  unfold calls. induction ss as [|s ss IH]; [done|]. rewrite fmap_cons.
  by rewrite filter_cons_False.
Qed.
