(* ===== verification/Requester.v ===== *)
(** * Requester: [gerar_topicos_ollama] (src/main.py, lines 45-75)

    The ollama process is not modelled: what [subprocess.run] answers
    for a command and an input, and the text of an exception, are
    arguments of the model.  The model is the prompt built around the
    first 4000 characters of the text, the encoding of the prompt, the
    decoding and stripping of the answer, and the three diagnostics
    that replace a reply.  The theorems bound the prompt, characterise
    the reply on every path, and show what the parser makes of it. *)

From S2P Require Import Prelude PyStr PyDict Utf8 Parser Template.

(** ** The prompt *)

(** The template, lines 47 to 59 of the source. *)
Definition prompt_lines : list str := [
  ulit "Você é um assistente de estudos.";
  ulit "Leia o conteúdo abaixo e gere uma lista estruturada de tópicos e subtópicos";
  ulit "no seguinte formato:";
  [];
  ulit "* Tópico 1: Nome do tópico";
  ulit "    + Subtópico 1: Nome";
  ulit "    + Subtópico 2: Nome";
  [];
  ulit "* Tópico 2: Nome do tópico";
  ulit "    + Subtópico 1: Nome";
  ulit "    + Subtópico 2: Nome";
  [];
  ulit "Conteúdo:" ].

(** The text before the embedded content: the line feed that follows
    the opening quotes, then the template. *)
Definition prompt_head : str := [LF] ++ unlines prompt_lines.

(** The f-string: the template, [texto[:4000]], a line feed. *)
Definition prompt (texto : str) : str :=
  prompt_head ++ slice_to 4000 texto ++ [LF].

(** ** The call *)

(** The default of the parameter [modelo]. *)
Definition codellama : str := lit "codellama".

(** [["ollama", "run", modelo]] *)
Definition command (modelo : str) : list str := [lit "ollama"; lit "run"; modelo].

(** The diagnostics that stand for a reply. *)
Definition msg_no_reply : str := ulit "⚠️ Nenhuma resposta foi gerada pelo Ollama.".
Definition msg_not_found : str :=
  ulit "❌ Ollama não encontrado. Certifique-se de que está instalado e no PATH.".
Definition msg_call_error (e : str) : str := ulit "❌ Erro ao chamar Ollama: " ++ e.

Section requester.
(** [subprocess.run(cmd, input=..., capture_output=True)]: the bytes on
    the standard output of the process, or the exception raised. *)
Context (run : list str → bytes → res bytes).
(** [str(e)] in the f-string of the last handler. *)
Context (exn_str : exn → str).

(** The body of the [try]. *)
Definition request (texto modelo : str) : res str :=
  input ← encode (prompt texto);
  stdout ← run (command modelo) input;
  resposta ← strip <$> decode stdout;
  Ok (if negb (truthy resposta) then msg_no_reply else resposta).

(** [gerar_topicos_ollama(texto, modelo)]: the two handlers. *)
Definition gerar_topicos_ollama (texto modelo : str) : str :=
  match request texto modelo with
  | Ok resposta => resposta
  | Raise FileNotFoundError => msg_not_found
  | Raise e => msg_call_error (exn_str e)
  end.

(** What the model answers, when the prompt reaches it and its answer is
    text: what [resultado.stdout.decode("utf-8")] evaluates to. *)
Definition answered (texto modelo : str) : option str :=
  match input ← encode (prompt texto); stdout ← run (command modelo) input; decode stdout with
  | Ok reply => Some reply
  | Raise _ => None
  end.

(** What the function promises, as a relation with one rule per path
    through the [try] and its two handlers (lines 62-75): the answer
    of the process stripped (69), the diagnostic for a blank answer
    (70-71), for a missing executable (72-73), and for any other
    exception (74-75), that of the encoding of the prompt or of the
    decoding of the answer included. *)
Inductive reply_of (texto modelo : str) : str → Prop :=
| reply_text input stdout reply :
    encode (prompt texto) = Ok input → run (command modelo) input = Ok stdout →
    decode stdout = Ok reply → strip reply ≠ [] →
    reply_of texto modelo (strip reply)
| reply_blank input stdout reply :
    encode (prompt texto) = Ok input → run (command modelo) input = Ok stdout →
    decode stdout = Ok reply → strip reply = [] →
    reply_of texto modelo msg_no_reply
| reply_not_found input :
    encode (prompt texto) = Ok input →
    run (command modelo) input = Raise FileNotFoundError →
    reply_of texto modelo msg_not_found
| reply_run_error input e :
    encode (prompt texto) = Ok input → run (command modelo) input = Raise e →
    e ≠ FileNotFoundError →
    reply_of texto modelo (msg_call_error (exn_str e))
| reply_not_encoded :
    encode (prompt texto) = Raise UnicodeError →
    reply_of texto modelo (msg_call_error (exn_str UnicodeError))
| reply_not_decoded input stdout :
    encode (prompt texto) = Ok input → run (command modelo) input = Ok stdout →
    decode stdout = Raise UnicodeError →
    reply_of texto modelo (msg_call_error (exn_str UnicodeError)).

(** ** The prompt *)

Lemma prompt_head_encodable : encodable prompt_head.
Proof. compute_done. Qed.

Lemma prompt_encodable texto : encodable texto → encodable (prompt texto).
Proof.
  intros Ht. unfold prompt, slice_to. apply Forall_app. split; [apply prompt_head_encodable|].
  apply Forall_app. split; [by apply Forall_take|by repeat constructor].
Qed.

(** C33: the prompt holds the first 4000 characters of the text and
    nothing of the rest: it is the prompt of the text cut at 4000, its
    length is that of the template plus at most 4001, and a text of at
    most 4000 characters is in it whole. *)
Theorem prompt_truncates texto :
  prompt texto = prompt (slice_to 4000 texto) ∧
  length (prompt texto) = length prompt_head + length texto `min` 4000 + 1 ∧
  (length texto ≤ 4000 → prompt texto = prompt_head ++ texto ++ [LF]).
Proof.
  unfold prompt, slice_to. split_and!.
  - by rewrite take_take.
  - rewrite !length_app, length_take. cbn [length]. lia.
  - intros Hl. by rewrite take_ge.
Qed.

(** The template is 294 characters, 308 bytes once encoded. *)
Lemma encode_prompt_head bs : encode prompt_head = Ok bs → length bs = 308.
Proof. intros H. vm_compute in H. by injection H as <-. Qed.

Lemma encode_prompt texto input :
  encode (prompt texto) = Ok input →
  ∃ head body, encode prompt_head = Ok head ∧ encode (slice_to 4000 texto) = Ok body ∧
               input = head ++ body ++ [LF].
Proof.
  unfold prompt. rewrite !encode_app, (encode_ascii [LF]) by compute_done.
  destruct (encode prompt_head) as [head|]; [|done].
  destruct (encode (slice_to 4000 texto)) as [body|]; [|done].
  intros [= <-]. eauto.
Qed.

(** C23: the bytes written to the model are the 308 bytes of the
    template, between one and four bytes for each of the at most 4000
    characters of the text that the prompt keeps, and a line feed:
    never more than 16309 bytes (309 + 4 * 4000), however long the
    document. *)
Theorem request_input_bounds texto input :
  encode (prompt texto) = Ok input →
  let n := length texto `min` 4000 in
  308 + n + 1 ≤ length input ≤ 308 + 4 * n + 1 ∧ length input ≤ 309 + 4 * 4000.
Proof.
  intros (head & body & Hh%encode_prompt_head & Hb%encode_length & ->)%encode_prompt.
  unfold slice_to in Hb. rewrite length_take in Hb.
  cbv zeta. rewrite !length_app, Hh. cbn [length]. lia.
Qed.

(** ** The reply *)

Lemma msg_call_error_head e : ∃ s, msg_call_error e = 10060%N :: s.
Proof. by eexists. Qed.

Lemma request_Ok texto modelo input stdout reply :
  encode (prompt texto) = Ok input → run (command modelo) input = Ok stdout →
  decode stdout = Ok reply →
  request texto modelo = Ok (if negb (truthy (strip reply)) then msg_no_reply else strip reply).
Proof. intros He Hr Hd. unfold request. rewrite He. simpl. rewrite Hr. simpl. by rewrite Hd. Qed.

Lemma gerar_topicos_ollama_Ok texto modelo input stdout reply :
  encode (prompt texto) = Ok input → run (command modelo) input = Ok stdout →
  decode stdout = Ok reply →
  gerar_topicos_ollama texto modelo =
    if negb (truthy (strip reply)) then msg_no_reply else strip reply.
Proof. intros. unfold gerar_topicos_ollama. by erewrite request_Ok. Qed.

Lemma gerar_topicos_ollama_reply_spec texto modelo :
  reply_of texto modelo (gerar_topicos_ollama texto modelo).
Proof.
  unfold gerar_topicos_ollama, request.
  destruct (encode (prompt texto)) as [input|e] eqn:Ee; simpl.
  - destruct (run (command modelo) input) as [stdout|e] eqn:Er; simpl.
    + destruct (decode stdout) as [reply|e] eqn:Ed; simpl.
      * destruct (strip reply) eqn:Es; simpl;
          [by eapply reply_blank|rewrite <-Es; eapply reply_text; eauto; congruence].
      * apply decode_Raise in Ed as Ee'. subst e. by eapply reply_not_decoded.
    + destruct (decide (e = FileNotFoundError)) as [->|Hn]; [by eapply reply_not_found|].
      destruct e; try done; by eapply reply_run_error.
  - apply encode_Raise_Exists in Ee as Ee'. destruct Ee' as [_ ->]. by apply reply_not_encoded.
Qed.

(** C8: the function implements its contract: it returns the reply
    that the run determines and no other, the stripped answer of the
    model, or the diagnostic for a blank answer, for a missing
    executable, or for any other exception, the failure to encode the
    prompt or to decode the answer included. *)
Theorem gerar_topicos_ollama_refines texto modelo r :
  reply_of texto modelo r ↔ r = gerar_topicos_ollama texto modelo.
Proof.
  split; [|intros ->; apply gerar_topicos_ollama_reply_spec].
  unfold gerar_topicos_ollama, request.
  destruct 1 as [input stdout reply He Hr Hd Hs|input stdout reply He Hr Hd Hs
                |input He Hr|input e He Hr Hn|He|input stdout He Hr Hd];
    rewrite He; simpl; rewrite ?Hr; simpl; rewrite ?Hd; simpl; try done.
  - by destruct (strip reply).
  - by rewrite Hs.
  - by destruct e.
Qed.

(** The function returns an answer of the model or a diagnostic. *)
Lemma gerar_topicos_ollama_reply_of_inv texto modelo :
  (∃ input stdout reply,
      encode (prompt texto) = Ok input ∧ run (command modelo) input = Ok stdout ∧
      decode stdout = Ok reply ∧
      gerar_topicos_ollama texto modelo =
        if negb (truthy (strip reply)) then msg_no_reply else strip reply) ∨
  (gerar_topicos_ollama texto modelo = msg_not_found ∨
   ∃ e, gerar_topicos_ollama texto modelo = msg_call_error (exn_str e)).
Proof.
  destruct (gerar_topicos_ollama_reply_spec texto modelo)
    as [input stdout reply He Hr Hd Hs|input stdout reply He Hr Hd Hs| | | |]; eauto.
  - left. exists input, stdout, reply. split_and!; try done. by destruct (strip reply).
  - left. exists input, stdout, reply. split_and!; try done. by rewrite Hs.
Qed.

(** The reply is never the empty str. *)
Lemma reply_of_nonempty texto modelo r : reply_of texto modelo r → r ≠ [].
Proof. destruct 1; try done; by destruct (msg_call_error_head (exn_str e)) as [? ->]
                               || by destruct (msg_call_error_head (exn_str UnicodeError)) as [? ->]. Qed.

(** The reply is text: its characters are scalar values, as long as
    those of the texts of the exceptions are. *)
Lemma msg_encodable : encodable msg_no_reply ∧ encodable msg_not_found.
Proof. split; compute_done. Qed.

Lemma msg_call_error_encodable e : encodable e → encodable (msg_call_error e).
Proof. intros He. apply Forall_app. split; [compute_done|done]. Qed.

Lemma reply_of_encodable texto modelo r :
  (∀ e, encodable (exn_str e)) → reply_of texto modelo r → encodable r.
Proof.
  intros Hstr. destruct 1; auto using msg_call_error_encodable.
  - by eapply strip_Forall, decode_Ok_encodable.
  - apply msg_encodable.
  - apply msg_encodable.
Qed.

Lemma gerar_topicos_ollama_encodable texto modelo :
  (∀ e, encodable (exn_str e)) → encodable (gerar_topicos_ollama texto modelo).
Proof. intros Hstr. eapply reply_of_encodable, gerar_topicos_ollama_reply_spec. done. Qed.

(** ** What the parser makes of the reply *)

Lemma parse_topicos_blank reply : strip reply = [] → parse_topicos reply = Ok [].
Proof. intros E. by rewrite <-parse_topicos_strip, E. Qed.

Lemma parse_topicos_no_reply : parse_topicos msg_no_reply = Ok [].
Proof. by vm_compute. Qed.

Lemma parse_topicos_not_found : parse_topicos msg_not_found = Ok [].
Proof. by vm_compute. Qed.

Lemma parse_topicos_call_error e : one_line e → parse_topicos (msg_call_error e) = Ok [].
Proof.
  intros He. unfold parse_topicos.
  destruct (msg_call_error_head e) as [s Hs].
  rewrite splitlines_last, parse_lines_no_topics; try done.
  - constructor; [|done]. rewrite Hs. by apply is_topic_line_head.
  - unfold msg_call_error. apply Forall_app. split; [compute_done|done].
Qed.

(** What the function makes of an answer parses like the answer. *)
Lemma parse_topicos_returned reply :
  parse_topicos (if negb (truthy (strip reply)) then msg_no_reply else strip reply) =
  parse_topicos reply.
Proof.
  destruct (strip reply) eqn:Es; simpl.
  - by rewrite (parse_topicos_blank reply), parse_topicos_no_reply.
  - by rewrite <-Es, parse_topicos_strip.
Qed.

(** The two cases of [answered]. *)
Lemma answered_Some texto modelo reply :
  answered texto modelo = Some reply ↔
  ∃ input stdout, encode (prompt texto) = Ok input ∧ run (command modelo) input = Ok stdout ∧
                  decode stdout = Ok reply.
Proof.
  unfold answered. split.
  - destruct (encode (prompt texto)) as [input|]; simpl; [|done].
    destruct (run (command modelo) input) as [stdout|] eqn:Hr; simpl; [|done].
    destruct (decode stdout) eqn:Hd; [|done]. intros [= <-]. eauto.
  - intros (input & stdout & -> & Hr & Hd). simpl. rewrite Hr. simpl. by rewrite Hd.
Qed.

Lemma answered_parse texto modelo reply :
  answered texto modelo = Some reply →
  parse_topicos (gerar_topicos_ollama texto modelo) = parse_topicos reply.
Proof.
  intros (input & stdout & He & Hr & Hd)%answered_Some.
  rewrite (gerar_topicos_ollama_Ok _ _ _ _ _ He Hr Hd). apply parse_topicos_returned.
Qed.

Lemma unanswered_parse texto modelo :
  (∀ e, one_line (exn_str e)) → answered texto modelo = None →
  parse_topicos (gerar_topicos_ollama texto modelo) = Ok [].
Proof.
  intros Hstr Hno. destruct (gerar_topicos_ollama_reply_of_inv texto modelo) as [H|H].
  - destruct H as (input & stdout & reply & He & Hr & Hd & _).
    assert (answered texto modelo = Some reply) by (apply answered_Some; eauto).
    congruence.
  - destruct H as [->|[e ->]]; [apply parse_topicos_not_found|].
    apply parse_topicos_call_error, Hstr.
Qed.

(** C26: when the model answers, the outline of what the function
    returns is the outline of the answer: stripping the answer and
    replacing a blank one by the diagnostic change nothing. *)
Theorem gerar_topicos_ollama_parse texto modelo input stdout reply :
  encode (prompt texto) = Ok input → run (command modelo) input = Ok stdout →
  decode stdout = Ok reply →
  parse_topicos (gerar_topicos_ollama texto modelo) = parse_topicos reply.
Proof.
  intros He Hr Hd. apply answered_parse, answered_Some. eauto.
Qed.

(** When the model does not answer, the parser finds no topic in
    what the function returns instead, provided the text of the
    exception is a single line. *)
Lemma gerar_topicos_ollama_no_answer texto modelo :
  (∀ e, one_line (exn_str e)) →
  (∀ input stdout, encode (prompt texto) = Ok input →
     run (command modelo) input = Ok stdout → ∃ e, decode stdout = Raise e) →
  parse_topicos (gerar_topicos_ollama texto modelo) = Ok [].
Proof.
  intros Hstr Hno. apply unanswered_parse; [done|].
  destruct (answered texto modelo) as [reply|] eqn:Ea; [|done].
  apply answered_Some in Ea as (input & stdout & He & Hr & Hd).
  destruct (Hno _ _ He Hr) as [e' ?]. congruence.
Qed.

End requester.

(** The function depends on the process through the answer to the one
    call it makes, and on the texts of the exceptions. *)
Lemma gerar_topicos_ollama_ext run run' exn_str exn_str' texto modelo :
  (∀ e, exn_str' e = exn_str e) →
  (∀ input, encode (prompt texto) = Ok input →
            run' (command modelo) input = run (command modelo) input) →
  gerar_topicos_ollama run' exn_str' texto modelo = gerar_topicos_ollama run exn_str texto modelo.
Proof.
  intros Hstr Hrun. unfold gerar_topicos_ollama, request.
  destruct (encode (prompt texto)) as [input|e]; cbn [mbind res_bind];
    [rewrite (Hrun input eq_refl)|by destruct e; rewrite ?Hstr].
  destruct (run (command modelo) input) as [bs|e]; cbn [mbind res_bind];
    [|by destruct e; rewrite ?Hstr].
  destruct (decode bs) as [reply|e]; cbn [fmap res_fmap mbind res_bind]; [done|].
  by destruct e; rewrite ?Hstr.
Qed.

(** ** Test doubles *)

(** A model that answers [reply] whatever it is asked, and a machine
    without ollama. *)
Definition canned (reply : str) : list str → bytes → res bytes := λ _ _, encode reply.
Definition no_ollama : list str → bytes → res bytes := λ _ _, Raise FileNotFoundError.
Definition broken_pipe : list str → bytes → res bytes :=
  λ _ _, Raise (OtherError (lit "[Errno 32] Broken pipe")).

(** The text of an exception: its message, or the name of its class. *)
Definition exn_name (e : exn) : str :=
  match e with
  | OtherError msg => msg
  | IndexError => lit "list index out of range"
  | KeyError => lit "KeyError"
  | FileNotFoundError => lit "FileNotFoundError"
  | UnicodeError => lit "UnicodeError"
  end.

Lemma request_input_bounds_witness :
  ∃ input, encode (prompt (lit "abc")) = Ok input ∧ 312 ≤ length input ≤ 321.
Proof.
  eexists. split; [reflexivity|]. by apply (request_input_bounds (lit "abc")).
Defined.

Lemma gerar_topicos_ollama_refines_witness :
  reply_of no_ollama exn_name (lit "abc") codellama msg_not_found ↔
  msg_not_found = gerar_topicos_ollama no_ollama exn_name (lit "abc") codellama.
Proof. apply gerar_topicos_ollama_refines. Defined.

Lemma gerar_topicos_ollama_parse_witness :
  parse_topicos (gerar_topicos_ollama (canned (lit "  " ++ scenario1 ++ [LF])) exn_name
                   (lit "abc") codellama) =
  parse_topicos (lit "  " ++ scenario1 ++ [LF]).
Proof. eapply gerar_topicos_ollama_parse; [reflexivity|reflexivity|by vm_compute]. Defined.

Lemma gerar_topicos_ollama_no_answer_witness :
  parse_topicos (gerar_topicos_ollama broken_pipe (λ _, lit "failed") (lit "abc") codellama) =
  Ok [].
Proof.
  apply gerar_topicos_ollama_no_answer; [intros _; compute_done|].
  intros input stdout _ [=].
Defined.

(** With the model, without it, and with a call that fails. *)
Example gerar_topicos_ollama_examples :
  gerar_topicos_ollama (canned (lit " * ok ")) exn_name (lit "abc") codellama = lit "* ok" ∧
  gerar_topicos_ollama (canned [LF; SPACE]) exn_name (lit "abc") codellama = msg_no_reply ∧
  gerar_topicos_ollama no_ollama exn_name (lit "abc") codellama = msg_not_found ∧
  gerar_topicos_ollama broken_pipe exn_name (lit "abc") codellama =
    msg_call_error (lit "[Errno 32] Broken pipe") ∧
  gerar_topicos_ollama (λ _ _, Ok [0xFF]%N) exn_name (lit "abc") codellama =
    msg_call_error (lit "UnicodeError") ∧
  gerar_topicos_ollama (canned []) exn_name [0xD800]%N codellama =
    msg_call_error (lit "UnicodeError").
Proof. by vm_compute. Qed.

(** The text of an exception is parsed like any reply: when it has
    several lines, topic lines among them make an outline. *)
Example call_error_parsed :
  parse_topicos (msg_call_error (lit "exit" ++ [LF] ++ topic_line (lit "1") (lit "A"))) =
  Ok [(lit "A", [])].
Proof. by vm_compute. Qed.

(** The bullets of the template are the printed form of an outline with
    two topics of two subtopics each. *)
Example prompt_lines_format :
  filter (λ l, l ≠ []) (take 8 (drop 4 prompt_lines)) =
  print_lines [(ulit "Nome do tópico", [lit "Nome"; lit "Nome"]);
               (ulit "Nome do tópico", [lit "Nome"; lit "Nome"])].
Proof. by vm_compute. Qed.

(** The heading word of the parser is the one the template writes. *)
Example Topico_utf8 :
  Topico = ulit "Tópico" ∧ topic_line (lit "1") (lit "x") = ulit "* Tópico 1: x" ∧
  subtopic_line (lit "1") (lit "x") = ulit "    + Subtópico 1: x".
Proof. by vm_compute. Qed.
