(* ===== verification/Source.v ===== *)
(** * Source: the interface of an outline source (spec, sections 4.2 and 9)

    What the parser and the renderer need of the stage before them: a
    reply for every text, which parses like the answer of the model
    when the model answered, and holds no topic when it did not.
    [OutlineSource] is that interface.  [ollama_source] implements it
    with [gerar_topicos_ollama], [canned_source] and [silent_source]
    are the fakes of the tests.  The lemmas of the section [client]
    are proved of any source. *)

From S2P Require Import Prelude PyStr PyDict Utf8 Parser ParserSpec Renderer Requester.

Class OutlineSource := {
  (** [requestOutline(text)]: the reply, or a diagnostic in its place. *)
  request_outline : str → str;
  (** The answer of the model, when it gave one. *)
  model_reply : str → option str;
  (** The reply parses like the answer of the model. *)
  request_outline_reply texto reply :
    model_reply texto = Some reply →
    parse_topicos (request_outline texto) = parse_topicos reply;
  (** A diagnostic holds no topic. *)
  request_outline_diagnostic texto :
    model_reply texto = None → parse_topicos (request_outline texto) = Ok [];
}.

(** ** Implementations *)

(** The model behind [subprocess.run], for a machine where the text of
    an exception is a single line. *)
Definition ollama_source (run : list str → bytes → res bytes) (exn_str : exn → str)
    (Hstr : ∀ e, one_line (exn_str e)) : OutlineSource := {|
  request_outline texto := gerar_topicos_ollama run exn_str texto codellama;
  model_reply texto := answered run texto codellama;
  request_outline_reply texto := answered_parse run exn_str texto codellama;
  request_outline_diagnostic texto := unanswered_parse run exn_str texto codellama Hstr;
|}.

(** A source that answers [reply] to every text. *)
Definition canned_source (reply : str) : OutlineSource.
Proof.
  refine {| request_outline _ := reply; model_reply _ := Some reply |};
    [by intros _ ? [= <-]|done].
Defined.

(** A machine without the model. *)
Definition silent_source : OutlineSource.
Proof.
  refine {| request_outline _ := msg_not_found; model_reply _ := None |};
    [done|intros; apply parse_topicos_not_found].
Defined.

(** ** What a client knows of any source *)

Section client.
Context `{OutlineSource}.

(** The outline a text leads to, and what is drawn of it. *)
Definition outline_from (texto : str) : res outline := parse_topicos (request_outline texto).

Lemma outline_from_spec texto :
  outline_from texto =
    match model_reply texto with Some reply => parse_topicos reply | None => Ok [] end.
Proof.
  unfold outline_from. destruct (model_reply texto) eqn:E;
    auto using request_outline_reply, request_outline_diagnostic.
Qed.

(** The outline is that of the contract of the parser, applied to the
    answer of the model; a source raises nothing of its own. *)
Lemma outline_from_answer texto reply :
  model_reply texto = Some reply → existsb malformed (splitlines reply) = false →
  outline_from texto = Ok (outline_of reply).
Proof. intros E Hm. rewrite outline_from_spec, E. by apply parse_topicos_well_formed. Qed.

Lemma outline_from_Raise texto e :
  outline_from texto = Raise e →
  e = IndexError ∧ ∃ reply, model_reply texto = Some reply ∧
                            existsb malformed (splitlines reply) = true.
Proof.
  rewrite outline_from_spec. destruct (model_reply texto) as [reply|]; [|done].
  intros [-> ?]%parse_topicos_Raise. eauto.
Qed.

(** Whatever the source, the graph of the outline is a graph of
    well-formed names. *)
Lemma outline_from_wf texto o : outline_from texto = Ok o → outline_wf o.
Proof. apply parse_topicos_Ok_wf. Qed.

End client.

(** The scenarios of the spec, with the fakes for the model. *)
Example outline_from_examples :
  @outline_from (canned_source scenario1) (lit "any text") =
    Ok [(lit "Redes", [lit "TCP"; lit "UDP"]);
        (lit "Seguran" ++ [231%N] ++ lit "a", [lit "Criptografia"])] ∧
  @outline_from (canned_source scenario4) [] = Ok [(lit "A", [lit "S2"])] ∧
  @outline_from silent_source (lit "any text") = Ok [].
Proof. by vm_compute. Qed.
