(* ===== verification/Pipeline.v ===== *)
(** * Pipeline: [escolher_pdf] and [main] (src/main.py, lines 21-28, 132-154)

    A run is a computation in the monad [io] of the file [Outside]: it
    calls the window system, pdfplumber, the ollama process and
    Graphviz, prints lines, and may end with an exception nobody
    catches.  Each stage is written here as the source writes it, with
    its calls to the outside and its handlers, and proved to compute
    what the model of the stage computes from the answers of the
    outside.  [run_main] is a run; [run_cases] is the same run in direct
    style, one case per way through [main], whatever the console does.
    The theorems on runs are in the files [Safety], [Runs] and
    [Console]. *)

From S2P Require Import Prelude PyStr PyDict Utf8 Parser ParserSpec Extractor Renderer.
From S2P Require Import Outside Requester.

(** ** The messages and the constants *)

Definition msg_no_pdf : str := ulit "⚠️ Nenhum PDF selecionado. Saindo...".
Definition msg_selected (caminho_pdf : str) : str := ulit "📄 PDF selecionado: " ++ caminho_pdf.
Definition msg_extracting : str := ulit "🔍 Extraindo texto do PDF...".
Definition msg_generating : str :=
  ulit "🤖 Gerando tópicos automáticos com CodeLlama via Ollama...".
Definition msg_header : str := [LF] ++ ulit "=== Tópicos gerados ===" ++ [LF].
Definition msg_no_topics : str :=
  ulit "⚠️ Não foi possível criar o mapa mental. Nenhum tópico detectado.".
Definition titulo : str := lit "Meu Estudo".

(** The arguments of the file dialog and of the rendering. *)
Definition dialog_title : str := lit "Selecione o PDF".
Definition dialog_filetypes : list (str * str) := [(lit "PDF files", lit "*.pdf")].
Definition dot_name : str := lit "dot".
Definition render_filename : str := lit "mapa_mental".
Definition render_format : str := lit "pdf".

(** ** The stages, with their calls *)

(** [escolher_pdf()] *)
Definition escolher_pdf (w : world) : io str :=
  root ← outside EvTk (tk_root w);
  _ ← outside EvWithdraw (withdraw w);
  caminho_pdf ← outside (EvAskOpen dialog_title dialog_filetypes)
                        (askopenfilename w dialog_title dialog_filetypes);
  mret caminho_pdf.

(** [extrair_texto_pdf(caminho_pdf)]: the [with] block around the
    loop over the pages. *)
Definition extrair_texto_pdf_io (w : world) (caminho_pdf : str) : io str :=
  let texto := [] in
  pdf ← outside (EvOpenPdf caminho_pdf) (open_pdf w caminho_pdf);
  with_exit
    (pages ← outside (EvPages caminho_pdf) (pdf_pages w caminho_pdf);
     io_foldl (λ texto pagina,
                 pagina_texto ← outside (EvExtractText caminho_pdf pagina)
                                        (extract_text w caminho_pdf pagina);
                 mret (add_page texto pagina_texto))
              texto (seq 0 pages))
    (outside (EvClosePdf caminho_pdf) (close_pdf w caminho_pdf)).

(** [gerar_topicos_ollama(texto, modelo)]: the [try] and its two
    handlers. *)
Definition gerar_topicos_ollama_io (w : world) (texto modelo : str) : io str :=
  let prompt := prompt texto in
  catch
    (input ← call (encode prompt);
     stdout ← outside (EvRun (command modelo) input) (subprocess_run w (command modelo) input);
     resposta ← call (strip <$> decode stdout);
     mret (if negb (truthy resposta) then msg_no_reply else resposta))
    (λ e, match e with
          | FileNotFoundError => mret msg_not_found
          | e => mret (msg_call_error (exn_str w e))
          end).

(** [criar_mapa_mental(titulo, topicos_dict)]; the value is the graph
    rendered, if any. *)
Definition criar_mapa_mental_io (w : world) (titulo : str) (topicos_dict : outline) :
    io (option digraph) :=
  found ← outside (EvWhich dot_name) (Ok (which w dot_name));
  if negb (truthy found) then _ ← print w msg_no_graphviz; mret None
  else
    let dot := build_graph titulo topicos_dict in
    catch
      (_ ← outside (EvRender dot render_filename render_format true)
                   (dot_render w dot render_filename render_format true);
       _ ← print w msg_saved;
       mret (Some dot))
      (λ e, _ ← print w (msg_render_error (exn_str w e)); mret None).

(** [main()] *)
Definition main (w : world) : io (option digraph) :=
  caminho_pdf ← escolher_pdf w;
  if negb (truthy caminho_pdf) then
    _ ← print w msg_no_pdf; mret None
  else
    _ ← print w (msg_selected caminho_pdf);
    _ ← print w msg_extracting;
    conteudo ← extrair_texto_pdf_io w caminho_pdf;
    _ ← print w msg_generating;
    resposta_ollama ← gerar_topicos_ollama_io w conteudo codellama;
    _ ← print w msg_header;
    _ ← print w resposta_ollama;
    topicos_dict ← call (parse_topicos resposta_ollama);
    if truthy topicos_dict then criar_mapa_mental_io w titulo topicos_dict
    else _ ← print w msg_no_topics; mret None.

(** What a run leaves behind: its calls and prints, the diagram it
    says it saved, the exception nobody caught. *)
Record run_result := RunResult {
  trace : list event;
  diagram : option digraph;
  uncaught : option exn;
}.

Definition result_of (m : io (option digraph)) : run_result :=
  match m with
  | (tr, Ok d) => RunResult tr d None
  | (tr, Raise e) => RunResult tr None (Some e)
  end.

(** [if __name__ == "__main__": main()] *)
Definition run_main (w : world) : run_result := result_of (main w).

(** The lines a run prints. *)
Definition stdout (r : run_result) : list str := prints (trace r).

(** ** The stages, from the answers of the outside *)

(** What the dialog returns. *)
Definition chosen (w : world) : res str :=
  _ ← tk_root w; _ ← withdraw w; askopenfilename w dialog_title dialog_filetypes.

(** What reading the file returns, and the calls it makes: the pages
    are asked for once the file is open, their texts until one raises,
    and the file is closed at the end of the block. *)
Definition read_pdf (w : world) (caminho_pdf : str) : res str :=
  extrair_texto_pdf (open_pdf w caminho_pdf) (pdf_pages w caminho_pdf)
                    (extract_text w caminho_pdf) (close_pdf w caminho_pdf).

Definition read_events (w : world) (caminho_pdf : str) : list event :=
  EvOpenPdf caminho_pdf ::
  match open_pdf w caminho_pdf with
  | Raise _ => []
  | Ok _ =>
      EvPages caminho_pdf ::
      (EvExtractText caminho_pdf <$>
         pages_read (pdf_pages w caminho_pdf) (extract_text w caminho_pdf)) ++
      [EvClosePdf caminho_pdf]
  end.

(** What the stage models of [Requester] and [Renderer] take from the
    world. *)
Definition dot_found (w : world) : bool := truthy (which w dot_name).
Definition render (w : world) (dot : digraph) : option str :=
  match dot_render w dot render_filename render_format true with
  | Ok _ => None
  | Raise e => Some (exn_str w e)
  end.

(** The reply the run parses, given the text read. *)
Definition resposta_of (w : world) (conteudo : str) : str :=
  gerar_topicos_ollama (subprocess_run w) (exn_str w) conteudo codellama.

(** The call of the model: none when the prompt has no encoding. *)
Definition run_events (texto modelo : str) : list event :=
  match encode (prompt texto) with
  | Ok input => [EvRun (command modelo) input]
  | Raise _ => []
  end.

(** The calls of [escolher_pdf]. *)
Definition dialog : list event := [EvTk; EvWithdraw; EvAskOpen dialog_title dialog_filetypes].

(** ** The run in direct style *)

(** The ways a run goes on: it ends with an exception after some
    events, it goes on after some events, it prints a line and goes on
    unless the console raises, it ends. *)
Definition stop (tr : list event) (e : exn) : run_result := RunResult tr None (Some e).
Definition after (tr : list event) (rest : run_result) : run_result :=
  RunResult (tr ++ trace rest) (diagram rest) (uncaught rest).
Definition say (w : world) (s : str) (rest : run_result) : run_result :=
  match console w s with
  | Ok _ => after [EvPrint s] rest
  | Raise e => stop [EvPrint s] e
  end.
Definition finish (d : option digraph) : run_result := RunResult [] d None.

(** [criar_mapa_mental]: the message that the diagram is saved is
    printed inside the [try], so an exception of the console at that
    point is handled like one of the rendering. *)
Definition render_cases (w : world) (titulo : str) (o : outline) : run_result :=
  let dot := build_graph titulo o in
  after [EvWhich dot_name]
    (if dot_found w then
       after [EvRender dot render_filename render_format true]
         (match dot_render w dot render_filename render_format true with
          | Ok _ =>
              match console w msg_saved with
              | Ok _ => after [EvPrint msg_saved] (finish (Some dot))
              | Raise e =>
                  after [EvPrint msg_saved]
                        (say w (msg_render_error (exn_str w e)) (finish None))
              end
          | Raise e => say w (msg_render_error (exn_str w e)) (finish None)
          end)
     else say w msg_no_graphviz (finish None)).

(** [main] from the print that follows the extraction. *)
Definition request_cases (w : world) (conteudo : str) : run_result :=
  say w msg_generating
    (after (run_events conteudo codellama)
       (say w msg_header
          (say w (resposta_of w conteudo)
             (match parse_topicos (resposta_of w conteudo) with
              | Raise e => stop [] e
              | Ok [] => say w msg_no_topics (finish None)
              | Ok o => render_cases w titulo o
              end)))).

(** [main] *)
Definition run_cases (w : world) : run_result :=
  match tk_root w with
  | Raise e => stop [EvTk] e
  | Ok _ =>
  match withdraw w with
  | Raise e => stop [EvTk; EvWithdraw] e
  | Ok _ =>
  match askopenfilename w dialog_title dialog_filetypes with
  | Raise e => stop dialog e
  | Ok [] => after dialog (say w msg_no_pdf (finish None))
  | Ok caminho_pdf =>
      after dialog
        (say w (msg_selected caminho_pdf)
           (say w msg_extracting
              (after (read_events w caminho_pdf)
                 (match read_pdf w caminho_pdf with
                  | Raise e => stop [] e
                  | Ok conteudo => request_cases w conteudo
                  end))))
  end end end.

#[global] Arguments resposta_of : simpl never.
#[global] Arguments run_events : simpl never.
#[global] Arguments read_events : simpl never.
#[global] Arguments read_pdf : simpl never.
#[global] Arguments say : simpl never.
#[global] Arguments after : simpl never.

(** ** Each stage computes what its model computes *)

Lemma escolher_pdf_chosen w :
  escolher_pdf w =
    match tk_root w with
    | Raise e => ([EvTk], Raise e)
    | Ok _ =>
        match withdraw w with
        | Raise e => ([EvTk; EvWithdraw], Raise e)
        | Ok _ => (dialog, askopenfilename w dialog_title dialog_filetypes)
        end
    end.
Proof.
  unfold escolher_pdf. rewrite io_bind_outside. destruct (tk_root w); [|done].
  rewrite io_bind_outside. destruct (withdraw w); [|done].
  cbn [fst snd]. rewrite io_bind_outside. by destruct (askopenfilename _ _ _).
Qed.

Lemma extrair_texto_pdf_io_spec w caminho_pdf :
  extrair_texto_pdf_io w caminho_pdf = (read_events w caminho_pdf, read_pdf w caminho_pdf).
Proof.
  unfold extrair_texto_pdf_io, read_events, read_pdf, extrair_texto_pdf, read_pages, pages_read.
  rewrite io_bind_outside. destruct (open_pdf _ _); [|done].
  rewrite io_bind_outside. destruct (pdf_pages _ _) as [n|]; [|done].
  by rewrite io_foldl_outside.
Qed.

Lemma gerar_topicos_ollama_io_spec w texto modelo :
  gerar_topicos_ollama_io w texto modelo =
    (run_events texto modelo,
     Ok (gerar_topicos_ollama (subprocess_run w) (exn_str w) texto modelo)).
Proof.
  unfold gerar_topicos_ollama_io, gerar_topicos_ollama, request, run_events.
  rewrite io_bind_call. destruct (encode (prompt texto)) as [input|e]; cbn [mbind res_bind].
  - rewrite io_bind_outside.
    destruct (subprocess_run w _ input) as [bs|e]; cbn [mbind res_bind fst snd].
    + rewrite io_bind_call. destruct (decode bs) as [reply|e]; cbn [fmap res_fmap mbind res_bind].
      * done.
      * by destruct e.
    + by destruct e.
  - by destruct e.
Qed.

Lemma gerar_topicos_ollama_io_resposta w conteudo :
  gerar_topicos_ollama_io w conteudo codellama =
    (run_events conteudo codellama, Ok (resposta_of w conteudo)).
Proof. apply gerar_topicos_ollama_io_spec. Qed.

(** ** The monadic run and its cases *)

(** How [result_of] goes through a computation. *)
Lemma result_of_pair {A} tr (r : res A) (k : A → io (option digraph)) :
  result_of ((tr, r) ≫= k) =
    after tr (match r with Ok a => result_of (k a) | Raise e => stop [] e end).
Proof.
  destruct r as [a|e]; [|by unfold after, stop; simpl; rewrite app_nil_r].
  rewrite io_bind_pair. unfold result_of, after. by destruct (k a) as [tr' [d|e]].
Qed.

Lemma result_of_print w s (k : unit → io (option digraph)) :
  result_of (print w s ≫= k) = say w s (result_of (k tt)).
Proof.
  rewrite io_bind_print. unfold say. destruct (console w s); [|done].
  unfold result_of, after. by destruct (k tt) as [tr' [d|e]].
Qed.

Lemma result_of_call {A} (r : res A) (k : A → io (option digraph)) :
  result_of (call r ≫= k) = match r with Ok a => result_of (k a) | Raise e => stop [] e end.
Proof. rewrite io_bind_call. by destruct r. Qed.

Lemma result_of_ret d : result_of (mret d) = finish d.
Proof. done. Qed.

Lemma after_nil r : after [] r = r.
Proof. by destruct r. Qed.

Lemma criar_mapa_mental_io_cases w titulo o :
  result_of (criar_mapa_mental_io w titulo o) = render_cases w titulo o.
Proof.
  unfold criar_mapa_mental_io, render_cases, dot_found.
  rewrite (result_of_pair [EvWhich dot_name] (Ok (which w dot_name))).
  destruct (truthy (which w dot_name)); cbn [negb]; [|by rewrite result_of_print].
  unfold say, print, outside.
  destruct (dot_render w _ _ _ _), (console w msg_saved); try done;
    cbn [catch mbind io_bind fst snd app]; by destruct (console w _).
Qed.

#[local] Opaque run_events resposta_of read_events read_pdf render_cases.

Lemma run_main_cases w : run_main w = run_cases w.
Proof.
  unfold run_main, run_cases, request_cases, main. rewrite escolher_pdf_chosen.
  destruct (tk_root w) as [?|e]; [|done]. destruct (withdraw w) as [?|e]; [|done].
  destruct (askopenfilename _ _ _) as [[|c path]|e]; [| |done]; rewrite result_of_pair.
  - cbn [truthy list_truthy negb]. by rewrite result_of_print.
  - cbn [truthy list_truthy negb]. rewrite !result_of_print, extrair_texto_pdf_io_spec.
    rewrite result_of_pair. destruct (read_pdf w (c :: path)) as [conteudo|e]; [|done].
    rewrite result_of_print, gerar_topicos_ollama_io_resposta, result_of_pair.
    rewrite !result_of_print, result_of_call.
    destruct (parse_topicos _) as [[|it o]|e]; cbn [truthy list_truthy];
      [by rewrite result_of_print|by rewrite criar_mapa_mental_io_cases|done].
Qed.

#[local] Transparent run_events resposta_of read_events read_pdf render_cases.
