(* ===== verification/Traces.v ===== *)
(** * Traces: the run on a console that takes its lines
    (src/main.py, lines 132-154)

    When the console takes every line a run prints, the run is one of
    eight traces: [run_fine] gives them by cases on the answers of the
    outside, in terms of the events of the successive stages
    ([dialog], [opening], [progress], [render_events]).
    [console_fine] says that the console takes the lines the run
    prints, and then [run_cases], hence [run_main], is [run_fine].
    The lemmas give the prints and the calls of each piece. *)

From S2P Require Import Prelude PyStr PyDict Utf8 Parser ParserSpec Extractor Renderer.
From S2P Require Import Outside Requester Pipeline.

(** ** The traces of the stages *)

(** [criar_mapa_mental] in a world, and on a console that takes every
    line. *)
Definition rendering (w : world) (titulo : str) (o : outline) : render_outcome :=
  criar_mapa_mental (dot_found w) (render w) (exn_str w) (console w) titulo o.
Definition render_fine (w : world) (titulo : str) (o : outline) : render_outcome :=
  criar_mapa_mental (dot_found w) (render w) (exn_str w) (λ _, Ok tt) titulo o.

(** The calls and the prints of the rendering stage. *)
Definition render_events (w : world) (titulo : str) (o : outline) : list event :=
  EvWhich dot_name ::
  (if dot_found w
   then [EvRender (build_graph titulo o) render_filename render_format true] else []) ++
  (EvPrint <$> printed (render_fine w titulo o)).

(** The events of a run up to the end of the extraction, and up to the
    print of the reply. *)
Definition opening (w : world) (caminho_pdf : str) : list event :=
  dialog ++ [EvPrint (msg_selected caminho_pdf); EvPrint msg_extracting] ++
  read_events w caminho_pdf.
Definition progress (w : world) (caminho_pdf conteudo : str) : list event :=
  opening w caminho_pdf ++ [EvPrint msg_generating] ++
  run_events conteudo codellama ++
  [EvPrint msg_header; EvPrint (resposta_of w conteudo)].

(** The run when the console takes every line: one case per way
    through [main]. *)
Definition run_fine (w : world) : run_result :=
  match tk_root w with
  | Raise e => RunResult [EvTk] None (Some e)
  | Ok _ =>
  match withdraw w with
  | Raise e => RunResult [EvTk; EvWithdraw] None (Some e)
  | Ok _ =>
  match askopenfilename w dialog_title dialog_filetypes with
  | Raise e => RunResult dialog None (Some e)
  | Ok [] => RunResult (dialog ++ [EvPrint msg_no_pdf]) None None
  | Ok caminho_pdf =>
  match read_pdf w caminho_pdf with
  | Raise e => RunResult (opening w caminho_pdf) None (Some e)
  | Ok conteudo =>
  match parse_topicos (resposta_of w conteudo) with
  | Raise e => RunResult (progress w caminho_pdf conteudo) None (Some e)
  | Ok [] => RunResult (progress w caminho_pdf conteudo ++ [EvPrint msg_no_topics]) None None
  | Ok o =>
      RunResult (progress w caminho_pdf conteudo ++ render_events w titulo o)
                (rendered (render_fine w titulo o)) None
  end end end end end.

(** The console takes a line, the lines a run prints, the lines the
    run of [main] prints: no [print] of the run raises. *)
Definition takes (w : world) (s : str) : Prop := console w s = Ok tt.
Definition taken (w : world) (r : run_result) : Prop := Forall (takes w) (stdout r).
Definition console_fine (w : world) : Prop := taken w (run_main w).

#[export] Instance takes_dec w s : Decision (takes w s).
Proof. unfold takes. apply _. Defined.
#[export] Instance taken_dec w r : Decision (taken w r).
Proof. unfold taken. apply _. Defined.
#[export] Instance console_fine_dec w : Decision (console_fine w).
Proof. unfold console_fine. apply _. Defined.

(** The calls of the rendering stage: the search for dot, and the
    rendering when dot is found. *)
Definition render_calls (w : world) (titulo : str) (o : outline) : list event :=
  EvWhich dot_name ::
  if dot_found w
  then [EvRender (build_graph titulo o) render_filename render_format true] else [].

(** A file that opens, has the pages [pts] and closes. *)
Definition reads_as (w : world) (caminho_pdf : str) (pts : list (option str)) : Prop :=
  open_pdf w caminho_pdf = Ok tt ∧ pdf_pages w caminho_pdf = Ok (length pts) ∧
  (∀ i pt, pts !! i = Some pt → extract_text w caminho_pdf i = Ok pt) ∧
  close_pdf w caminho_pdf = Ok tt.

#[global] Arguments progress : simpl never.
#[global] Arguments render_events : simpl never.

(** ** The prints and the calls of a run *)

Lemma prints_run_events texto modelo : prints (run_events texto modelo) = [].
Proof. unfold run_events. by destruct (encode _). Qed.

Lemma calls_run_events texto modelo : calls (run_events texto modelo) = run_events texto modelo.
Proof. unfold run_events. by destruct (encode _). Qed.

Lemma prints_fmap_call {B} (ev : B → event) l :
  (∀ b, is_print (ev b) = false) → prints (ev <$> l) = [] ∧ calls (ev <$> l) = ev <$> l.
Proof.
  intros Hev. unfold calls. induction l as [|b l [IH1 IH2]]; [done|]. rewrite fmap_cons.
  rewrite filter_cons_True, IH2 by apply Hev. split; [|done].
  specialize (Hev b). unfold prints in *. simpl. by destruct (ev b).
Qed.

Lemma prints_read_events w caminho_pdf : prints (read_events w caminho_pdf) = [].
Proof.
  unfold read_events. destruct (open_pdf _ _); [|done].
  change (prints (?e1 :: ?e2 :: ?tr)) with (prints tr).
  rewrite prints_app. by rewrite (proj1 (prints_fmap_call (EvExtractText _) _ (λ _, eq_refl))).
Qed.

Lemma calls_read_events w caminho_pdf :
  calls (read_events w caminho_pdf) = read_events w caminho_pdf.
Proof.
  unfold read_events. destruct (open_pdf _ _); [|done].
  change (calls (?e1 :: ?e2 :: ?tr)) with (e1 :: e2 :: calls tr).
  rewrite calls_app. by rewrite (proj2 (prints_fmap_call (EvExtractText _) _ (λ _, eq_refl))).
Qed.

Lemma prints_opening w caminho_pdf :
  prints (opening w caminho_pdf) = [msg_selected caminho_pdf; msg_extracting].
Proof. unfold opening. by rewrite !prints_app, prints_read_events. Qed.

Lemma prints_progress w caminho_pdf conteudo :
  prints (progress w caminho_pdf conteudo) =
    [msg_selected caminho_pdf; msg_extracting; msg_generating; msg_header;
     resposta_of w conteudo].
Proof.
  unfold progress. rewrite !prints_app, prints_opening, prints_run_events. done.
Qed.

Lemma prints_render_events w titulo o :
  prints (render_events w titulo o) =
    printed (render_fine w titulo o).
Proof.
  unfold render_events. change (prints (?ev :: ?tr)) with (prints tr).
  rewrite prints_app, prints_EvPrint. by destruct (dot_found w).
Qed.

Lemma calls_render_events w titulo o :
  calls (render_events w titulo o) = render_calls w titulo o.
Proof.
  unfold render_events, render_calls.
  change (calls (?ev :: ?tr)) with (ev :: calls tr). f_equal.
  rewrite calls_app, calls_EvPrint, app_nil_r. by destruct (dot_found w).
Qed.

Lemma calls_opening w caminho_pdf :
  calls (opening w caminho_pdf) = dialog ++ read_events w caminho_pdf.
Proof. unfold opening. by rewrite !calls_app, calls_read_events. Qed.

Lemma calls_progress w caminho_pdf conteudo :
  calls (progress w caminho_pdf conteudo) =
    dialog ++ read_events w caminho_pdf ++ run_events conteudo codellama.
Proof.
  unfold progress. rewrite !calls_app, calls_opening, calls_run_events.
  by rewrite app_nil_r, <-app_assoc.
Qed.

(** ** The reply, the pages and the traces when they are known *)

Lemma parse_resposta_of w conteudo input bs reply :
  encode (prompt conteudo) = Ok input →
  subprocess_run w (command codellama) input = Ok bs → decode bs = Ok reply →
  parse_topicos (resposta_of w conteudo) = parse_topicos reply.
Proof.
  intros He Hr Hd. unfold resposta_of.
  rewrite (gerar_topicos_ollama_Ok _ _ _ _ _ _ _ He Hr Hd). apply parse_topicos_returned.
Qed.

(** The reply of a model that answers with topics is the answer,
    stripped. *)
Lemma resposta_of_answer w conteudo input bs reply :
  encode (prompt conteudo) = Ok input →
  subprocess_run w (command codellama) input = Ok bs → decode bs = Ok reply →
  strip reply ≠ [] → resposta_of w conteudo = strip reply.
Proof.
  intros He Hr Hd Hs. unfold resposta_of.
  rewrite (gerar_topicos_ollama_Ok _ _ _ _ _ _ _ He Hr Hd). by destruct (strip reply).
Qed.

Lemma run_events_encoded texto modelo input :
  encode (prompt texto) = Ok input → run_events texto modelo = [EvRun (command modelo) input].
Proof. unfold run_events. by intros ->. Qed.

Lemma render_events_saved w titulo o :
  dot_found w = true → render w (build_graph titulo o) = None →
  render_events w titulo o =
    [EvWhich dot_name; EvRender (build_graph titulo o) render_filename render_format true;
     EvPrint msg_saved].
Proof. unfold render_events, render_fine, criar_mapa_mental. by intros -> ->. Qed.

Lemma progress_answer w caminho_pdf conteudo input bs reply :
  encode (prompt conteudo) = Ok input →
  subprocess_run w (command codellama) input = Ok bs → decode bs = Ok reply →
  strip reply ≠ [] →
  progress w caminho_pdf conteudo =
    dialog ++ [EvPrint (msg_selected caminho_pdf); EvPrint msg_extracting] ++
    read_events w caminho_pdf ++
    [EvPrint msg_generating; EvRun (command codellama) input; EvPrint msg_header;
     EvPrint (strip reply)].
Proof.
  intros He Hr Hd Hs. unfold progress, opening. rewrite (run_events_encoded _ _ _ He).
  by rewrite (resposta_of_answer _ _ _ _ _ He Hr Hd Hs), <-!app_assoc.
Qed.

(** ** Reading the file *)

Lemma read_pdf_Ok w caminho_pdf conteudo :
  read_pdf w caminho_pdf = Ok conteudo ↔
  ∃ pts, reads_as w caminho_pdf pts ∧ conteudo = extract_pages pts.
Proof.
  unfold read_pdf, reads_as. rewrite extrair_texto_pdf_Ok. split.
  - intros (? & ? & pts & ? & ? & ?). by exists pts.
  - intros (pts & (? & ? & ? & ?) & ?). split_and!; [done..|]. by exists pts.
Qed.

Lemma read_events_pages w caminho_pdf pts :
  reads_as w caminho_pdf pts →
  read_events w caminho_pdf =
    EvOpenPdf caminho_pdf :: EvPages caminho_pdf ::
    (EvExtractText caminho_pdf <$> seq 0 (length pts)) ++ [EvClosePdf caminho_pdf].
Proof.
  intros (Ho & Hn & Hp & _). unfold read_events. rewrite Ho.
  by rewrite (pages_read_all _ _ _ Hn Hp).
Qed.

Lemma read_events_open w caminho_pdf conteudo :
  read_pdf w caminho_pdf = Ok conteudo → open_pdf w caminho_pdf = Ok tt.
Proof. by intros (_ & (? & _) & _)%read_pdf_Ok. Qed.

Lemma chosen_Ok w caminho_pdf :
  tk_root w = Ok tt → withdraw w = Ok tt →
  askopenfilename w dialog_title dialog_filetypes = Ok caminho_pdf → chosen w = Ok caminho_pdf.
Proof. unfold chosen. by intros -> ->. Qed.

Lemma chosen_inv w caminho_pdf :
  chosen w = Ok caminho_pdf →
  tk_root w = Ok tt ∧ withdraw w = Ok tt ∧
  askopenfilename w dialog_title dialog_filetypes = Ok caminho_pdf.
Proof. unfold chosen. by destruct (tk_root w) as [[]|], (withdraw w) as [[]|]. Qed.

(** ** The run in direct style, on a console that takes the lines *)

Lemma say_takes w s rest : takes w s → say w s rest = after [EvPrint s] rest.
Proof. unfold say, takes. by intros ->. Qed.

Lemma after_after tr1 tr2 rest : after tr1 (after tr2 rest) = after (tr1 ++ tr2) rest.
Proof. unfold after. simpl. by rewrite app_assoc. Qed.

Lemma after_stop tr1 tr2 e : after tr1 (stop tr2 e) = RunResult (tr1 ++ tr2) None (Some e).
Proof. done. Qed.

Lemma after_finish tr d : after tr (finish d) = RunResult tr d None.
Proof. unfold after, finish. simpl. by rewrite app_nil_r. Qed.

(** The rendering stage in direct style is the call of
    [criar_mapa_mental] in the world: its calls, then its prints. *)
Lemma render_cases_spec w titulo o :
  render_cases w titulo o =
    RunResult (render_calls w titulo o ++ (EvPrint <$> printed (rendering w titulo o)))
              (rendered (rendering w titulo o)) (raised (rendering w titulo o)).
Proof.
  unfold render_cases, render_calls, rendering, criar_mapa_mental, report, render, say.
  destruct (dot_found w); cbn [negb];
    [destruct (dot_render w _ _ _ _) as [[]|e0];
     [destruct (console w msg_saved) as [[]|e1]|]|];
    repeat case_match; done.
Qed.

Lemma criar_mapa_mental_io_spec w titulo o :
  result_of (criar_mapa_mental_io w titulo o) =
    RunResult (render_calls w titulo o ++ (EvPrint <$> printed (rendering w titulo o)))
              (rendered (rendering w titulo o)) (raised (rendering w titulo o)).
Proof. rewrite criar_mapa_mental_io_cases. apply render_cases_spec. Qed.

(** When the lines of a run are taken, so are those of what follows,
    and a line printed is followed by the rest. *)
Lemma taken_after w tr r : taken w (after tr r) → taken w r.
Proof.
  unfold taken, stdout, after. cbn [trace]. rewrite prints_app, Forall_app. by intros [_ ?].
Qed.

Lemma taken_print w s r : taken w (after [EvPrint s] r) → takes w s ∧ taken w r.
Proof. intros H. by apply Forall_cons in H. Qed.

Lemma taken_say w s r : taken w (say w s r) → say w s r = after [EvPrint s] r ∧ taken w r.
Proof.
  unfold say. destruct (console w s) as [[]|e] eqn:E.
  - by intros [_ ?]%taken_print.
  - intros [H _]%Forall_cons. unfold takes in H. congruence.
Qed.

Lemma render_cases_fine w titulo o :
  taken w (render_cases w titulo o) →
  render_cases w titulo o =
    RunResult (render_events w titulo o)
              (rendered (render_fine w titulo o)) None.
Proof.
  unfold render_cases, render_events, render_fine, criar_mapa_mental, render.
  intros H%taken_after. revert H. destruct (dot_found w); cbn [negb];
    [intros H%taken_after; revert H;
     destruct (dot_render w _ _ _ _); [destruct (console w msg_saved) as [[]|] eqn:E|]|].
  - intros _. by rewrite !after_after, after_finish.
  - intros [H _]%taken_print. unfold takes in H. congruence.
  - intros [-> _]%taken_say. by rewrite !after_after, after_finish.
  - intros [-> _]%taken_say. by rewrite !after_after, after_finish.
Qed.

(** The events of a run in direct style, put together. *)
Ltac together :=
  unfold progress, opening, after, stop, finish; cbn [trace diagram uncaught]; f_equal;
  by rewrite ?app_nil_r, <-?app_assoc.

Lemma request_cases_fine w caminho_pdf conteudo :
  taken w (request_cases w conteudo) →
  after (opening w caminho_pdf) (request_cases w conteudo) =
    match parse_topicos (resposta_of w conteudo) with
    | Raise e => RunResult (progress w caminho_pdf conteudo) None (Some e)
    | Ok [] => RunResult (progress w caminho_pdf conteudo ++ [EvPrint msg_no_topics]) None None
    | Ok o =>
        RunResult (progress w caminho_pdf conteudo ++ render_events w titulo o)
                  (rendered (render_fine w titulo o)) None
    end.
Proof.
  unfold request_cases. intros H. apply taken_say in H as [-> H]. apply taken_after in H.
  do 2 apply taken_say in H as [-> H]. revert H.
  destruct (parse_topicos _) as [[|it o]|].
  - intros [-> _]%taken_say. together.
  - intros ->%render_cases_fine. together.
  - intros _. together.
Qed.

Lemma run_cases_fine w : taken w (run_cases w) → run_cases w = run_fine w.
Proof.
  unfold run_cases, run_fine.
  destruct (tk_root w); [|done]. destruct (withdraw w); [|done].
  destruct (askopenfilename _ _ _) as [[|c path]|]; [| |done]; intros H%taken_after.
  - apply taken_say in H as [-> _]. together.
  - do 2 apply taken_say in H as [-> H]. apply taken_after in H. rewrite !after_after.
    change (dialog ++ _ ++ _ ++ ?tr) with (opening w (c :: path) ++ tr).
    rewrite <-after_after. revert H.
    destruct (read_pdf _ _) as [conteudo|]; [apply request_cases_fine|intros _; together].
Qed.

Lemma run_main_fine w : console_fine w → run_main w = run_fine w.
Proof. unfold console_fine. rewrite run_main_cases. apply run_cases_fine. Qed.

(** A console that takes every line. *)
Lemma console_fine_all w : (∀ s, console w s = Ok tt) → console_fine w.
Proof. intros Hs. apply Forall_forall. intros s _. apply Hs. Qed.
