(* ===== verification/Doubles.v ===== *)
(** * Doubles: worlds for tests

    The worlds of the witnesses and of the examples: a machine where
    everything works, and the same machine with one answer changed for
    each failure of the error taxonomy of the spec (section 7).  The
    console of these machines is a UTF-8 console: it takes the lines
    that have an encoding. *)

From S2P Require Import Prelude PyStr PyDict Utf8 Parser ParserSpec Extractor Renderer.
From S2P Require Import Outside Requester Pipeline Traces.

(** [print(s)] on a console whose encoding is UTF-8: the bytes of the
    line are written when it has an encoding. *)
Definition utf8_console (s : str) : res unit := _ ← encode s; Ok tt.

(** [print(s)] on a console whose encoding is Latin-1. *)
Definition latin1_console (s : str) : res unit :=
  if forallb (λ c, c <? 256)%N s then Ok tt else Raise UnicodeError.

(** The pages of the file of the tests: the second has no text. *)
Definition aula : list (option str) :=
  [Some (lit "Redes de computadores"); None; Some (lit "TCP e UDP")].

(** A machine where everything works and the model answers [reply]. *)
Definition working (reply : str) : world := {|
  tk_root := Ok tt;
  withdraw := Ok tt;
  askopenfilename := λ _ _, Ok (lit "aula.pdf");
  open_pdf := λ _, Ok tt;
  pdf_pages := λ _, Ok (length aula);
  extract_text := λ _, page_at aula;
  close_pdf := λ _, Ok tt;
  subprocess_run := canned reply;
  exn_str := exn_name;
  which := λ name, if decide (name = lit "dot") then Some (lit "/usr/bin/dot") else None;
  dot_render := λ _ _ _ _, Ok tt;
  console := utf8_console;
|}.

(** The same machine with other answers of the dialog, of pdfplumber, of
    [which] and of the rendering. *)
Definition cancelled : world := set_askopenfilename (λ _ _, Ok []) (working []).
Definition unreadable (reply : str) : world :=
  set_open_pdf (λ _, Raise (OtherError (lit "bad"))) (working reply).
Definition without_dot (reply : str) : world := set_which (λ _, None) (working reply).
Definition disk_full (reply : str) : world :=
  set_dot_render (λ _ _ _ _, Raise (OtherError (lit "disk full"))) (working reply).
Definition headless : world := set_tk_root (Raise (OtherError (lit "no display"))) (working []).

(** A file whose second page cannot be read. *)
Definition torn (reply : str) : world :=
  set_extract_text
    (λ _ pagina, if decide (pagina = 1) then Raise (OtherError (lit "bad page"))
                 else page_at aula pagina)
    (working reply).

(** A machine whose exceptions all read the same. *)
Definition terse (reply : str) : world := set_exn_str (λ _, lit "failed") (working reply).

(** The machine of [terse] without the model. *)
Definition offline : world := set_subprocess_run no_ollama (terse []).

(** The machine of [working] with a console in Latin-1, and with a
    console that fails once the diagram is saved. *)
Definition narrow (reply : str) : world := set_console latin1_console (working reply).
Definition hung_up (reply : str) : world :=
  set_console (λ s, if decide (s = msg_saved) then Raise (OtherError (lit "closed"))
                    else utf8_console s)
              (working reply).

Lemma reads_as_working reply caminho_pdf : reads_as (working reply) caminho_pdf aula.
Proof. split_and!; [done..| |done]. apply page_at_lookup. Qed.

(** A UTF-8 console takes the lines that have an encoding. *)
Lemma utf8_console_takes s : encodable s → utf8_console s = Ok tt.
Proof. intros (bs & Hbs & _)%encodable_encode. unfold utf8_console. by rewrite Hbs. Qed.
