(* ===== verification/Safety.v ===== *)
(** * Safety: what holds of every run (src/main.py, lines 132-154)

    The theorems of this file hold of every world: whatever the
    window system, pdfplumber, the model, Graphviz and the console
    answer, an exception included.  Every call is guarded as the
    program text guards it; the calls follow the order of the program
    text; the file opened is closed; a run that raises nothing ends by
    telling the user how it went; and what is printed and drawn is
    text.  Each is proved along the run in direct style ([run_cases]),
    from what holds of [say], [after], [stop] and [finish]. *)

From stdpp Require Import sorting lexico.
From S2P Require Import Prelude PyStr PyDict Utf8 Parser ParserSpec Extractor Renderer.
From S2P Require Import Outside Requester Pipeline Traces Doubles.

(** ** What the theorems say of a call, of the file and of a message *)

(** What the program text guarantees of a call when it is made: the
    window is withdrawn once it exists, and the dialog is shown once it
    is withdrawn, with its title and its filter; a
    file is opened only if it is the one chosen; its pages are asked
    for, and it is closed, only if it is open; the text of a page is
    asked for only if the page exists and the pages before it have
    answered; the model is run with the command of [codellama] on the
    encoded prompt of the text read; dot is looked for only if the
    outline parsed has a topic; a graph is rendered only if dot is
    found, as [mapa_mental.pdf], and is the graph of that outline. *)
Definition guarded (w : world) (ev : event) : Prop :=
  match ev with
  | EvWithdraw => tk_root w = Ok tt
  | EvAskOpen title filetypes =>
      tk_root w = Ok tt ∧ withdraw w = Ok tt ∧
      title = dialog_title ∧ filetypes = dialog_filetypes
  | EvOpenPdf caminho_pdf => chosen w = Ok caminho_pdf ∧ caminho_pdf ≠ []
  | EvPages caminho_pdf | EvClosePdf caminho_pdf =>
      chosen w = Ok caminho_pdf ∧ open_pdf w caminho_pdf = Ok tt
  | EvExtractText caminho_pdf pagina =>
      chosen w = Ok caminho_pdf ∧ open_pdf w caminho_pdf = Ok tt ∧
      ∃ n, pdf_pages w caminho_pdf = Ok n ∧ pagina < n ∧
           ∀ i, i < pagina → is_ok (extract_text w caminho_pdf i) = true
  | EvRun cmd input =>
      cmd = command codellama ∧
      ∃ caminho_pdf conteudo, chosen w = Ok caminho_pdf ∧
        read_pdf w caminho_pdf = Ok conteudo ∧ encode (prompt conteudo) = Ok input
  | EvWhich name =>
      name = dot_name ∧
      ∃ caminho_pdf conteudo o, chosen w = Ok caminho_pdf ∧
        read_pdf w caminho_pdf = Ok conteudo ∧
        parse_topicos (resposta_of w conteudo) = Ok o ∧ o ≠ []
  | EvRender dot filename format cleanup =>
      dot_found w = true ∧
      (filename, format, cleanup) = (render_filename, render_format, true) ∧
      ∃ caminho_pdf conteudo o, chosen w = Ok caminho_pdf ∧
        read_pdf w caminho_pdf = Ok conteudo ∧
        parse_topicos (resposta_of w conteudo) = Ok o ∧ o ≠ [] ∧ dot = build_graph titulo o
  | _ => True
  end.

(** The file a run holds after an event: none, the file at a path, or
    a misuse (a file opened while another is open, a page read or a
    file closed that is not the open one, any other call or a print
    while a file is open). *)
Inductive handle := Closed | Opened (caminho_pdf : str) | Misused.

Definition handle_step (w : world) (h : handle) (ev : event) : handle :=
  match h, ev with
  | Closed, EvOpenPdf caminho_pdf =>
      if is_ok (open_pdf w caminho_pdf) then Opened caminho_pdf else Closed
  | Closed, (EvPages _ | EvExtractText _ _ | EvClosePdf _) => Misused
  | Closed, _ => Closed
  | Opened p, (EvPages caminho_pdf | EvExtractText caminho_pdf _) =>
      if decide (caminho_pdf = p) then Opened p else Misused
  | Opened p, EvClosePdf caminho_pdf => if decide (caminho_pdf = p) then Closed else Misused
  | Opened _, _ => Misused
  | Misused, _ => Misused
  end.

Definition handle_after (w : world) (tr : list event) : handle := foldl (handle_step w) Closed tr.

(** The messages that tell how a run ended. *)
Definition closing (m : str) : Prop :=
  m = msg_no_pdf ∨ m = msg_no_topics ∨ m = msg_no_graphviz ∨ m = msg_saved ∨
  ∃ e, m = msg_render_error e.

(** An event that is not a call of pdfplumber. *)
Definition is_pdf (ev : event) : bool :=
  match ev with
  | EvOpenPdf _ | EvPages _ | EvExtractText _ _ | EvClosePdf _ => true
  | _ => false
  end.

(** An event that a console which takes text takes. *)
Definition printable (ev : event) : Prop :=
  match ev with EvPrint s => encodable s | _ => True end.

(** The calls of a trace are in the order of the program text, with
    ranks from [k] and below [k']. *)
Definition within (k k' : nat) (tr : list event) : Prop :=
  StronglySorted lexico (rank <$> calls tr) ∧
  Forall (λ p, k ≤ p.1 < k') (rank <$> calls tr).

(** A run that raises nothing ends by a closing message. *)
Definition answered_run (r : run_result) : Prop :=
  uncaught r = None → ∃ m, last (trace r) = Some (EvPrint m) ∧ closing m.

(** A run ends by the message that the diagram is saved or that it is
    not, and raises nothing exactly when the console takes it. *)
Definition reported (w : world) (r : run_result) : Prop :=
  ∃ m, last (trace r) = Some (EvPrint m) ∧ (m = msg_saved ∨ ∃ e, m = msg_render_error e) ∧
       (uncaught r = None ↔ takes w m).

Definition is_render (ev : event) : bool :=
  match ev with EvRender _ _ _ _ => true | _ => false end.

(** ** Properties of every event of a run *)

Section Forall_trace.
Context (Q : event → Prop).

Lemma Forall_after tr r : Forall Q tr → Forall Q (trace r) → Forall Q (trace (after tr r)).
Proof. intros. by apply Forall_app. Qed.

Lemma Forall_say w s r : Q (EvPrint s) → Forall Q (trace r) → Forall Q (trace (say w s r)).
Proof.
  intros. unfold say. destruct (console w s); [by apply Forall_after; [constructor|]|].
  by constructor.
Qed.

Lemma Forall_finish d : Forall Q (trace (finish d)).
Proof. constructor. Qed.

End Forall_trace.

(** Walks along a run in direct style. *)
Ltac walk :=
  repeat first
    [ apply Forall_finish
    | apply Forall_say; [done|]
    | apply Forall_after; [by repeat constructor|] ].

(** ** Every call is guarded *)

Lemma guarded_dialog w : tk_root w = Ok tt → withdraw w = Ok tt → Forall (guarded w) dialog.
Proof. by repeat constructor. Qed.

Lemma guarded_read_events w caminho_pdf :
  chosen w = Ok caminho_pdf → caminho_pdf ≠ [] → Forall (guarded w) (read_events w caminho_pdf).
Proof.
  intros Hc Hp. unfold read_events. constructor; [done|].
  destruct (open_pdf w caminho_pdf) as [[]|] eqn:Eo; [|done]. constructor; [done|].
  apply Forall_app. split; [|by repeat constructor].
  apply Forall_fmap, Forall_forall. intros i Hi%elem_of_pages_read. by split_and!.
Qed.

Lemma guarded_render_cases w caminho_pdf conteudo o :
  chosen w = Ok caminho_pdf → read_pdf w caminho_pdf = Ok conteudo →
  parse_topicos (resposta_of w conteudo) = Ok o → o ≠ [] →
  Forall (guarded w) (trace (render_cases w titulo o)).
Proof.
  intros Hc Eread Eparse ?. unfold render_cases.
  apply Forall_after; [repeat constructor; by exists caminho_pdf, conteudo, o|].
  destruct (dot_found w) eqn:Hdot; [|by walk].
  apply Forall_after; [|destruct (dot_render w _ _ _ _); [destruct (console w _)|]; by walk].
  repeat constructor; [done|]. by exists caminho_pdf, conteudo, o.
Qed.

Lemma guarded_request_cases w caminho_pdf conteudo :
  chosen w = Ok caminho_pdf → read_pdf w caminho_pdf = Ok conteudo →
  Forall (guarded w) (trace (request_cases w conteudo)).
Proof.
  intros Hc Eread. unfold request_cases. walk. apply Forall_after.
  - unfold run_events. destruct (encode _) eqn:He; repeat constructor.
    by exists caminho_pdf, conteudo.
  - walk. destruct (parse_topicos _) as [[|it o]|] eqn:Ep; [by walk| |constructor].
    by eapply guarded_render_cases.
Qed.

Lemma guarded_run_cases w : Forall (guarded w) (trace (run_cases w)).
Proof.
  unfold run_cases.
  destruct (tk_root w) as [[]|] eqn:Etk; [|by repeat constructor].
  destruct (withdraw w) as [[]|] eqn:Ewd; [|by repeat constructor].
  destruct (askopenfilename _ _ _) as [[|c path]|] eqn:Eask;
    [by walk| |by apply guarded_dialog].
  pose proof (chosen_Ok _ _ Etk Ewd Eask) as Hc. walk.
  apply Forall_after; [by apply guarded_read_events|].
  destruct (read_pdf _ _) eqn:Eread; [by eapply guarded_request_cases|constructor].
Qed.

(** ** The file is closed *)

(** The file is closed when reading ends, whatever was read. *)
Lemma handle_pages w caminho_pdf l :
  foldl (handle_step w) (Opened caminho_pdf) (EvExtractText caminho_pdf <$> l) =
    Opened caminho_pdf.
Proof. induction l as [|i l IH]; [done|]. csimpl. by rewrite decide_True. Qed.

Lemma handle_read_events w caminho_pdf :
  foldl (handle_step w) Closed (read_events w caminho_pdf) = Closed.
Proof.
  unfold read_events. cbn [foldl handle_step]. destruct (open_pdf _ _); [|done].
  cbn [foldl handle_step is_ok]. rewrite decide_True, foldl_app, handle_pages by done.
  cbn [foldl handle_step]. by rewrite decide_True.
Qed.

Lemma handle_other w tr :
  Forall (λ ev, is_pdf ev = false) tr → foldl (handle_step w) Closed tr = Closed.
Proof. induction 1 as [|[] tr ? _ IH]; simpl; done. Qed.

Lemma is_pdf_run_events conteudo modelo :
  Forall (λ ev, is_pdf ev = false) (run_events conteudo modelo).
Proof. unfold run_events. destruct (encode _); by repeat constructor. Qed.

Lemma closed_after w tr r :
  handle_after w tr = Closed → handle_after w (trace r) = Closed →
  handle_after w (trace (after tr r)) = Closed.
Proof. unfold handle_after, after. cbn [trace]. rewrite foldl_app. by intros ->. Qed.

Lemma closed_say w s r :
  handle_after w (trace r) = Closed → handle_after w (trace (say w s r)) = Closed.
Proof. intros. unfold say. destruct (console w s); [by apply closed_after|done]. Qed.

(** Walks along a run, for the file. *)
Ltac walk_closed :=
  repeat first
    [ apply closed_say
    | apply closed_after; [first [apply handle_read_events
                                 |apply handle_other, is_pdf_run_events
                                 |reflexivity]|]
    | reflexivity ].

Lemma closed_render_cases w titulo o : handle_after w (trace (render_cases w titulo o)) = Closed.
Proof.
  unfold render_cases.
  destruct (dot_found w); [destruct (dot_render w _ _ _ _); [destruct (console w _)|]|];
    walk_closed.
Qed.

Lemma closed_request_cases w conteudo :
  handle_after w (trace (request_cases w conteudo)) = Closed.
Proof.
  unfold request_cases. do 4 (first [apply closed_say|apply closed_after;
    [apply handle_other, is_pdf_run_events|]]).
  destruct (parse_topicos _) as [[|it o]|]; [walk_closed|apply closed_render_cases|done].
Qed.

Lemma closed_run_cases w : handle_after w (trace (run_cases w)) = Closed.
Proof.
  unfold run_cases.
  destruct (tk_root w); [|done]. destruct (withdraw w); [|done].
  destruct (askopenfilename _ _ _) as [[|c path]|]; [walk_closed| |done].
  apply closed_after; [done|]. do 2 apply closed_say.
  apply closed_after; [apply handle_read_events|].
  destruct (read_pdf _ _); [apply closed_request_cases|done].
Qed.

(** ** The calls are in the order of the program text *)

Lemma StronglySorted_seq j k : StronglySorted lt (seq j k).
Proof.
  revert j. induction k as [|k IH]; intros j; simpl; constructor; [done|].
  apply Forall_seq. lia.
Qed.

(** The order on ranks, by arithmetic. *)
Ltac lexico_lia :=
  unfold lexico, prod_lexico, lexico, nat_lexico in *; simpl in *; lia.

(** Ranks around those of the turns of a loop. *)
Lemma sorted_around_loop (pre post : list (nat * nat)) r k :
  StronglySorted lexico pre → StronglySorted lexico post →
  Forall (λ p, p.1 < r) pre → Forall (λ p, r < p.1) post →
  StronglySorted lexico (pre ++ (pair r <$> seq 0 k) ++ post).
Proof.
  intros Hpre Hpost Hlt Hgt. rewrite Forall_forall in Hlt, Hgt.
  rewrite !StronglySorted_app. split_and!; [|done| | |done].
  - intros p1 p2 H1%Hlt [(i & -> & _)%list_elem_of_fmap|H2%Hgt]%elem_of_app; lexico_lia.
  - intros p1 p2 (i & -> & _)%list_elem_of_fmap H2%Hgt. lexico_lia.
  - apply (StronglySorted_fmap _ lt); [|apply StronglySorted_seq]. intros. lexico_lia.
Qed.

(** The ranks of the calls that read the file. *)
Lemma rank_read_events w caminho_pdf :
  ∃ k, rank <$> read_events w caminho_pdf =
       (3, 0) :: if is_ok (open_pdf w caminho_pdf)
                 then [(4, 0)] ++ (pair 5 <$> seq 0 k) ++ [(6, 0)] else [].
Proof.
  unfold read_events. destruct (open_pdf _ _); [|by exists 0].
  destruct (pages_read_seq (pdf_pages w caminho_pdf) (extract_text w caminho_pdf)) as [k ->].
  exists k. by rewrite !fmap_cons, fmap_app, <-list_fmap_compose.
Qed.

Lemma within_app k m k' tr1 tr2 :
  within k m tr1 → within m k' tr2 → m ≤ k' → k ≤ m → within k k' (tr1 ++ tr2).
Proof.
  intros [Hs1 Hb1] [Hs2 Hb2] ??. unfold within. rewrite calls_app, fmap_app. split.
  - apply StronglySorted_app. split_and!; [|done..].
    rewrite Forall_forall in Hb1, Hb2. intros p1 p2 ?%Hb1 ?%Hb2. lexico_lia.
  - apply Forall_app. split; (eapply Forall_impl; [done|]); simpl; lia.
Qed.

Lemma within_prints k k' ss : within k k' (EvPrint <$> ss).
Proof. unfold within. rewrite calls_EvPrint. by split; constructor. Qed.

Lemma within_after k m k' tr r :
  within k m tr → within m k' (trace r) → m ≤ k' → k ≤ m → within k k' (trace (after tr r)).
Proof. apply within_app. Qed.

Lemma within_say k k' w s r : k ≤ k' → within k k' (trace r) → within k k' (trace (say w s r)).
Proof.
  intros ? Hr. unfold say. destruct (console w s); [|apply (within_prints _ _ [s])].
  by apply (within_after k k); [apply (within_prints _ _ [s])|..].
Qed.

Lemma within_nil k k' : within k k' [].
Proof. by split; constructor. Qed.

Lemma within_call k k' ev : is_print ev = false → k ≤ (rank ev).1 < k' → within k k' [ev].
Proof.
  intros Hev ?. unfold within, calls. rewrite filter_cons_True by done.
  split; repeat constructor; lia.
Qed.

Lemma within_read_events w caminho_pdf : within 3 7 (read_events w caminho_pdf).
Proof.
  unfold within. rewrite calls_read_events.
  destruct (rank_read_events w caminho_pdf) as [k ->]. destruct (is_ok _); [|compute_done].
  split.
  - apply (sorted_around_loop [(3, 0); (4, 0)] [(6, 0)] 5 k); compute_done.
  - repeat (first [apply Forall_cons_2|apply Forall_app_2|apply Forall_nil_2]); simpl; try lia.
    apply Forall_fmap, Forall_true. simpl. lia.
Qed.

Lemma within_run_events k conteudo modelo : k ≤ 7 → within k 8 (run_events conteudo modelo).
Proof.
  intros. unfold run_events. destruct (encode _); [|apply within_nil].
  apply within_call; [done|simpl; lia].
Qed.

Lemma within_render_cases w titulo o : within 8 10 (trace (render_cases w titulo o)).
Proof.
  unfold render_cases. apply (within_after 8 9); [apply within_call; [done|simpl; lia]| |lia..].
  destruct (dot_found w); [|by apply within_say; [lia|apply within_nil]].
  apply (within_after 9 10); [apply within_call; [done|simpl; lia]| |lia..].
  destruct (dot_render w _ _ _ _); [destruct (console w _)|];
    repeat first [apply within_nil|apply within_say; [lia|]
                 |apply (within_after 10 10); [apply (within_prints _ _ [msg_saved])| |lia..]].
Qed.

Lemma within_request_cases w conteudo : within 7 10 (trace (request_cases w conteudo)).
Proof.
  unfold request_cases. apply within_say; [lia|].
  apply (within_after 7 8); [by apply within_run_events| |lia..].
  do 2 (apply within_say; [lia|]).
  destruct (parse_topicos _) as [[|it o]|];
    [apply within_say; [lia|apply within_nil]|apply within_render_cases|apply within_nil].
Qed.

Lemma within_run_cases w : within 0 10 (trace (run_cases w)).
Proof.
  unfold run_cases.
  destruct (tk_root w); [|apply within_call; [done|simpl; lia]].
  destruct (withdraw w); [|by split; compute_done].
  destruct (askopenfilename _ _ _) as [[|c path]|]; [| |by split; compute_done];
    (apply (within_after 0 3); [by split; compute_done| |lia..]).
  - apply within_say; [lia|apply within_nil].
  - do 2 (apply within_say; [lia|]).
    apply (within_after 3 7); [apply within_read_events| |lia..].
    destruct (read_pdf _ _); [apply within_request_cases|apply within_nil].
Qed.

(** ** The user is answered *)

Lemma answered_after tr r : answered_run r → answered_run (after tr r).
Proof.
  intros Hr Hu. destruct (Hr Hu) as (m & Hl & Hm). exists m. split; [|done].
  unfold after. cbn [trace]. by rewrite last_app, Hl.
Qed.

Lemma answered_say w s r : answered_run r → answered_run (say w s r).
Proof. intros. unfold say. destruct (console w s); [by apply answered_after|done]. Qed.

Lemma answered_closing w m d : closing m → answered_run (say w m (finish d)).
Proof. intros Hm. unfold say. destruct (console w m); [|done]. intros _. by exists m. Qed.

Lemma reported_after w tr r : reported w r → reported w (after tr r).
Proof.
  intros (m & Hl & Hm & Hu). exists m. split_and!; [|done..].
  unfold after. cbn [trace]. by rewrite last_app, Hl.
Qed.

Lemma reported_say w m d :
  m = msg_saved ∨ (∃ e, m = msg_render_error e) → reported w (say w m (finish d)).
Proof.
  intros Hm. exists m. unfold say, takes. destruct (console w m) as [[]|]; by split_and!.
Qed.

(** The rendering stage ends by its message. *)
Lemma reported_render_cases w titulo o :
  dot_found w = true → reported w (render_cases w titulo o).
Proof.
  intros Hdot. unfold render_cases. rewrite Hdot. do 2 apply reported_after.
  destruct (dot_render w _ _ _ _); [destruct (console w msg_saved) as [[]|] eqn:Es|].
  - exists msg_saved. unfold takes. by split_and!; [|left|].
  - apply reported_after, reported_say. eauto.
  - apply reported_say. eauto.
Qed.

Lemma answered_render_cases w titulo o : answered_run (render_cases w titulo o).
Proof.
  unfold render_cases. apply answered_after.
  destruct (dot_found w); [|apply answered_closing; unfold closing; auto].
  apply answered_after.
  destruct (dot_render w _ _ _ _); [destruct (console w msg_saved)|].
  - intros _. exists msg_saved. split; [done|]. unfold closing. auto.
  - apply answered_after, answered_closing. unfold closing. eauto 6.
  - apply answered_closing. unfold closing. eauto 6.
Qed.

Lemma answered_request_cases w conteudo : answered_run (request_cases w conteudo).
Proof.
  unfold request_cases. apply answered_say, answered_after. do 2 apply answered_say.
  destruct (parse_topicos _) as [[|it o]|]; [|apply answered_render_cases|done].
  apply answered_closing. unfold closing. auto.
Qed.

Lemma answered_run_cases w : answered_run (run_cases w).
Proof.
  unfold run_cases.
  destruct (tk_root w); [|done]. destruct (withdraw w); [|done].
  destruct (askopenfilename _ _ _) as [[|c path]|]; [| |done]; apply answered_after.
  - apply answered_closing. unfold closing. auto.
  - do 2 apply answered_say. apply answered_after.
    destruct (read_pdf _ _); [apply answered_request_cases|done].
Qed.

(** A rendering is requested in the last stage only. *)
Definition rendering_reported (w : world) (r : run_result) : Prop :=
  Exists (λ ev, is_render ev = true) (trace r) → reported w r.

Lemma rendering_after w tr r :
  Forall (λ ev, is_render ev = false) tr → rendering_reported w r →
  rendering_reported w (after tr r).
Proof.
  intros Htr Hr [H|H]%Exists_app; [|by apply reported_after, Hr].
  apply Exists_exists in H as (ev & Hev & ?). rewrite Forall_forall in Htr.
  apply Htr in Hev. congruence.
Qed.

Lemma rendering_say w s r : rendering_reported w r → rendering_reported w (say w s r).
Proof.
  intros Hr. unfold say. destruct (console w s); [by apply rendering_after; [repeat constructor|]|].
  by intros [?|?%Exists_nil]%Exists_cons.
Qed.

Lemma rendering_none w tr d e :
  Forall (λ ev, is_render ev = false) tr → rendering_reported w (RunResult tr d e).
Proof.
  intros Htr (ev & Hev & ?)%Exists_exists. rewrite Forall_forall in Htr.
  apply Htr in Hev. congruence.
Qed.

Lemma is_render_read_events w caminho_pdf :
  Forall (λ ev, is_render ev = false) (read_events w caminho_pdf).
Proof.
  unfold read_events. constructor; [done|]. destruct (open_pdf _ _); [|done].
  constructor; [done|]. apply Forall_app. split; [|by repeat constructor].
  by apply Forall_fmap, Forall_true.
Qed.

Lemma is_render_run_events conteudo modelo :
  Forall (λ ev, is_render ev = false) (run_events conteudo modelo).
Proof. unfold run_events. destruct (encode _); by repeat constructor. Qed.

Lemma rendering_render_cases w titulo o : rendering_reported w (render_cases w titulo o).
Proof.
  destruct (dot_found w) eqn:Hdot; [by intros _; apply reported_render_cases|].
  unfold render_cases. rewrite Hdot. apply rendering_after; [by repeat constructor|].
  apply rendering_say, rendering_none. constructor.
Qed.

Lemma rendering_request_cases w conteudo : rendering_reported w (request_cases w conteudo).
Proof.
  unfold request_cases. apply rendering_say, rendering_after; [apply is_render_run_events|].
  do 2 apply rendering_say.
  destruct (parse_topicos _) as [[|it o]|];
    [apply rendering_say|apply rendering_render_cases|]; apply rendering_none; constructor.
Qed.

Lemma rendering_run_cases w : rendering_reported w (run_cases w).
Proof.
  unfold run_cases.
  destruct (tk_root w); [|by apply rendering_none; repeat constructor].
  destruct (withdraw w); [|by apply rendering_none; repeat constructor].
  destruct (askopenfilename _ _ _) as [[|c path]|];
    [| |by apply rendering_none; repeat constructor];
    (apply rendering_after; [by repeat constructor|]).
  - apply rendering_say, rendering_none. constructor.
  - do 2 apply rendering_say. apply rendering_after; [apply is_render_read_events|].
    destruct (read_pdf _ _); [apply rendering_request_cases|apply rendering_none; constructor].
Qed.

(** ** What is printed and drawn is text *)

Lemma resposta_of_encodable w conteudo :
  (∀ e, encodable (exn_str w e)) → encodable (resposta_of w conteudo).
Proof. apply gerar_topicos_ollama_encodable. Qed.

(** ** What is printed is text *)

Lemma msgs_encodable :
  Forall encodable [msg_no_pdf; msg_extracting; msg_generating; msg_header; msg_no_topics;
                    msg_no_graphviz; msg_saved].
Proof. compute_done. Qed.

Lemma msg_selected_encodable caminho_pdf : encodable caminho_pdf → encodable (msg_selected caminho_pdf).
Proof. intros Hp. apply Forall_app. split; [compute_done|done]. Qed.

Lemma msg_render_error_encodable e : encodable e → encodable (msg_render_error e).
Proof. intros He. apply Forall_app. split; [compute_done|done]. Qed.

Lemma prints_printable tr : Forall printable tr → Forall encodable (prints tr).
Proof.
  unfold prints. induction 1 as [|ev tr Hev _ IH]; [done|]. destruct ev; csimpl; try done.
  by constructor.
Qed.

Section printable.
Context (w : world) (Hstr : ∀ e, encodable (exn_str w e)).

Lemma printable_render_cases titulo o : Forall printable (trace (render_cases w titulo o)).
Proof.
  pose proof msgs_encodable as Hm. rewrite !Forall_cons in Hm. destruct_and!.
  assert (∀ e, printable (EvPrint (msg_render_error (exn_str w e))))
    by (intros e; apply msg_render_error_encodable, Hstr).
  unfold render_cases. walk.
  destruct (dot_found w); [|by walk]. walk.
  destruct (dot_render w _ _ _ _); [destruct (console w _)|]; by walk.
Qed.

Lemma printable_request_cases conteudo : Forall printable (trace (request_cases w conteudo)).
Proof.
  pose proof msgs_encodable as Hm. rewrite !Forall_cons in Hm. destruct_and!.
  pose proof (resposta_of_encodable w conteudo Hstr).
  unfold request_cases. walk. apply Forall_after.
  - unfold run_events. destruct (encode _); by repeat constructor.
  - walk. destruct (parse_topicos _) as [[|it o]|];
      [by walk|apply printable_render_cases|constructor].
Qed.

Lemma printable_run_cases :
  (∀ caminho_pdf, chosen w = Ok caminho_pdf → encodable caminho_pdf) →
  Forall printable (trace (run_cases w)).
Proof.
  intros Hpath. pose proof msgs_encodable as Hm. rewrite !Forall_cons in Hm. destruct_and!.
  unfold run_cases.
  destruct (tk_root w) as [[]|] eqn:Etk; [|by repeat constructor].
  destruct (withdraw w) as [[]|] eqn:Ewd; [|by repeat constructor].
  destruct (askopenfilename _ _ _) as [[|c path]|] eqn:Eask;
    [by walk| |by repeat constructor].
  pose proof (msg_selected_encodable _ (Hpath _ (chosen_Ok _ _ Etk Ewd Eask))).
  walk. apply Forall_after.
  - unfold read_events. constructor; [done|]. destruct (open_pdf _ _); [|done].
    constructor; [done|]. apply Forall_app. split; [|by repeat constructor].
    by apply Forall_fmap, Forall_true.
  - destruct (read_pdf _ _); [apply printable_request_cases|constructor].
Qed.

End printable.

(** The diagram a run says it saved is the graph of the outline of a
    reply. *)
Lemma diagram_say w s r g : diagram (say w s r) = Some g → diagram r = Some g.
Proof. unfold say. by destruct (console w s). Qed.

Lemma diagram_render_cases w titulo o g :
  diagram (render_cases w titulo o) = Some g → g = build_graph titulo o.
Proof.
  unfold render_cases, after. cbn [diagram].
  destruct (dot_found w); [destruct (dot_render w _ _ _ _); [destruct (console w _)|]|];
    cbn [diagram finish]; try intros ?%diagram_say; cbn [diagram finish] in *; congruence.
Qed.

Lemma diagram_request_cases w conteudo g :
  diagram (request_cases w conteudo) = Some g →
  ∃ o, parse_topicos (resposta_of w conteudo) = Ok o ∧ g = build_graph titulo o.
Proof.
  unfold request_cases. intros H%diagram_say. unfold after in H. cbn [diagram] in H.
  do 2 apply diagram_say in H.
  destruct (parse_topicos _) as [[|it o]|]; [by apply diagram_say in H| |done].
  apply diagram_render_cases in H. eauto.
Qed.

Lemma diagram_run_cases w g :
  diagram (run_cases w) = Some g →
  ∃ conteudo o, parse_topicos (resposta_of w conteudo) = Ok o ∧ g = build_graph titulo o.
Proof.
  unfold run_cases.
  destruct (tk_root w); [|done]. destruct (withdraw w); [|done].
  destruct (askopenfilename _ _ _) as [[|c path]|]; [| |done];
    unfold after at 1; cbn [diagram]; intros H%diagram_say; [done|].
  apply diagram_say in H. unfold after in H. cbn [diagram] in H.
  destruct (read_pdf _ _); [|done]. apply diagram_request_cases in H. eauto.
Qed.

(** ** The theorems *)

(** C14: every call of a run is guarded as the program text guards it,
    whatever the outside and the console answer: the window is
    withdrawn once it exists and the dialog shown once it is
    withdrawn, the file opened is the one chosen, a page is read only
    of the open file and after the pages before it, the model is run
    on the encoded prompt of the text read, dot is looked for only
    when the outline parsed from the reply has a topic, and a graph is
    rendered only when dot is found, under the fixed name and format,
    and is the graph of that outline. *)
Theorem run_main_guarded w : Forall (guarded w) (trace (run_main w)).
Proof. rewrite run_main_cases. apply guarded_run_cases. Qed.

(** C17: the outside is called in the order of the program text, the
    pages of the file in their order, and each call is made at most
    once: the root window, its withdrawal, the dialog, the file, its
    pages, the text of each, the closing of the file, the model, the
    search for dot, the rendering. *)
Theorem run_main_call_order w :
  StronglySorted lexico (rank <$> calls (trace (run_main w))).
Proof. rewrite run_main_cases. apply within_run_cases. Qed.

(** C11: the file is closed.  In every run the calls of pdfplumber
    follow the protocol of the [with] block: nothing is asked of a file
    that is not open, a second file is not opened while one is open,
    nothing else is called or printed while the file is open, and at
    the end of the run no file is open, whether the run ends normally,
    by an exception of a page, of the parser or of the console, or by
    any other exception. *)
Theorem run_main_closes w : handle_after w (trace (run_main w)) = Closed.
Proof. rewrite run_main_cases. apply closed_run_cases. Qed.

(** C16: the user is answered.  A run that no exception ends finishes
    by printing one of the closing messages; and once a rendering is
    requested the last thing the run does is to print that the diagram
    is saved or why it is not, and it raises nothing exactly when the
    console takes that line. *)
Theorem run_main_responds w :
  let r := run_main w in
  (uncaught r = None → ∃ m, last (trace r) = Some (EvPrint m) ∧ closing m) ∧
  (∀ dot filename format cleanup, EvRender dot filename format cleanup ∈ trace r →
     ∃ m, last (trace r) = Some (EvPrint m) ∧
          (m = msg_saved ∨ ∃ e, m = msg_render_error e) ∧
          (uncaught r = None ↔ console w m = Ok tt)).
Proof.
  cbn zeta. rewrite run_main_cases. split; [apply answered_run_cases|].
  intros dot filename format cleanup H. apply rendering_run_cases, Exists_exists.
  by eexists.
Qed.

(** C18: text stays text.  When the texts of the exceptions are made of
    scalar values, so is every str of a diagram saved, its comment, the
    keys and the labels of its nodes and the ends of its edges: the
    source handed to Graphviz can be written in UTF-8, whatever the
    file and the model hold.  When the path chosen is too, so is every
    line the run prints. *)
Theorem run_main_encodable w :
  (∀ e, encodable (exn_str w e)) →
  (∀ g, diagram (run_main w) = Some g → Forall encodable (strings g)) ∧
  ((∀ caminho_pdf, chosen w = Ok caminho_pdf → encodable caminho_pdf) →
   Forall encodable (stdout (run_main w))).
Proof.
  intros Hstr. rewrite run_main_cases. split.
  - intros g (conteudo & o & Ho & ->)%diagram_run_cases.
    apply build_graph_strings_chars; [apply ascii_is_scalar|compute_done|].
    eapply parse_topicos_chars; [by apply resposta_of_encodable|done].
  - intros Hpath. by apply prints_printable, printable_run_cases.
Qed.

Lemma run_main_encodable_witness :
  Forall encodable (strings (build_graph titulo (outline_of scenario1))).
Proof.
  refine (proj1 (run_main_encodable (terse scenario1) _) _ _);
    [intros e; compute_done|by vm_compute].
Defined.

(** The protocol of the file: a page read after the file is closed, a
    file left open and a print while the file is open are misuses or
    leave the file open; the run on a page that cannot be read is
    neither. *)
Example handle_after_examples :
  let p := lit "aula.pdf" in
  let w := torn scenario1 in
  handle_after w [EvOpenPdf p; EvPages p; EvClosePdf p; EvExtractText p 0] = Misused ∧
  handle_after w [EvOpenPdf p; EvPages p; EvExtractText p 0; EvExtractText p 1] = Opened p ∧
  handle_after w [EvOpenPdf p; EvPrint msg_generating; EvClosePdf p] = Misused ∧
  handle_after (unreadable scenario1) [EvOpenPdf p; EvPrint msg_generating] = Closed ∧
  handle_after w (trace (run_main w)) = Closed.
Proof. by vm_compute. Qed.
