(* ===== verification/Runs.v ===== *)
(** * Runs: the runs of [main] on a console that takes their lines
    (src/main.py, lines 132-154)

    When the console takes the lines of a run ([console_fine]) the run
    is one of the cases of [run_fine].  The theorems say, for such a
    run, when it ends with an exception, when a diagram is rendered and
    of which outline, and what is printed; they give the whole run
    when everything works and when the model gives no answer.  What
    holds of every run, whatever the console does, is in [Safety]; the
    runs on a console that refuses a line are in [Console]. *)

From S2P Require Import Prelude PyStr PyDict Utf8 Parser ParserSpec Extractor Renderer.
From S2P Require Import Outside Requester Source Pipeline Traces Doubles.

(** ** The run of a world whose dialog and file are known *)

Lemma run_fine_read w caminho_pdf conteudo :
  chosen w = Ok caminho_pdf → caminho_pdf ≠ [] → read_pdf w caminho_pdf = Ok conteudo →
  run_fine w =
    match parse_topicos (resposta_of w conteudo) with
    | Raise e => RunResult (progress w caminho_pdf conteudo) None (Some e)
    | Ok [] => RunResult (progress w caminho_pdf conteudo ++ [EvPrint msg_no_topics]) None None
    | Ok o =>
        RunResult (progress w caminho_pdf conteudo ++ render_events w titulo o)
                  (rendered (render_fine w titulo o)) None
    end.
Proof.
  intros (Htk & Hwd & Hc)%chosen_inv Hp Ho. unfold run_fine. rewrite Htk, Hwd, Hc.
  destruct caminho_pdf as [|c path]; [done|]. by rewrite Ho.
Qed.

(** The requester of a world, as a source. *)
Definition world_source (w : world) (Hstr : ∀ e, one_line (exn_str w e)) : OutlineSource :=
  ollama_source (subprocess_run w) (exn_str w) Hstr.

Lemma resposta_of_outline_from w Hstr conteudo :
  parse_topicos (resposta_of w conteudo) = outline_from (H := world_source w Hstr) conteudo.
Proof. done. Qed.


(** ** Runs *)

#[local] Opaque resposta_of run_events render_events progress opening dialog read_events
  read_pdf.

Lemma parse_topicos_malformed resposta :
  existsb malformed (splitlines resposta) = true → parse_topicos resposta = Raise IndexError.
Proof. intros Hm. by apply parse_topicos_Raise. Qed.

(** Case analysis on the way a run takes through [main], on a console
    that takes its lines. *)
Ltac run_fine w :=
  rewrite ?(run_main_fine w) by assumption; unfold run_fine, chosen;
  destruct (tk_root w) as [[]|?e] eqn:Etk; cbn [mbind res_bind];
  [destruct (withdraw w) as [[]|?e] eqn:Ewd; cbn [mbind res_bind];
   [destruct (askopenfilename w _ _) as [[|?c ?path]|?e] eqn:Eask;
    [| destruct (read_pdf w _) as [?conteudo|?e] eqn:Eread;
       [destruct (parse_topicos (resposta_of w _)) as [[|?it ?o]|?e] eqn:Eparse|]
     |]
   |]
  |];
  cbn [trace diagram uncaught stdout].

(** C10: on a console that takes its lines a run ends with an exception
    nobody catches in three cases only: the window system raises it
    when the window is made or withdrawn or the dialog is shown,
    pdfplumber raises it when the file is opened, read or closed, or
    the reply has a topic line without a colon and the parser raises
    [IndexError].  A cancelled run raises nothing. *)
Theorem run_main_uncaught w e :
  console_fine w →
  uncaught (run_main w) = Some e ↔
  chosen w = Raise e ∨
  ∃ caminho_pdf, chosen w = Ok caminho_pdf ∧ caminho_pdf ≠ [] ∧
    (read_pdf w caminho_pdf = Raise e ∨
     ∃ conteudo, read_pdf w caminho_pdf = Ok conteudo ∧ e = IndexError ∧
                 existsb malformed (splitlines (resposta_of w conteudo)) = true).
Proof.
  intros Hf. run_fine w; (split; [intros [= <-]|
    intros [|(? & ? & ? & [|(? & ? & ? & Hm)])];
    try (apply parse_topicos_malformed in Hm); congruence]); try by left.
  - apply parse_topicos_Raise in Eparse as [-> Hm].
    right. eexists. split_and!; [done..|]. right. eauto.
  - right. eexists. split_and!; [done..|]. by left.
Qed.

(** C27: on a console that takes its lines a diagram is rendered exactly
    when a file is chosen and read, the reply parses to an outline
    that is not empty, dot is found and rendering does not fail; it is
    then the graph of that outline under the title of the study. *)
Theorem run_main_diagram w g :
  console_fine w →
  diagram (run_main w) = Some g ↔
  ∃ caminho_pdf conteudo o,
    chosen w = Ok caminho_pdf ∧ caminho_pdf ≠ [] ∧ read_pdf w caminho_pdf = Ok conteudo ∧
    parse_topicos (resposta_of w conteudo) = Ok o ∧ o ≠ [] ∧
    dot_found w = true ∧ render w g = None ∧ g = build_graph titulo o.
Proof.
  intros Hf.
  run_fine w; try (split; [done|]; intros (? & ? & ? & ? & ? & ? & ? & ? & _); congruence).
  unfold render_fine. rewrite criar_mapa_mental_rendered. split.
  - intros (? & ? & _ & ->). eexists _, _, _. split_and!; try done.
  - intros (? & ? & o' & Hc & _ & Ho & Hp & _ & ? & ? & ->).
    assert (o' = it :: o) as -> by congruence. done.
Qed.

(** C36: what a run prints on a console that takes its lines: nothing
    when the dialog cannot be shown; the cancellation message alone;
    the two lines that precede the extraction when the file cannot be
    read; or these, the announcement, the header and the reply,
    followed, unless the parser raises, by exactly one closing
    message. *)
Theorem run_main_stdout w :
  console_fine w →
  let out := stdout (run_main w) in
  (∃ e, chosen w = Raise e ∧ out = []) ∨
  (chosen w = Ok [] ∧ out = [msg_no_pdf]) ∨
  ∃ caminho_pdf, chosen w = Ok caminho_pdf ∧ caminho_pdf ≠ [] ∧
    ((∃ e, read_pdf w caminho_pdf = Raise e ∧
           out = [msg_selected caminho_pdf; msg_extracting]) ∨
     ∃ conteudo, read_pdf w caminho_pdf = Ok conteudo ∧
       let said := [msg_selected caminho_pdf; msg_extracting; msg_generating; msg_header;
                    resposta_of w conteudo] in
       (out = said ∧ uncaught (run_main w) = Some IndexError ∨
        ∃ m, out = said ++ [m] ∧ uncaught (run_main w) = None ∧
             (m = msg_no_topics ∨ m = msg_no_graphviz ∨ m = msg_saved ∨
              ∃ e, m = msg_render_error e))).
Proof.
  intros Hf. unfold stdout. run_fine w; [by right; left| | | | |left; eauto..];
    right; right; eexists; (split_and!; [done..|]); [right; eexists; split; [done|]..|left; eauto].
  - right. exists msg_no_topics. rewrite prints_app, prints_progress. auto.
  - right. rewrite prints_app, prints_progress, prints_render_events.
    destruct (criar_mapa_mental_printed (dot_found w) (render w) (exn_str w) titulo (it :: o))
      as (m & Hp & Hm). unfold render_fine. rewrite Hp. exists m. auto.
  - left. rewrite prints_progress. by apply parse_topicos_Raise in Eparse as [-> _].
  - eexists. split; [done|]. apply prints_opening.
Qed.

(** C4: the run where everything works.  A file is chosen, opens,
    answers for each of its pages and closes, the model answers a
    reply without a malformed line and with a topic, dot is found and
    renders, and the console takes the lines: the run calls the
    outside in this order, prints these lines, renders the graph of the
    outline of the reply and raises nothing. *)
Theorem run_main_end_to_end w caminho_pdf pts input bs reply :
  chosen w = Ok caminho_pdf → caminho_pdf ≠ [] → reads_as w caminho_pdf pts →
  encode (prompt (extract_pages pts)) = Ok input →
  subprocess_run w (command codellama) input = Ok bs → decode bs = Ok reply →
  existsb malformed (splitlines reply) = false → outline_of reply ≠ [] →
  dot_found w = true → render w (build_graph titulo (outline_of reply)) = None →
  console_fine w →
  let dot := build_graph titulo (outline_of reply) in
  run_main w =
    RunResult ([EvTk; EvWithdraw; EvAskOpen dialog_title dialog_filetypes;
                EvPrint (msg_selected caminho_pdf); EvPrint msg_extracting;
                EvOpenPdf caminho_pdf; EvPages caminho_pdf] ++
               (EvExtractText caminho_pdf <$> seq 0 (length pts)) ++
               [EvClosePdf caminho_pdf; EvPrint msg_generating;
                EvRun (command codellama) input; EvPrint msg_header; EvPrint (strip reply);
                EvWhich dot_name; EvRender dot render_filename render_format true;
                EvPrint msg_saved])
              (Some dot) None.
Proof.
  intros Hc Hp Hpts He Hr Hd Hm Hne Hdot Hrender Hf dot.
  pose proof (parse_topicos_well_formed _ Hm) as Hparse.
  assert (strip reply ≠ []) as Hs by (intros Hs%parse_topicos_blank; congruence).
  assert (read_pdf w caminho_pdf = Ok (extract_pages pts)) as Ho
    by (apply read_pdf_Ok; eauto).
  rewrite (run_main_fine _ Hf), (run_fine_read _ _ _ Hc Hp Ho).
  rewrite (parse_resposta_of _ _ _ _ _ He Hr Hd), Hparse. subst dot.
  destruct (outline_of reply) as [|it o]; [done|].
  rewrite render_events_saved by done. unfold render_fine, criar_mapa_mental.
  rewrite Hdot, Hrender.
  rewrite (progress_answer _ _ _ _ _ _ He Hr Hd Hs), (read_events_pages _ _ _ Hpts).
  f_equal. rewrite <-!app_assoc. cbn [app]. by rewrite <-!app_assoc.
Qed.

(** C20: the run where the model gives no answer: the prompt has no
    encoding, the process cannot be run or fails, or what it writes
    is not UTF-8.  When the text of an exception is a single line the
    diagnostic printed in place of the reply holds no topic: on a
    console that takes its lines the run prints that no diagram could
    be made, does not look for dot, renders nothing and raises
    nothing. *)
Theorem run_main_no_answer w caminho_pdf conteudo :
  (∀ e, one_line (exn_str w e)) →
  chosen w = Ok caminho_pdf → caminho_pdf ≠ [] → read_pdf w caminho_pdf = Ok conteudo →
  answered (subprocess_run w) conteudo codellama = None →
  console_fine w →
  run_main w =
    RunResult (progress w caminho_pdf conteudo ++ [EvPrint msg_no_topics]) None None.
Proof.
  intros Hstr Hc Hp Ho Ha Hf. rewrite (run_main_fine _ Hf), (run_fine_read _ _ _ Hc Hp Ho).
  rewrite (resposta_of_outline_from w Hstr), outline_from_spec.
  by rewrite (Ha : model_reply (OutlineSource := world_source w Hstr) _ = None).
Qed.

(** ** The theorems at the machines of the tests *)

Lemma run_main_uncaught_witness :
  uncaught (run_main (torn scenario1)) = Some (OtherError (lit "bad page")).
Proof.
  apply run_main_uncaught; [compute_done|].
  right. exists (lit "aula.pdf"). split_and!; [reflexivity|done|left; by vm_compute].
Defined.

Lemma run_main_diagram_witness :
  diagram (run_main (working scenario1)) = Some (build_graph titulo (outline_of scenario1)).
Proof.
  apply run_main_diagram; [compute_done|].
  exists (lit "aula.pdf"), (extract_pages aula), (outline_of scenario1).
  split_and!; [reflexivity|done|by vm_compute|by vm_compute|compute_done|reflexivity..].
Defined.

Lemma run_main_stdout_witness : stdout (run_main cancelled) = [msg_no_pdf].
Proof.
  destruct (run_main_stdout cancelled) as [(e & H & _)|[[_ H]|(p & H & Hp & _)]];
    [compute_done|discriminate H|exact H|].
  by injection H as <-.
Defined.

Lemma run_main_no_answer_witness :
  run_main offline =
    RunResult (progress offline (lit "aula.pdf") (extract_pages aula) ++
               [EvPrint msg_no_topics]) None None.
Proof.
  apply run_main_no_answer;
    [intros e; compute_done|reflexivity|done|by vm_compute|by vm_compute|compute_done].
Defined.

Lemma run_main_end_to_end_witness :
  ∃ input,
    run_main (working scenario1) =
      RunResult [EvTk; EvWithdraw; EvAskOpen dialog_title dialog_filetypes;
                 EvPrint (msg_selected (lit "aula.pdf")); EvPrint msg_extracting;
                 EvOpenPdf (lit "aula.pdf"); EvPages (lit "aula.pdf");
                 EvExtractText (lit "aula.pdf") 0; EvExtractText (lit "aula.pdf") 1;
                 EvExtractText (lit "aula.pdf") 2; EvClosePdf (lit "aula.pdf");
                 EvPrint msg_generating;
                 EvRun (command codellama) input; EvPrint msg_header;
                 EvPrint (strip scenario1); EvWhich dot_name;
                 EvRender (build_graph titulo (outline_of scenario1))
                          render_filename render_format true;
                 EvPrint msg_saved]
                (Some (build_graph titulo (outline_of scenario1))) None.
Proof.
  eexists.
  eapply (run_main_end_to_end (working scenario1) (lit "aula.pdf") aula);
    [reflexivity|done|apply reads_as_working|reflexivity|reflexivity|by vm_compute
    |by vm_compute|compute_done|reflexivity|reflexivity|compute_done].
Defined.

(** The runs of the error taxonomy: no display, cancellation, a file
    that does not open, a page that cannot be read (the file is closed
    all the same), a missing model and hence no topic, no dot, a
    failing render; and a reply with a topic line without a colon. *)
Example run_main_examples :
  run_main headless = RunResult [EvTk] None (Some (OtherError (lit "no display"))) ∧
  run_main cancelled =
    RunResult [EvTk; EvWithdraw; EvAskOpen dialog_title dialog_filetypes; EvPrint msg_no_pdf]
              None None ∧
  stdout (run_main (unreadable scenario1)) = [msg_selected (lit "aula.pdf"); msg_extracting] ∧
  uncaught (run_main (unreadable scenario1)) = Some (OtherError (lit "bad")) ∧
  last (trace (run_main (unreadable scenario1))) = Some (EvOpenPdf (lit "aula.pdf")) ∧
  calls (trace (run_main (torn scenario1))) =
    dialog ++ [EvOpenPdf (lit "aula.pdf"); EvPages (lit "aula.pdf");
               EvExtractText (lit "aula.pdf") 0; EvExtractText (lit "aula.pdf") 1;
               EvClosePdf (lit "aula.pdf")] ∧
  uncaught (run_main (torn scenario1)) = Some (OtherError (lit "bad page")) ∧
  stdout (run_main (set_pdf_pages (λ _, Ok 0) (set_subprocess_run no_ollama (working [])))) =
    [msg_selected (lit "aula.pdf"); msg_extracting; msg_generating; msg_header;
     msg_not_found; msg_no_topics] ∧
  last (trace (run_main (without_dot scenario1))) = Some (EvPrint msg_no_graphviz) ∧
  last (stdout (run_main (disk_full scenario1))) = Some (msg_render_error (lit "disk full")) ∧
  diagram (run_main (disk_full scenario1)) = None ∧
  uncaught (run_main (working (ulit "* Tópico sem nome"))) = Some IndexError.
Proof. by vm_compute. Qed.
