(* ===== verification/Console.v ===== *)
(** * Console: the runs on a console that refuses a line
    (src/main.py, lines 124-128 and 132-154)

    [print] raises when the console cannot take a line: a console
    whose encoding lacks a character of the line, a closed pipe.  No
    [print] of [main] is in a [try]; the one that says the diagram is
    saved is in the [try] of [criar_mapa_mental].  So a line refused
    ends the run with the exception of the console, except that one,
    after which the run reports a rendering error although the file is
    written.  Every run has its lines taken, and is then a run of
    [Runs], or has a line refused.  The last theorem gives a console
    on which no line of a run is refused. *)

From S2P Require Import Prelude PyStr PyDict Utf8 Parser ParserSpec Extractor Renderer.
From S2P Require Import Outside Requester Pipeline Traces Doubles Safety.

(** What a run does with a line [s] that the console refuses with [e],
    once it prints it. *)
Definition refused_run (w : world) (s : str) (e : exn) (r : run_result) : Prop :=
  EvPrint s ∈ trace r →
  diagram r = None ∧
  ([EvPrint s] `suffix_of` trace r ∧ uncaught r = Some e ∨
   s = msg_saved ∧ ∃ dot,
     dot_render w dot render_filename render_format true = Ok tt ∧
     [EvRender dot render_filename render_format true; EvPrint msg_saved;
      EvPrint (msg_render_error (exn_str w e))] `suffix_of` trace r ∧
     (uncaught r = None ↔ takes w (msg_render_error (exn_str w e)))).

(** ** A line refused *)

Lemma call_not_print tr s : calls tr = tr → EvPrint s ∉ tr.
Proof. by intros <- [? _]%list_elem_of_filter. Qed.

Lemma trace_say_finish w m d : trace (say w m (finish d)) = [EvPrint m].
Proof. unfold say. by destruct (console w m). Qed.

Lemma uncaught_say_finish w m d : uncaught (say w m (finish d)) = None ↔ takes w m.
Proof. unfold say, takes. by destruct (console w m) as [[]|]. Qed.

Lemma diagram_say_finish w m : diagram (say w m (finish None)) = None.
Proof. unfold say. by destruct (console w m). Qed.

Section refused.
Context (w : world) (s : str) (e : exn).
Hypothesis refuses : console w s = Raise e.

Lemma refused_after tr r :
  EvPrint s ∉ tr → refused_run w s e r → refused_run w s e (after tr r).
Proof.
  intros Hn Hr [?|Hin]%elem_of_app; [done|].
  destruct (Hr Hin) as [Hd [[Hl Hu]|(-> & dot & Hdot & Hl & Hu)]]; (split; [done|]).
  - left. split; [by apply suffix_app_r|done].
  - right. split; [done|]. exists dot. split_and!; [done|by apply suffix_app_r|done].
Qed.

Lemma refused_call ev r :
  is_print ev = false → refused_run w s e r → refused_run w s e (after [ev] r).
Proof. intros Hev. apply refused_after. intros <-%list_elem_of_singleton. done. Qed.

Lemma refused_say s' r : refused_run w s e r → refused_run w s e (say w s' r).
Proof.
  intros Hr. unfold say. destruct (console w s') eqn:E.
  - apply refused_after; [|done]. intros [= ->]%list_elem_of_singleton. congruence.
  - intros [= ->]%list_elem_of_singleton. split; [done|]. left. split; [done|]. simpl. congruence.
Qed.

Lemma refused_finish d : refused_run w s e (finish d).
Proof. by intros ?%elem_of_nil. Qed.

Lemma refused_stop e' : refused_run w s e (stop [] e').
Proof. by intros ?%elem_of_nil. Qed.

(** The line printed last. *)
Lemma refused_last m : refused_run w s e (say w m (finish None)).
Proof. apply refused_say, refused_finish. Qed.

(** The rendering has succeeded and the console refuses to say so. *)
Lemma refused_saved dot e0 :
  dot_render w dot render_filename render_format true = Ok tt →
  console w msg_saved = Raise e0 →
  refused_run w s e
    (after [EvRender dot render_filename render_format true]
       (after [EvPrint msg_saved] (say w (msg_render_error (exn_str w e0)) (finish None)))).
Proof.
  intros Hdot Hsaved. destruct (decide (s = msg_saved)) as [->|Hne].
  - assert (e0 = e) as -> by congruence. intros _.
    unfold after. cbn [trace diagram uncaught]. rewrite trace_say_finish.
    split; [apply diagram_say_finish|]. right. split; [done|]. exists dot.
    split_and!; [done..|apply uncaught_say_finish].
  - apply refused_call; [done|]. apply refused_after; [|apply refused_last].
    by intros [= ->]%list_elem_of_singleton.
Qed.

Lemma refused_render_cases titulo o : refused_run w s e (render_cases w titulo o).
Proof.
  unfold render_cases. apply refused_call; [done|].
  destruct (dot_found w); [|apply refused_last].
  destruct (dot_render w _ _ _ _) as [[]|e0] eqn:Hdot;
    [destruct (console w msg_saved) as [[]|e1] eqn:Hsaved|].
  - apply refused_call; [done|].
    rewrite <-(say_takes w msg_saved) by done. apply refused_say, refused_finish.
  - by apply refused_saved.
  - apply refused_call; [done|]. apply refused_last.
Qed.

Lemma refused_request_cases conteudo : refused_run w s e (request_cases w conteudo).
Proof.
  unfold request_cases. apply refused_say, refused_after.
  { apply call_not_print, calls_run_events. }
  do 2 apply refused_say.
  destruct (parse_topicos _) as [[|it o]|];
    [apply refused_last|apply refused_render_cases|apply refused_stop].
Qed.

Lemma refused_run_cases : refused_run w s e (run_cases w).
Proof.
  unfold run_cases.
  destruct (tk_root w); [|by intros [=]%list_elem_of_singleton].
  destruct (withdraw w); [|by intros [[=]|[=]%list_elem_of_singleton]%elem_of_cons].
  destruct (askopenfilename _ _ _) as [[|c path]|];
    [| |by intros Hin; repeat apply elem_of_cons in Hin as [[=]|Hin]; apply elem_of_nil in Hin];
    (apply refused_after; [by apply call_not_print|]); [apply refused_last|].
  do 2 apply refused_say. apply refused_after; [apply call_not_print, calls_read_events|].
  destruct (read_pdf _ _); [apply refused_request_cases|apply refused_stop].
Qed.

End refused.

(** ** A run has its lines taken, or one refused *)

Lemma elem_of_prints tr s : s ∈ prints tr ↔ EvPrint s ∈ tr.
Proof.
  unfold prints. rewrite list_elem_of_omap. split; [|by exists (EvPrint s)].
  by intros ([] & ? & [= ->]).
Qed.

Lemma console_fine_or_refused w :
  console_fine w ∨ ∃ s e, EvPrint s ∈ trace (run_main w) ∧ console w s = Raise e.
Proof.
  destruct (decide (console_fine w)) as [|Hn]; [by left|right].
  apply not_Forall_Exists, Exists_exists in Hn as (s & Hs%elem_of_prints & Ht); [|apply _].
  exists s. unfold takes in Ht. simpl in Ht. destruct (console w s) as [[]|e]; [done|by exists e].
Qed.

(** ** The theorems *)

(** C12: a line the console refuses.  Once a run prints a line that the
    console refuses, no diagram is reported.  The line is the last
    thing the run does and the exception of the console ends the run;
    except when the line is the message that the diagram is saved: the
    rendering has then succeeded and the file is written, the [except]
    of [criar_mapa_mental] takes the exception of the console, and the
    run ends by printing that the diagram could not be made, with the
    text of that exception. *)
Theorem run_main_refused w s e :
  console w s = Raise e → EvPrint s ∈ trace (run_main w) →
  let r := run_main w in
  diagram r = None ∧
  ([EvPrint s] `suffix_of` trace r ∧ uncaught r = Some e ∨
   s = msg_saved ∧ ∃ dot,
     dot_render w dot render_filename render_format true = Ok tt ∧
     [EvRender dot render_filename render_format true; EvPrint msg_saved;
      EvPrint (msg_render_error (exn_str w e))] `suffix_of` trace r ∧
     (uncaught r = None ↔ console w (msg_render_error (exn_str w e)) = Ok tt)).
Proof. intros Hs. cbn zeta. rewrite run_main_cases. by apply refused_run_cases. Qed.

(** C19: a console in UTF-8.  When the console takes every line made of
    scalar values, and the path chosen and the texts of the exceptions
    are such lines, no line of the run is refused: the run is the run
    of [run_fine], whatever the file holds and the model answers. *)
Theorem run_main_utf8 w :
  (∀ s, encodable s → console w s = Ok tt) →
  (∀ e, encodable (exn_str w e)) →
  (∀ caminho_pdf, chosen w = Ok caminho_pdf → encodable caminho_pdf) →
  run_main w = run_fine w ∧ Forall (takes w) (stdout (run_main w)).
Proof.
  intros Hs Hstr Hpath. assert (console_fine w) as Hf; [|by rewrite <-run_main_fine].
  unfold console_fine, taken. rewrite run_main_cases.
  eapply Forall_impl; [|exact Hs]. by apply prints_printable, printable_run_cases.
Qed.

Lemma run_main_refused_witness :
  let w := hung_up scenario1 in
  diagram (run_main w) = None ∧ uncaught (run_main w) = None ∧
  last (stdout (run_main w)) = Some (msg_render_error (lit "closed")).
Proof.
  intros w.
  destruct (run_main_refused w msg_saved (OtherError (lit "closed")))
    as [Hd [[_ [=]]|(_ & dot & _ & _ & Hu)]]; [reflexivity|compute_done|].
  split_and!; [done|by apply Hu|by vm_compute].
Defined.

Lemma run_main_utf8_witness : run_main (terse scenario1) = run_fine (terse scenario1).
Proof.
  apply run_main_utf8;
    [apply utf8_console_takes|intros e; compute_done|intros p [= <-]; compute_done].
Defined.

(** A console in Latin-1 refuses the first line of every run that gets
    past the dialog, and the file is not opened; a console that fails
    once the diagram is saved makes the run report an error of the
    rendering. *)
Example run_main_console_examples :
  run_main (narrow scenario1) =
    RunResult (dialog ++ [EvPrint (msg_selected (lit "aula.pdf"))]) None (Some UnicodeError) ∧
  uncaught (run_main (set_console latin1_console cancelled)) = Some UnicodeError ∧
  ¬ console_fine (narrow scenario1) ∧
  trace (run_main (hung_up scenario1)) =
    trace (run_main (working scenario1)) ++ [EvPrint (msg_render_error (lit "closed"))] ∧
  diagram (run_main (hung_up scenario1)) = None ∧
  uncaught (run_main (hung_up scenario1)) = None.
Proof. split_and!; [by vm_compute|by vm_compute|compute_done|by vm_compute..]. Qed.
